(** * KDDockWidgets: side-bar placement, overlay orchestration, layout
      snapshots, resize handling and guest minimum sizes

    A shallow embedding of
      - [src/private/multisplitter/GuestWidget.cpp],
      - [src/private/WidgetResizeHandler.cpp],
      - the [MainWindowBase] implementation found in
        [src/private/widgets/SideBarWidget.cpp],
    together with the properties the specification states about them.

    C++ [int] is modelled by [Z]; signed overflow is undefined behaviour in
    C++, so the model describes the executions in which no [int] operation
    overflows.  Flag enumerations are [Z] bit masks combined with
    [Z.lor], [Z.land] and [Z.lnot], as the code combines them. *)

From Stdlib Require Import ZArith QArith Lia.
From stdpp Require Import base decidable option list gmap strings.

Local Open Scope Z_scope.

(** ** Qt value types *)

Record QPoint : Type := mkQPoint { px : Z; py : Z }.

Record QSize : Type := mkQSize { wd : Z; ht : Z }.

(** [QRect] stores its two corners; the width of a rectangle is
    [x2 - x1 + 1]. *)
Record QRect : Type := mkQRect { x1 : Z; y1 : Z; x2 : Z; y2 : Z }.

#[global] Instance QPoint_eq_dec : EqDecision QPoint.
Proof. solve_decision. Defined.
#[global] Instance QSize_eq_dec : EqDecision QSize.
Proof. solve_decision. Defined.
#[global] Instance QRect_eq_dec : EqDecision QRect.
Proof. solve_decision. Defined.

Definition qMax (a b : Z) : Z := if decide (a < b) then b else a.
Definition qMin (a b : Z) : Z := if decide (a < b) then a else b.
Definition qAbs (t : Z) : Z := if decide (t >= 0) then t else - t.

(** [qBound(min, val, max)] is [qMax(min, qMin(max, val))]. *)
Definition qBound (min val max : Z) : Z := qMax min (qMin max val).

Module Rect.

Definition left (r : QRect) : Z := x1 r.
Definition top (r : QRect) : Z := y1 r.
Definition right (r : QRect) : Z := x2 r.
Definition bottom (r : QRect) : Z := y2 r.
Definition width (r : QRect) : Z := x2 r - x1 r + 1.
Definition height (r : QRect) : Z := y2 r - y1 r + 1.

Definition setLeft (pos : Z) (r : QRect) : QRect :=
  {| x1 := pos; y1 := y1 r; x2 := x2 r; y2 := y2 r |}.
Definition setRight (pos : Z) (r : QRect) : QRect :=
  {| x1 := x1 r; y1 := y1 r; x2 := pos; y2 := y2 r |}.
Definition setTop (pos : Z) (r : QRect) : QRect :=
  {| x1 := x1 r; y1 := pos; x2 := x2 r; y2 := y2 r |}.
Definition setBottom (pos : Z) (r : QRect) : QRect :=
  {| x1 := x1 r; y1 := y1 r; x2 := x2 r; y2 := pos |}.

(** [QRect(0, 0, w, h)], the value of [QWidget::rect()]. *)
Definition ofSize (w h : Z) : QRect :=
  {| x1 := 0; y1 := 0; x2 := w - 1; y2 := h - 1 |}.

(** [marginsAdded(QMargins(l, t, r, b))]. *)
Definition marginsAdded (l t r b : Z) (rc : QRect) : QRect :=
  {| x1 := x1 rc - l; y1 := y1 rc - t; x2 := x2 rc + r; y2 := y2 rc + b |}.

(** [QRect::contains(p)] with [proper = false]; a rectangle whose second
    corner precedes the first is read with its corners swapped. *)
Definition contains (rc : QRect) (p : QPoint) : bool :=
  let '(l, r) := if decide (x2 rc < x1 rc - 1) then (x2 rc, x1 rc)
                 else (x1 rc, x2 rc) in
  let '(t, b) := if decide (y2 rc < y1 rc - 1) then (y2 rc, y1 rc)
                 else (y1 rc, y2 rc) in
  if decide (px p < l ∨ px p > r) then false
  else if decide (py p < t ∨ py p > b) then false
  else true.

End Rect.

(** The [QRect] operations that [rectForOverlay] uses. *)
Module RectMove.

(** [QRect()], the null rectangle. *)
Definition null : QRect := {| x1 := 0; y1 := 0; x2 := -1; y2 := -1 |}.

Definition x (r : QRect) : Z := x1 r.
Definition y (r : QRect) : Z := y1 r.

Definition setWidth (w : Z) (r : QRect) : QRect :=
  {| x1 := x1 r; y1 := y1 r; x2 := x1 r + w - 1; y2 := y2 r |}.
Definition setHeight (h : Z) (r : QRect) : QRect :=
  {| x1 := x1 r; y1 := y1 r; x2 := x2 r; y2 := y1 r + h - 1 |}.

(** [moveLeft] and [moveTop] keep the size. *)
Definition moveLeft (pos : Z) (r : QRect) : QRect :=
  {| x1 := pos; y1 := y1 r; x2 := x2 r + (pos - x1 r); y2 := y2 r |}.
Definition moveTop (pos : Z) (r : QRect) : QRect :=
  {| x1 := x1 r; y1 := pos; x2 := x2 r; y2 := y2 r + (pos - y1 r) |}.

End RectMove.

(** [QSize::expandedTo]: the componentwise maximum. *)
Definition expandedTo (s other : QSize) : QSize :=
  {| wd := qMax (wd s) (wd other); ht := qMax (ht s) (ht other) |}.

(** ** Warnings

    A function that reports through [qWarning()] returns its result together
    with the messages it printed, in order. *)

Definition Log (A : Type) : Type := (A * list string)%type.

Definition ret {A : Type} (a : A) : Log A := (a, []).

Definition bind {A B : Type} (m : Log A) (k : A -> Log B) : Log B :=
  let '(a, l1) := m in
  let '(b, l2) := k a in
  (b, l1 ++ l2).

Definition qWarning (msg : string) : Log unit := (tt, [msg]).

(** ** GuestWidget.cpp *)

Module GuestWidget.

(** The part of a [QWidget] that [widgetMinSize] reads. *)
Record QWidget : Type := mkQWidget {
  minimumWidth : Z;
  minimumHeight : Z;
  minimumSizeHint : QSize;
}.

Section MinSize.

(** [Item::hardcodedMinimumSize], a constant defined with [Item]. *)
Variable hardcodedMinimumSize : QSize.

Definition widgetMinSize (w : QWidget) : QSize :=
  let minW := if decide (minimumWidth w > 0) then minimumWidth w
              else wd (minimumSizeHint w) in
  let minH := if decide (minimumHeight w > 0) then minimumHeight w
              else ht (minimumSizeHint w) in
  expandedTo {| wd := minW; ht := minH |} hardcodedMinimumSize.

(** [asWidget()] yields the widget the guest wraps. *)
Definition minSize (asWidget : QWidget) : QSize := widgetMinSize asWidget.

End MinSize.

End GuestWidget.

(** ** Side bars and layout borders *)

Inductive SideBarLocation : Type :=
| SideBarLocation_None
| SideBarLocation_North
| SideBarLocation_East
| SideBarLocation_West
| SideBarLocation_South.

#[global] Instance SideBarLocation_eq_dec : EqDecision SideBarLocation.
Proof. solve_decision. Defined.

(** Modelled from the spec: the enumerators of
    [Layouting::Item::LayoutBorderLocation], declared in [Item_p.h], which is
    not among the sources.  The spec describes a bitset over
    {North, East, West, South} with the derived combinations All, Verticals
    (West and East), Horizontals (North and South) and None. *)
Definition LayoutBorderLocation_None : Z := 0.
Definition LayoutBorderLocation_North : Z := 1.
Definition LayoutBorderLocation_East : Z := 2.
Definition LayoutBorderLocation_West : Z := 4.
Definition LayoutBorderLocation_South : Z := 8.
Definition LayoutBorderLocation_All : Z :=
  Z.lor (Z.lor (Z.lor LayoutBorderLocation_North LayoutBorderLocation_East)
               LayoutBorderLocation_West) LayoutBorderLocation_South.
Definition LayoutBorderLocation_Verticals : Z :=
  Z.lor LayoutBorderLocation_West LayoutBorderLocation_East.
Definition LayoutBorderLocation_Horizontals : Z :=
  Z.lor LayoutBorderLocation_North LayoutBorderLocation_South.

(** The bitset of a region that touches the given outer borders. *)
Definition borders_of (north east west south : bool) : Z :=
  Z.lor (Z.lor (Z.lor (if north then LayoutBorderLocation_North else 0)
                      (if east then LayoutBorderLocation_East else 0))
               (if west then LayoutBorderLocation_West else 0))
        (if south then LayoutBorderLocation_South else 0).

Module Placement.

Definition opposedSideBarLocationForBorder (loc : Z) : Log SideBarLocation :=
  if decide (loc = LayoutBorderLocation_North) then ret SideBarLocation_South
  else if decide (loc = LayoutBorderLocation_East) then ret SideBarLocation_West
  else if decide (loc = LayoutBorderLocation_West) then ret SideBarLocation_East
  else if decide (loc = LayoutBorderLocation_South) then ret SideBarLocation_North
  else bind (qWarning "opposedSideBarLocationForBorder: Unknown loc")
            (fun _ => ret SideBarLocation_None).

Definition sideBarLocationForBorder (loc : Z) : SideBarLocation :=
  if decide (loc = LayoutBorderLocation_North) then SideBarLocation_North
  else if decide (loc = LayoutBorderLocation_East) then SideBarLocation_East
  else if decide (loc = LayoutBorderLocation_West) then SideBarLocation_West
  else if decide (loc = LayoutBorderLocation_South) then SideBarLocation_South
  else SideBarLocation_None.

(** The range-for of step 2: the first [borderLoc] of the list with
    [borders == (LayoutBorderLocation_All & ~borderLoc)]. *)
Fixpoint missingBorder (borders : Z) (locs : list Z) : option Z :=
  match locs with
  | [] => None
  | borderLoc :: rest =>
      if decide (borders = Z.land LayoutBorderLocation_All (Z.lnot borderLoc))
      then Some borderLoc
      else missingBorder borders rest
  end.

(** [width / (height * 1.0)] as an exact quotient, for [height <> 0]. *)
Definition aspectRatio (width height : Z) : Q :=
  (inject_Z width / inject_Z height)%Q.

(** The test [aspectRatio > 1.0].  Both operands of the division are [int]s,
    which a [double] represents exactly, and the quotient of two such values
    lies above 1 by at least [1/|height|] when it lies above 1 at all, so
    rounding does not change the outcome of the comparison.  A zero height
    divides by [0.0]: the quotient is then +infinity for a positive width,
    and NaN or -infinity otherwise, and only +infinity exceeds 1.0. *)
Definition aspectRatio_gt_1 (width height : Z) : bool :=
  if decide (height = 0) then bool_decide (0 < width)
  else negb (Qle_bool (aspectRatio width height) 1).

(** What [preferredSideBar] reads of the layout item of a dock widget. *)
Record Item : Type := mkItem { adjacentLayoutBorders : Z }.

Section PreferredSideBar.

(** Dock widgets are referred to by pointer. *)
Variable DockWidgetBase : Type.

(** [q->multiSplitter()->itemForFrame(dw->frame())]: the item of the layout
    tree that holds the frame of [dw], if there is one. *)
Variable itemForFrameOf : DockWidgetBase -> option Item.

(** [dw->width()] and [dw->height()]. *)
Variable width height : DockWidgetBase -> Z.

Definition preferredSideBar (dw : DockWidgetBase) : Log SideBarLocation :=
  match itemForFrameOf dw with
  | None =>
      bind (qWarning "preferredSideBar: No item for dock widget")
           (fun _ => ret SideBarLocation_None)
  | Some item =>
      let borders := adjacentLayoutBorders item in
      let wide := aspectRatio_gt_1 (width dw) (height dw) in
      (* 1. It's touching all borders *)
      if decide (borders = LayoutBorderLocation_All) then
        ret (if wide then SideBarLocation_South else SideBarLocation_East)
      else
      (* 2. It's touching 3 borders *)
      match missingBorder borders
              [LayoutBorderLocation_North; LayoutBorderLocation_East;
               LayoutBorderLocation_West; LayoutBorderLocation_South] with
      | Some borderLoc => opposedSideBarLocationForBorder borderLoc
      | None =>
      (* 3. It's touching left and right borders *)
      if decide (Z.land borders LayoutBorderLocation_Verticals
                 = LayoutBorderLocation_Verticals) then
        ret SideBarLocation_South
      (* 4. It's touching top and bottom borders *)
      else if decide (Z.land borders LayoutBorderLocation_Horizontals
                      = LayoutBorderLocation_Horizontals) then
        ret SideBarLocation_East
      (* 5. It's in a corner *)
      else if decide (borders = Z.lor LayoutBorderLocation_West
                                      LayoutBorderLocation_South) then
        ret (if wide then SideBarLocation_South else SideBarLocation_West)
      else if decide (borders = Z.lor LayoutBorderLocation_East
                                      LayoutBorderLocation_South) then
        ret (if wide then SideBarLocation_South else SideBarLocation_East)
      else if decide (borders = Z.lor LayoutBorderLocation_West
                                      LayoutBorderLocation_North) then
        ret (if wide then SideBarLocation_North else SideBarLocation_West)
      else if decide (borders = Z.lor LayoutBorderLocation_East
                                      LayoutBorderLocation_North) then
        ret (if wide then SideBarLocation_North else SideBarLocation_East)
      else
      (* 6. It's only touching 1 border *)
      let loc := sideBarLocationForBorder borders in
      if decide (loc <> SideBarLocation_None) then ret loc
      else
      (* It's not touching any border, use aspect ratio. *)
      ret (if wide then SideBarLocation_South else SideBarLocation_West)
      end
  end.

End PreferredSideBar.

(** The decision table of the specification (section 4.3), read off its
    seven rules in order; [wide] stands for "aspect ratio > 1.0". *)
Definition touched (north east west south : bool) : nat :=
  (Nat.b2n north + Nat.b2n east + Nat.b2n west + Nat.b2n south)%nat.

Definition preferredLocation_rules
    (north east west south wide : bool) : SideBarLocation :=
  match touched north east west south with
  | 4%nat => if wide then SideBarLocation_South else SideBarLocation_East
  | 3%nat =>
      if negb north then SideBarLocation_South
      else if negb east then SideBarLocation_West
      else if negb west then SideBarLocation_East
      else SideBarLocation_North
  | 2%nat =>
      if east && west then SideBarLocation_South
      else if north && south then SideBarLocation_East
      else if wide
           then (if south then SideBarLocation_South else SideBarLocation_North)
           else (if west then SideBarLocation_West else SideBarLocation_East)
  | 1%nat =>
      if north then SideBarLocation_North
      else if east then SideBarLocation_East
      else if west then SideBarLocation_West
      else SideBarLocation_South
  | _ => if wide then SideBarLocation_South else SideBarLocation_West
  end.

(** "Aspect ratio > 1.0" in the words of the specification: the quotient of
    the width by the height, a rational number, is greater than 1.  The
    quotient exists for a height other than 0. *)
Definition aspectRatioAbove1 (width height : Z) : Prop :=
  (1 < inject_Z width / inject_Z height)%Q.

End Placement.

(** ** WidgetResizeHandler.cpp *)

Module WidgetResizeHandler.

Definition widgetResizeHandlerMargin : Z := 4.

(** Modelled from the spec: the enumerators of
    [WidgetResizeHandler::CursorPosition], declared in
    [WidgetResizeHandler_p.h], which is not among the sources.  The spec
    describes a bitmask of the four edges whose unions are the corners
    (Left|Top, Right|Bottom, ...), with "undefined" for no edge. *)
Definition CursorPosition_Undefined : Z := 0.
Definition CursorPosition_Left : Z := 1.
Definition CursorPosition_Right : Z := 2.
Definition CursorPosition_Top : Z := 4.
Definition CursorPosition_Bottom : Z := 8.
Definition CursorPosition_TopLeft : Z :=
  Z.lor CursorPosition_Top CursorPosition_Left.
Definition CursorPosition_TopRight : Z :=
  Z.lor CursorPosition_Top CursorPosition_Right.
Definition CursorPosition_BottomRight : Z :=
  Z.lor CursorPosition_Bottom CursorPosition_Right.
Definition CursorPosition_BottomLeft : Z :=
  Z.lor CursorPosition_Bottom CursorPosition_Left.

(** [Qt::LeftButton]. *)
Definition LeftButton : Z := 1.

Inductive CursorShape : Type :=
| ArrowCursor | SizeFDiagCursor | SizeBDiagCursor | SizeVerCursor
| SizeHorCursor.

(** What the handler reads and writes of its target widget.
    [QWidget::width()] and [height()] are those of [geometry()], and
    [setGeometry] is modelled as storing the rectangle it is given. *)
Record Widget : Type := mkWidget {
  geometry : QRect;
  minimumWidth : Z;
  maximumWidth : Z;
  minimumHeight : Z;
  maximumHeight : Z;
  isMaximized : bool;
}.

Definition width (w : Widget) : Z := Rect.width (geometry w).
Definition height (w : Widget) : Z := Rect.height (geometry w).
Definition rect (w : Widget) : QRect := Rect.ofSize (width w) (height w).

Definition setGeometry (g : QRect) (w : Widget) : Widget :=
  {| geometry := g;
     minimumWidth := minimumWidth w; maximumWidth := maximumWidth w;
     minimumHeight := minimumHeight w; maximumHeight := maximumHeight w;
     isMaximized := isMaximized w |}.

(** The handler, its target and the static switch [s_disableAllHandlers].
    [eventFilter] and [mouseMoveEvent] dereference [mTarget] without a test,
    so the state carries a target. *)
Record Handler : Type := mkHandler {
  s_disableAllHandlers : bool;
  mFilterIsGlobal : bool;
  mResizeWidget : bool;
  mNewPosition : QPoint;
  mCursorPos : Z;
  mTarget : Widget;
}.

Definition set_mResizeWidget (b : bool) (h : Handler) : Handler :=
  {| s_disableAllHandlers := s_disableAllHandlers h;
     mFilterIsGlobal := mFilterIsGlobal h;
     mResizeWidget := b;
     mNewPosition := mNewPosition h;
     mCursorPos := mCursorPos h;
     mTarget := mTarget h |}.

Definition set_press (p : QPoint) (c : Z) (h : Handler) : Handler :=
  {| s_disableAllHandlers := s_disableAllHandlers h;
     mFilterIsGlobal := mFilterIsGlobal h;
     mResizeWidget := mResizeWidget h;
     mNewPosition := p;
     mCursorPos := c;
     mTarget := mTarget h |}.

Definition set_mTarget (w : Widget) (h : Handler) : Handler :=
  {| s_disableAllHandlers := s_disableAllHandlers h;
     mFilterIsGlobal := mFilterIsGlobal h;
     mResizeWidget := mResizeWidget h;
     mNewPosition := mNewPosition h;
     mCursorPos := mCursorPos h;
     mTarget := w |}.

(** Calls into the toolkit that leave the handler and the geometry alone. *)
Inductive Effect : Type :=
| ResetChildCursors
| SetOverrideCursor (c : CursorShape)
| RestoreOverrideCursor
| SetCursor (c : CursorShape)
| ReleaseMouse
| ReleaseKeyboard.

Inductive EventType : Type :=
| MouseButtonPress | MouseButtonRelease | MouseMove | OtherEvent.

Record QMouseEvent : Type := mkQMouseEvent {
  globalPos : QPoint;
  button : Z;
  buttons : Z;
}.

Record QEvent : Type := mkQEvent { type : EventType; mouse : QMouseEvent }.

(** The watched object [o]: whether [qobject_cast<QWidgetOrQuick*>(o)]
    succeeds, whether that widget is top-level, and whether [o == mTarget]. *)
Record QObject : Type := mkQObject {
  isWidget : bool;
  isTopLevel : bool;
  isTarget : bool;
}.

Section Handler.

(** [QWidget::mapFromGlobal] of the toolkit. *)
Variable mapFromGlobal : Widget -> QPoint -> QPoint.

(** Whether the build defines [KDDOCKWIDGETS_QTWIDGETS]. *)
Variable KDDOCKWIDGETS_QTWIDGETS : bool.

Definition cursorPosition (target : option Widget) (globalPos : QPoint) : Z :=
  match target with
  | None => CursorPosition_Undefined
  | Some mTarget =>
      let pos := mapFromGlobal mTarget globalPos in
      let x := px pos in
      let y := py pos in
      let margin := widgetResizeHandlerMargin in
      let result := CursorPosition_Undefined in
      let result :=
        if decide (qAbs x <= margin) then Z.lor result CursorPosition_Left
        else if decide (qAbs (x - (width mTarget - margin)) <= margin)
             then Z.lor result CursorPosition_Right
             else result in
      let result :=
        if decide (qAbs y <= margin) then Z.lor result CursorPosition_Top
        else if decide (qAbs (y - (height mTarget - margin)) <= margin)
             then Z.lor result CursorPosition_Bottom
             else result in
      result
  end.

Definition setMouseCursor (h : Handler) (cursor : CursorShape) : list Effect :=
  if mFilterIsGlobal h then [SetOverrideCursor cursor] else [SetCursor cursor].

Definition restoreMouseCursor (h : Handler) : list Effect :=
  if mFilterIsGlobal h then [RestoreOverrideCursor] else [SetCursor ArrowCursor].

Definition updateCursor (h : Handler) (m : Z) : list Effect :=
  (if KDDOCKWIDGETS_QTWIDGETS then [ResetChildCursors] else []) ++
  (if decide (m = CursorPosition_TopLeft ∨ m = CursorPosition_BottomRight)
   then setMouseCursor h SizeFDiagCursor
   else if decide (m = CursorPosition_BottomLeft ∨ m = CursorPosition_TopRight)
   then setMouseCursor h SizeBDiagCursor
   else if decide (m = CursorPosition_Top ∨ m = CursorPosition_Bottom)
   then setMouseCursor h SizeVerCursor
   else if decide (m = CursorPosition_Left ∨ m = CursorPosition_Right)
   then setMouseCursor h SizeHorCursor
   else if decide (m = CursorPosition_Undefined)
   then restoreMouseCursor h
   else []).

(** The first block of [mouseMoveEvent]: the horizontal edge. *)
Definition resizeWidth (mTarget : Widget) (mCursorPos : Z) (globalPos : QPoint)
    (oldGeometry newGeometry : QRect) : QRect :=
  let minWidth := minimumWidth mTarget in
  let maxWidth := maximumWidth mTarget in
  if decide (mCursorPos = CursorPosition_TopLeft ∨
             mCursorPos = CursorPosition_Left ∨
             mCursorPos = CursorPosition_BottomLeft) then
    let deltaWidth := Rect.left oldGeometry - px globalPos in
    let newWidth := qBound minWidth (width mTarget + deltaWidth) maxWidth in
    let deltaWidth := newWidth - width mTarget in
    if decide (deltaWidth <> 0)
    then Rect.setLeft (Rect.left newGeometry - deltaWidth) newGeometry
    else newGeometry
  else if decide (mCursorPos = CursorPosition_TopRight ∨
                  mCursorPos = CursorPosition_Right ∨
                  mCursorPos = CursorPosition_BottomRight) then
    let deltaWidth := px globalPos - Rect.right newGeometry in
    let newWidth := qBound minWidth (width mTarget + deltaWidth) maxWidth in
    let deltaWidth := newWidth - width mTarget in
    if decide (deltaWidth <> 0)
    then Rect.setRight (Rect.right oldGeometry + deltaWidth) newGeometry
    else newGeometry
  else newGeometry.

(** The second block of [mouseMoveEvent]: the vertical edge. *)
Definition resizeHeight (mTarget : Widget) (mCursorPos : Z) (globalPos : QPoint)
    (oldGeometry newGeometry : QRect) : QRect :=
  let maxHeight := maximumHeight mTarget in
  let minHeight := minimumHeight mTarget in
  if decide (mCursorPos = CursorPosition_TopLeft ∨
             mCursorPos = CursorPosition_Top ∨
             mCursorPos = CursorPosition_TopRight) then
    let deltaHeight := Rect.top oldGeometry - py globalPos in
    let newHeight := qBound minHeight (height mTarget + deltaHeight) maxHeight in
    let deltaHeight := newHeight - height mTarget in
    if decide (deltaHeight <> 0)
    then Rect.setTop (Rect.top newGeometry - deltaHeight) newGeometry
    else newGeometry
  else if decide (mCursorPos = CursorPosition_BottomLeft ∨
                  mCursorPos = CursorPosition_Bottom ∨
                  mCursorPos = CursorPosition_BottomRight) then
    let deltaHeight := py globalPos - Rect.bottom newGeometry in
    let newHeight := qBound minHeight (height mTarget + deltaHeight) maxHeight in
    let deltaHeight := newHeight - height mTarget in
    if decide (deltaHeight <> 0)
    then Rect.setBottom (Rect.bottom oldGeometry + deltaHeight) newGeometry
    else newGeometry
  else newGeometry.

Definition mouseMoveEvent (h : Handler) (e : QMouseEvent)
    : bool * Handler * list Effect :=
  let globalPos := globalPos e in
  if negb (mResizeWidget h) then
    let pos := cursorPosition (Some (mTarget h)) globalPos in
    (bool_decide (pos <> CursorPosition_Undefined), h, updateCursor h pos)
  else
    let oldGeometry := geometry (mTarget h) in
    let newGeometry := oldGeometry in
    let newGeometry :=
      resizeWidth (mTarget h) (mCursorPos h) globalPos oldGeometry newGeometry in
    let newGeometry :=
      resizeHeight (mTarget h) (mCursorPos h) globalPos oldGeometry newGeometry in
    if decide (newGeometry <> geometry (mTarget h))
    then (true, set_mTarget (setGeometry newGeometry (mTarget h)) h, [])
    else (true, h, []).

Definition eventFilter (h : Handler) (o : QObject) (e : QEvent)
    : bool * Handler * list Effect :=
  if s_disableAllHandlers h then (false, h, [])
  else if negb (isWidget o) then (false, h, [])
  else if negb (mFilterIsGlobal h) && (negb (isTopLevel o) || negb (isTarget o))
  then (false, h, [])
  else
    match type e with
    | MouseButtonPress =>
        if isMaximized (mTarget h) then (false, h, [])
        else
          let mouseEvent := mouse e in
          let cursorPos := cursorPosition (Some (mTarget h)) (globalPos mouseEvent) in
          if decide (cursorPos = CursorPosition_Undefined) then (false, h, [])
          else
            let m := widgetResizeHandlerMargin in
            let widgetRect := Rect.marginsAdded m m m m (rect (mTarget h)) in
            let cursorPoint := mapFromGlobal (mTarget h) (globalPos mouseEvent) in
            if negb (Rect.contains widgetRect cursorPoint) then (false, h, [])
            else
              let h := if decide (button mouseEvent = LeftButton)
                       then set_mResizeWidget true h else h in
              (true, set_press (globalPos mouseEvent) cursorPos h, [])
    | MouseButtonRelease =>
        if isMaximized (mTarget h) then (false, h, [])
        else
          let mouseEvent := mouse e in
          if decide (button mouseEvent = LeftButton)
          then (true, set_mResizeWidget false h, [ReleaseMouse; ReleaseKeyboard])
          else (false, h, [])
    | MouseMove =>
        if isMaximized (mTarget h) then (false, h, [])
        else
          let mouseEvent := mouse e in
          let h := set_mResizeWidget
                     (mResizeWidget h &&
                      bool_decide (Z.land (buttons mouseEvent) LeftButton <> 0)) h in
          let state := mResizeWidget h in
          let h := set_mResizeWidget (isTarget o && mResizeWidget h) h in
          let '(consumed, h, effects) := mouseMoveEvent h mouseEvent in
          let h := set_mResizeWidget state h in
          (consumed, h, effects)
    | OtherEvent => (false, h, [])
    end.

(** A gesture replayed through [mouseMoveEvent], one pointer position after
    the other. *)
Fixpoint mouseMoves (h : Handler) (es : list QMouseEvent) : Handler :=
  match es with
  | [] => h
  | e :: rest => mouseMoves (mouseMoveEvent h e).1.2 rest
  end.

(** Events delivered to [eventFilter], one after the other. *)
Fixpoint eventFilters (h : Handler) (es : list (QObject * QEvent)) : Handler :=
  match es with
  | [] => h
  | (o, e) :: rest => eventFilters (eventFilter h o e).1.2 rest
  end.

End Handler.

(** The hit classification as the specification words it: within the margin
    of the left boundary (x = 0), else of the right boundary (x = width),
    and the same for top (y = 0) and bottom (y = height). *)
Definition within_margin (a boundary : Z) : bool :=
  bool_decide (Z.abs (a - boundary) <= widgetResizeHandlerMargin).

Definition classify_by_boundary (w h : Z) (pos : QPoint) : Z :=
  Z.lor
    (if within_margin (px pos) 0 then CursorPosition_Left
     else if within_margin (px pos) w then CursorPosition_Right
     else CursorPosition_Undefined)
    (if within_margin (py pos) 0 then CursorPosition_Top
     else if within_margin (py pos) h then CursorPosition_Bottom
     else CursorPosition_Undefined).

(** The hit classification as the code computes it: the left zone is the
    band of one margin on either side of x = 0, the right zone the band of
    one margin on either side of x = width - margin, that is, the two
    margins inside the right boundary; the same for top and bottom. *)
Definition horizontalZone (w x : Z) : Z :=
  if decide (- widgetResizeHandlerMargin <= x <= widgetResizeHandlerMargin)
  then CursorPosition_Left
  else if decide (w - 2 * widgetResizeHandlerMargin <= x <= w)
  then CursorPosition_Right
  else CursorPosition_Undefined.

Definition verticalZone (h y : Z) : Z :=
  if decide (- widgetResizeHandlerMargin <= y <= widgetResizeHandlerMargin)
  then CursorPosition_Top
  else if decide (h - 2 * widgetResizeHandlerMargin <= y <= h)
  then CursorPosition_Bottom
  else CursorPosition_Undefined.

(** The edges a session pinned to [c] drags. *)
Definition dragsLeft (c : Z) : Prop :=
  c = CursorPosition_TopLeft ∨ c = CursorPosition_Left ∨
  c = CursorPosition_BottomLeft.
Definition dragsRight (c : Z) : Prop :=
  c = CursorPosition_TopRight ∨ c = CursorPosition_Right ∨
  c = CursorPosition_BottomRight.
Definition dragsTop (c : Z) : Prop :=
  c = CursorPosition_TopLeft ∨ c = CursorPosition_Top ∨
  c = CursorPosition_TopRight.
Definition dragsBottom (c : Z) : Prop :=
  c = CursorPosition_BottomLeft ∨ c = CursorPosition_Bottom ∨
  c = CursorPosition_BottomRight.

(** The size of the target respects its size constraints. *)
Definition within_constraints (t : Widget) : Prop :=
  minimumWidth t <= width t <= maximumWidth t ∧
  minimumHeight t <= height t <= maximumHeight t.

(** The three tests at the head of [eventFilter] let the event through, and
    the target is not maximized. *)
Definition reachesTarget (h : Handler) (o : QObject) : Prop :=
  s_disableAllHandlers h = false ∧ isWidget o = true ∧
  (mFilterIsGlobal h = true ∨ (isTopLevel o = true ∧ isTarget o = true)) ∧
  isMaximized (mTarget h) = false.

(** The left button is among [buttons()]. *)
Definition leftButtonHeld (e : QMouseEvent) : bool :=
  bool_decide (Z.land (buttons e) LeftButton <> 0).

(** *** Native window messages (Windows) *)

(** Hit-test codes of [WinUser.h]. *)
Definition HTCAPTION : Z := 2.
Definition HTLEFT : Z := 10.
Definition HTRIGHT : Z := 11.
Definition HTTOP : Z := 12.
Definition HTTOPLEFT : Z := 13.
Definition HTTOPRIGHT : Z := 14.
Definition HTBOTTOM : Z := 15.
Definition HTBOTTOMLEFT : Z := 16.
Definition HTBOTTOMRIGHT : Z := 17.

Record RECT : Type := mkRECT {
  rc_left : Z; rc_top : Z; rc_right : Z; rc_bottom : Z;
}.

(** The messages the handler tells apart; [WM_NCHITTEST] carries the point
    that [GET_X_LPARAM] and [GET_Y_LPARAM] read from [lParam]. *)
Inductive MSG : Type :=
| WM_NCCALCSIZE
| WM_NCHITTEST (xPos yPos : Z)
| WM_NCLBUTTONDBLCLK
| WM_GETMINMAXINFO
| WM_other.

(** What the handler asks of the floating window and of the toolkit. *)
Record NativeEnv : Type := mkNativeEnv {
  isInClientDrag : bool;                 (* DragController::instance() *)
  windowRect : RECT;                     (* GetWindowRect *)
  fromNativePixels : QPoint -> QPoint;   (* QHighDpi::fromNativePixels *)
  dragRect : QRect;                      (* w->dragRect() *)
  inDisallowDragWidget : QPoint -> bool;
  Flag_DoubleClickMaximizes : bool;      (* Config::self().flags() *)
  titleBarIsVisible : bool;              (* w->titleBar() && isVisible() *)
  onPrimaryScreen : bool;                (* screen && window screen == screen *)
}.

Inductive NativeEffect : Type :=
| TitleBarDoubleClicked
| DefWindowProcCalled
| MinMaxInfoPatched.

(** What a call leaves behind: the return value, [*result] when it has been
    written, the hit test stored with [setLastHitTest] when it has been
    called, and the calls made. *)
Record NativeOutcome : Type := mkNativeOutcome {
  handled : bool;
  result : option Z;
  lastHitTest : option Z;
  nativeEffects : list NativeEffect;
}.

(** The chain of tests of the [WM_NCHITTEST] branch, starting from
    [*result = 0]. *)
Definition ncHitTest (env : NativeEnv) (w : Widget) (xPos yPos : Z) : Z :=
  let borderWidth := 8 in
  let hasFixedWidth := bool_decide (minimumWidth w = maximumWidth w) in
  let hasFixedHeight := bool_decide (minimumHeight w = maximumHeight w) in
  let rect := windowRect env in
  if decide (xPos >= rc_left rect ∧ xPos <= rc_left rect + borderWidth ∧
             yPos <= rc_bottom rect ∧ yPos >= rc_bottom rect - borderWidth)
  then HTBOTTOMLEFT
  else if decide (xPos < rc_right rect ∧ xPos >= rc_right rect - borderWidth ∧
                  yPos <= rc_bottom rect ∧ yPos >= rc_bottom rect - borderWidth)
  then HTBOTTOMRIGHT
  else if decide (xPos >= rc_left rect ∧ xPos <= rc_left rect + borderWidth ∧
                  yPos >= rc_top rect ∧ yPos <= rc_top rect + borderWidth)
  then HTTOPLEFT
  else if decide (xPos <= rc_right rect ∧ xPos >= rc_right rect - borderWidth ∧
                  yPos >= rc_top rect ∧ yPos < rc_top rect + borderWidth)
  then HTTOPRIGHT
  else if negb hasFixedWidth &&
          bool_decide (xPos >= rc_left rect ∧ xPos <= rc_left rect + borderWidth)
  then HTLEFT
  else if negb hasFixedHeight &&
          bool_decide (yPos >= rc_top rect ∧ yPos <= rc_top rect + borderWidth)
  then HTTOP
  else if negb hasFixedHeight &&
          bool_decide (yPos <= rc_bottom rect ∧ yPos >= rc_bottom rect - borderWidth)
  then HTBOTTOM
  else if negb hasFixedWidth &&
          bool_decide (xPos <= rc_right rect ∧ xPos >= rc_right rect - borderWidth)
  then HTRIGHT
  else
    let globalPosQt := fromNativePixels env (mkQPoint xPos yPos) in
    let htCaptionRect := dragRect env in
    if decide (py globalPosQt >= Rect.top htCaptionRect ∧
               py globalPosQt <= Rect.bottom htCaptionRect ∧
               px globalPosQt >= Rect.left htCaptionRect ∧
               px globalPosQt <= Rect.right htCaptionRect)
    then if negb (inDisallowDragWidget env globalPosQt) then HTCAPTION else 0
    else 0.

(** [handleWindowsNativeEvent]; [genericMSG] tells whether [eventType] is
    "windows_generic_MSG".  The sizes written for [WM_GETMINMAXINFO] are
    left out, the patch is recorded. *)
Definition handleWindowsNativeEvent (env : NativeEnv) (w : Widget)
    (genericMSG : bool) (msg : MSG) : NativeOutcome :=
  if negb genericMSG then mkNativeOutcome false None None []
  else
    match msg with
    | WM_NCCALCSIZE => mkNativeOutcome true (Some 0) None []
    | WM_NCHITTEST xPos yPos =>
        if isInClientDrag env then mkNativeOutcome false (Some 0) None []
        else
          let result := ncHitTest env w xPos yPos in
          mkNativeOutcome (bool_decide (result <> 0)) (Some result)
            (Some result) []
    | WM_NCLBUTTONDBLCLK =>
        if Flag_DoubleClickMaximizes env then mkNativeOutcome false None None []
        else
          mkNativeOutcome true None None
            (if titleBarIsVisible env then [TitleBarDoubleClicked] else [])
    | WM_GETMINMAXINFO =>
        if negb (onPrimaryScreen env) then mkNativeOutcome false None None []
        else
          mkNativeOutcome true (Some 0) None
            [DefWindowProcCalled; MinMaxInfoPatched]
    | WM_other => mkNativeOutcome false None None []
    end.

End WidgetResizeHandler.

(** ** MainWindowBase: overlay, side bars, snapshots *)

Definition SideBarLocation_to_nat (loc : SideBarLocation) : nat :=
  match loc with
  | SideBarLocation_None => 0
  | SideBarLocation_North => 1
  | SideBarLocation_East => 2
  | SideBarLocation_West => 3
  | SideBarLocation_South => 4
  end.

Definition SideBarLocation_of_nat (n : nat) : option SideBarLocation :=
  match n with
  | 0%nat => Some SideBarLocation_None
  | 1%nat => Some SideBarLocation_North
  | 2%nat => Some SideBarLocation_East
  | 3%nat => Some SideBarLocation_West
  | 4%nat => Some SideBarLocation_South
  | _ => None
  end.

#[global] Program Instance SideBarLocation_countable : Countable SideBarLocation :=
  inj_countable SideBarLocation_to_nat SideBarLocation_of_nat _.
Next Obligation. now intros []. Qed.

Module MainWindowBase.

(** Dock widgets and frames are referred to by pointer; a pointer is a
    number, and a nullable pointer an [option]. *)
Abbreviation DockWidget := nat.
Abbreviation Frame := nat.

(** Modelled from the spec: [SideBar] (its implementation is not among the
    sources) holds an ordered sequence of minimized panels; [addDockWidget]
    appends to it, [removeDockWidget] takes the panel out of it, [clear]
    empties it and [serialize] lists the panels' unique names in order. *)
Module SideBar.
Definition addDockWidget (dw : DockWidget) (sb : list DockWidget) : list DockWidget :=
  sb ++ [dw].
Definition removeDockWidget (dw : DockWidget) (sb : list DockWidget) : list DockWidget :=
  filter (fun x => x <> dw) sb.
Definition containsDockWidget (dw : option DockWidget) (sb : list DockWidget) : bool :=
  match dw with
  | None => false
  | Some dw => bool_decide (dw ∈ sb)
  end.
Definition clear (sb : list DockWidget) : list DockWidget := [].
Definition serialize (uniqueName : DockWidget -> string) (sb : list DockWidget)
  : list string := uniqueName <$> sb.
End SideBar.

Inductive Event : Type :=
| Warning (msg : string)
| IsOverlayedChanged (dw : DockWidget) (overlayed : bool)
| FrameShown (frame : Frame)
| OverlayGeometrySet (frame : option Frame) (location : SideBarLocation).

Section MainWindow.

(** The drop area with its layout tree, and the serialized form of that
    tree ([LayoutSaver::MultiSplitter]). *)
Variable DropArea : Type.
Variable MultiSplitterLayout : Type.

(** [DropArea::serialize] and [DropArea::deserialize]. *)
Variable DropArea_serialize : DropArea -> MultiSplitterLayout.
Variable DropArea_deserialize : DropArea -> MultiSplitterLayout -> DropArea * bool.

(** Modelled from the spec: [DockWidgetBase::setFloating(false)] re-docks
    the panel; here, its effect on the layout tree. *)
Variable DropArea_redock : DockWidget -> DropArea -> DropArea.

(** [DockWidgetBase::uniqueName] and [DockRegistry::dockByName], the lookup
    of a panel by its unique name. *)
Variable uniqueName : DockWidget -> string.
Variable dockByName : string -> option DockWidget.

(** The main window with what its operations reach: its private data, its
    side bars ([sideBar(loc)] is null where the map has no entry), the
    frame each dock widget sits in ([dw->frame()]) and the frames created
    with [FrameOption_IsOverlayed] that have not been deleted. *)
Record MainWindow : Type := mkMainWindow {
  name : string;
  affinities : list string;
  m_options : Z;
  m_overlayedDockWidget : option DockWidget;
  m_dropArea : DropArea;
  sideBars : gmap SideBarLocation (list DockWidget);
  geometry : QRect;
  isVisible : bool;
  screenIndex : Z;
  screenSize : QSize;
  frameOf : gmap DockWidget Frame;
  overlayFrames : list Frame;
  nextFrame : Frame;
}.

(** [LayoutSaver::MainWindow]. *)
Record Snapshot : Type := mkSnapshot {
  sv_options : Z;
  sv_geometry : QRect;
  sv_isVisible : bool;
  sv_uniqueName : string;
  sv_screenIndex : Z;
  sv_screenSize : QSize;
  sv_multiSplitterLayout : MultiSplitterLayout;
  sv_affinities : list string;
  sv_dockWidgetsPerSideBar : gmap SideBarLocation (list string);
}.

Definition set_affinities (a : list string) (w : MainWindow) : MainWindow :=
  mkMainWindow (name w) a (m_options w) (m_overlayedDockWidget w)
    (m_dropArea w) (sideBars w) (geometry w) (isVisible w) (screenIndex w)
    (screenSize w) (frameOf w) (overlayFrames w) (nextFrame w).

Definition set_overlayedDockWidget (o : option DockWidget) (w : MainWindow)
  : MainWindow :=
  mkMainWindow (name w) (affinities w) (m_options w) o
    (m_dropArea w) (sideBars w) (geometry w) (isVisible w) (screenIndex w)
    (screenSize w) (frameOf w) (overlayFrames w) (nextFrame w).

Definition set_dropArea (d : DropArea) (w : MainWindow) : MainWindow :=
  mkMainWindow (name w) (affinities w) (m_options w) (m_overlayedDockWidget w)
    d (sideBars w) (geometry w) (isVisible w) (screenIndex w)
    (screenSize w) (frameOf w) (overlayFrames w) (nextFrame w).

Definition set_sideBars (s : gmap SideBarLocation (list DockWidget))
    (w : MainWindow) : MainWindow :=
  mkMainWindow (name w) (affinities w) (m_options w) (m_overlayedDockWidget w)
    (m_dropArea w) s (geometry w) (isVisible w) (screenIndex w)
    (screenSize w) (frameOf w) (overlayFrames w) (nextFrame w).

Definition set_frames (fo : gmap DockWidget Frame) (live : list Frame)
    (next : Frame) (w : MainWindow) : MainWindow :=
  mkMainWindow (name w) (affinities w) (m_options w) (m_overlayedDockWidget w)
    (m_dropArea w) (sideBars w) (geometry w) (isVisible w) (screenIndex w)
    (screenSize w) fo live next.

(** [sideBar(loc)]. *)
Definition sideBar (w : MainWindow) (loc : SideBarLocation)
  : option (list DockWidget) := sideBars w !! loc.

(** The range-for of [sideBarForDockWidget]; the side bar found is named by
    its location. *)
Fixpoint findSideBar (w : MainWindow) (dw : option DockWidget)
    (locs : list SideBarLocation) : option SideBarLocation :=
  match locs with
  | [] => None
  | loc :: rest =>
      match sideBar w loc with
      | Some sb =>
          if SideBar.containsDockWidget dw sb then Some loc
          else findSideBar w dw rest
      | None => findSideBar w dw rest
      end
  end.

Definition sideBarForDockWidget (w : MainWindow) (dw : option DockWidget)
  : option SideBarLocation :=
  findSideBar w dw [SideBarLocation_North; SideBarLocation_South;
                    SideBarLocation_East; SideBarLocation_West].

(** [Private::updateOverlayGeometry]; the rectangle it computes is left
    out, the call that sets it is recorded. *)
Definition updateOverlayGeometry (w : MainWindow) : list Event :=
  match m_overlayedDockWidget w with
  | None => []
  | Some dw =>
      match sideBarForDockWidget w (Some dw) with
      | None => [Warning "updateOverlayGeometry: Expected a sidebar"]
      | Some loc => [OverlayGeometrySet (frameOf w !! dw) loc]
      end
  end.

(** [delete frame]; deleting a null pointer does nothing. *)
Definition deleteFrame (frame : option Frame) (live : list Frame) : list Frame :=
  match frame with
  | None => live
  | Some f => filter (fun x => x <> f) live
  end.

Definition clearSideBarOverlay (w : MainWindow) : MainWindow * list Event :=
  match m_overlayedDockWidget w with
  | None => (w, [])
  | Some dw =>
      let frame := frameOf w !! dw in
      (* setParent(nullptr) *)
      let w := set_frames (delete dw (frameOf w)) (overlayFrames w) (nextFrame w) w in
      let w := set_overlayedDockWidget None w in
      let w := set_frames (frameOf w) (deleteFrame frame (overlayFrames w))
                 (nextFrame w) w in
      (w, [IsOverlayedChanged dw false])
  end.

Definition overlayOnSideBar (w : MainWindow) (dw : option DockWidget)
  : MainWindow * list Event :=
  match dw with
  | None => (w, [])
  | Some d =>
      match sideBarForDockWidget w dw with
      | None =>
          (w, [Warning "overlayOnSideBar: You need to add the dock widget to the sidebar before you can overlay it"])
      | Some _ =>
          if decide (m_overlayedDockWidget w = dw) then (w, [])
          else
            (* We only support one overlay at a time, remove any existing overlay *)
            let '(w, ev1) := clearSideBarOverlay w in
            (* createFrame(this, FrameOption_IsOverlayed) *)
            let frame := nextFrame w in
            let w := set_frames (frameOf w) (frame :: overlayFrames w)
                       (S (nextFrame w)) w in
            let w := set_overlayedDockWidget dw w in
            (* frame->addWidget(dw) *)
            let w := set_frames (<[d := frame]> (frameOf w)) (overlayFrames w)
                       (nextFrame w) w in
            let ev2 := updateOverlayGeometry w in
            (w, ev1 ++ ev2 ++ [FrameShown frame; IsOverlayedChanged d true])
      end
  end.

Definition toggleOverlayOnSideBar (w : MainWindow) (dw : option DockWidget)
  : MainWindow * list Event :=
  let wasOverlayed := bool_decide (m_overlayedDockWidget w = dw) in
  let '(w, ev1) := clearSideBarOverlay w in
  if negb wasOverlayed then
    let '(w, ev2) := overlayOnSideBar w dw in (w, ev1 ++ ev2)
  else (w, ev1).

Definition restoreFromSideBar (w : MainWindow) (dw : DockWidget)
  : MainWindow * list Event :=
  (* First un-overlay it, if it's overlayed *)
  let '(w, ev1) :=
    if decide (Some dw = m_overlayedDockWidget w) then clearSideBarOverlay w
    else (w, []) in
  match sideBarForDockWidget w (Some dw) with
  | None =>
      (w, ev1 ++ [Warning "restoreFromSideBar: Dock widget isn't in any sidebar"])
  | Some loc =>
      let w := set_sideBars (alter (SideBar.removeDockWidget dw) loc (sideBars w)) w in
      (* dw->setFloating(false): the panel gets a frame of the layout *)
      let w := set_dropArea (DropArea_redock dw (m_dropArea w)) w in
      let w := set_frames (<[dw := nextFrame w]> (frameOf w)) (overlayFrames w)
                 (S (nextFrame w)) w in
      (w, ev1)
  end.

(** The range-for of [Private::clearSideBars]. *)
Fixpoint clearSideBarsAt (locs : list SideBarLocation)
    (s : gmap SideBarLocation (list DockWidget))
  : gmap SideBarLocation (list DockWidget) :=
  match locs with
  | [] => s
  | loc :: rest => clearSideBarsAt rest (alter SideBar.clear loc s)
  end.

Definition clearSideBars (w : MainWindow) : MainWindow :=
  set_sideBars
    (clearSideBarsAt [SideBarLocation_North; SideBarLocation_South;
                      SideBarLocation_East; SideBarLocation_West] (sideBars w)) w.

(** The inner range-for of [deserialize]: the panels named in
    [dockWidgets] are looked up and added to the side bar [sb]. *)
Fixpoint restoreDockWidgets (dockWidgets : list string) (sb : list DockWidget)
  : list DockWidget * list Event :=
  match dockWidgets with
  | [] => (sb, [])
  | uniqueName :: rest =>
      match dockByName uniqueName with
      | None =>
          let '(sb, ev) := restoreDockWidgets rest sb in
          (sb, Warning ("deserialize: Could not find dock widget " +:+ uniqueName
                        +:+ ". Won't restore it to sidebar") :: ev)
      | Some dw => restoreDockWidgets rest (SideBar.addDockWidget dw sb)
      end
  end.

(** The outer range-for of [deserialize]. *)
Fixpoint restoreSideBars (dockWidgetsPerSideBar : gmap SideBarLocation (list string))
    (locs : list SideBarLocation) (s : gmap SideBarLocation (list DockWidget))
  : gmap SideBarLocation (list DockWidget) * list Event :=
  match locs with
  | [] => (s, [])
  | loc :: rest =>
      match s !! loc with
      | None => restoreSideBars dockWidgetsPerSideBar rest s
      | Some sb =>
          (* QHash::value(loc): the empty list when there is no entry *)
          let dockWidgets := default [] (dockWidgetsPerSideBar !! loc) in
          let '(sb, ev1) := restoreDockWidgets dockWidgets sb in
          let '(s, ev2) :=
            restoreSideBars dockWidgetsPerSideBar rest (<[loc := sb]> s) in
          (s, ev1 ++ ev2)
      end
  end.

Definition deserialize (w : MainWindow) (mw : Snapshot)
  : bool * MainWindow * list Event :=
  if decide (sv_options mw <> m_options w) then
    (false, w,
     [Warning "deserialize: Refusing to restore MainWindow with different options"])
  else
    let '(w, ev1) :=
      if decide (affinities w <> sv_affinities mw)
      then (set_affinities (sv_affinities mw) w,
            [Warning "deserialize: Affinty name changed"])
      else (w, []) in
    let '(dropArea, success) :=
      DropArea_deserialize (m_dropArea w) (sv_multiSplitterLayout mw) in
    let w := set_dropArea dropArea w in
    (* Restore the SideBars *)
    let w := clearSideBars w in
    let '(s, ev2) :=
      restoreSideBars (sv_dockWidgetsPerSideBar mw)
        [SideBarLocation_North; SideBarLocation_East;
         SideBarLocation_West; SideBarLocation_South] (sideBars w) in
    (success, set_sideBars s w, ev1 ++ ev2).

(** The range-for of [serialize]. *)
Fixpoint serializeSideBars (w : MainWindow) (locs : list SideBarLocation)
    (m : gmap SideBarLocation (list string)) : gmap SideBarLocation (list string) :=
  match locs with
  | [] => m
  | loc :: rest =>
      match sideBar w loc with
      | Some sb =>
          let dockwidgets := SideBar.serialize uniqueName sb in
          if decide (dockwidgets <> []) then
            serializeSideBars w rest (<[loc := dockwidgets]> m)
          else serializeSideBars w rest m
      | None => serializeSideBars w rest m
      end
  end.

Definition serialize (w : MainWindow) : Snapshot :=
  {| sv_options := m_options w;
     sv_geometry := geometry w;
     sv_isVisible := isVisible w;
     sv_uniqueName := name w;
     sv_screenIndex := screenIndex w;
     sv_screenSize := screenSize w;
     sv_multiSplitterLayout := DropArea_serialize (m_dropArea w);
     sv_affinities := affinities w;
     sv_dockWidgetsPerSideBar :=
       serializeSideBars w
         [SideBarLocation_North; SideBarLocation_East;
          SideBarLocation_West; SideBarLocation_South] ∅ |}.

(** The four operations on the overlay, as a gesture of the user. *)
Inductive Op : Type :=
| OverlayOnSideBar (dw : option DockWidget)
| ToggleOverlayOnSideBar (dw : option DockWidget)
| ClearSideBarOverlay
| RestoreFromSideBar (dw : DockWidget).

Definition step (w : MainWindow) (op : Op) : MainWindow * list Event :=
  match op with
  | OverlayOnSideBar dw => overlayOnSideBar w dw
  | ToggleOverlayOnSideBar dw => toggleOverlayOnSideBar w dw
  | ClearSideBarOverlay => clearSideBarOverlay w
  | RestoreFromSideBar dw => restoreFromSideBar w dw
  end.

Fixpoint run (w : MainWindow) (ops : list Op) : MainWindow :=
  match ops with
  | [] => w
  | op :: rest => run (step w op).1 rest
  end.

(** A panel is overlayed when it sits in a live overlay frame. *)
Definition Overlayed (w : MainWindow) (dw : DockWidget) : Prop :=
  ∃ frame, frameOf w !! dw = Some frame ∧ frame ∈ overlayFrames w.

(** The overlay slot and the live overlay frames agree: every frame in use
    has been allocated, there is no live overlay frame while the slot is
    empty, and otherwise the only one is the frame of the panel in the slot,
    which holds no other panel. *)
Definition overlay_consistent (w : MainWindow) : Prop :=
  (∀ dw frame, frameOf w !! dw = Some frame -> (frame < nextFrame w)%nat) ∧
  match m_overlayedDockWidget w with
  | None => overlayFrames w = []
  | Some dw =>
      ∃ frame, frameOf w !! dw = Some frame ∧ overlayFrames w = [frame] ∧
               ∀ dw', frameOf w !! dw' = Some frame -> dw' = dw
  end.

(** The panel sits in none of the four side bars. *)
Definition in_no_sideBar (w : MainWindow) (dw : DockWidget) : Prop :=
  ∀ loc sb, loc <> SideBarLocation_None -> sideBar w loc = Some sb -> dw ∉ sb.

(** Every panel of the four side bars is the one the registry finds under
    its unique name. *)
Definition sideBars_registered (w : MainWindow) : Prop :=
  ∀ loc sb dw, loc <> SideBarLocation_None -> sideBar w loc = Some sb ->
               dw ∈ sb -> dockByName (uniqueName dw) = Some dw.

(** *** Docking, names, affinities and minimizing *)

(** [Location] and [AddingOption] of the public interface. *)
Variable Location : Type.
Variable AddingOption : Type.

(** [DropArea::addDockWidget] and [m_centralFrame->addWidget]. *)
Variable DropArea_addDockWidget :
  DockWidget -> Location -> option DockWidget -> AddingOption -> DropArea -> DropArea.
Variable CentralFrame_addWidget : DockWidget -> DropArea -> DropArea.

(** Modelled from the spec: [DockWidgetBase::forceClose] closes the docked
    instance; here, its effect on the layout tree. *)
Variable DropArea_forceClose : DockWidget -> DropArea -> DropArea.

(** [DockRegistry::affinitiesMatch], [DockWidgetBase::affinities] and
    [DockWidgetBase::options]. *)
Variable affinitiesMatch : list string -> list string -> bool.
Variable dw_affinities : DockWidget -> list string.
Variable dw_options : DockWidget -> Z.

(** The flags [DockWidgetBase::Option_NotDockable] and
    [MainWindowOption_HasCentralFrame]. *)
Variable Option_NotDockable : Z.
Variable MainWindowOption_HasCentralFrame : Z.

(** [itemForFrame(dw->frame())] in a given layout, and the size of a dock
    widget. *)
Variable itemForFrameOf : DropArea -> DockWidget -> option Placement.Item.
Variable dw_width dw_height : DockWidget -> Z.

Definition set_name (n : string) (w : MainWindow) : MainWindow :=
  mkMainWindow n (affinities w) (m_options w) (m_overlayedDockWidget w)
    (m_dropArea w) (sideBars w) (geometry w) (isVisible w) (screenIndex w)
    (screenSize w) (frameOf w) (overlayFrames w) (nextFrame w).

Definition supportsCentralFrame (w : MainWindow) : bool :=
  bool_decide (Z.land (m_options w) MainWindowOption_HasCentralFrame <> 0).

Definition addDockWidgetAsTab (w : MainWindow) (widget : DockWidget)
  : MainWindow * list Event :=
  if negb (affinitiesMatch (affinities w) (dw_affinities widget)) then
    (w, [Warning "addDockWidgetAsTab: Refusing to dock widget with incompatible affinity."])
  else if decide (Z.land (dw_options widget) Option_NotDockable <> 0) then
    (w, [Warning "addDockWidgetAsTab: Refusing to dock non-dockable widget"])
  else if supportsCentralFrame w then
    (set_dropArea (CentralFrame_addWidget widget (m_dropArea w)) w, [])
  else
    (w, [Warning "addDockWidgetAsTab: Not supported without MainWindowOption_HasCentralFrame"]).

Definition addDockWidget (w : MainWindow) (dw : DockWidget) (location : Location)
    (relativeTo : option DockWidget) (option : AddingOption)
  : MainWindow * list Event :=
  if decide (Z.land (dw_options dw) Option_NotDockable <> 0) then
    (w, [Warning "addDockWidget: Refusing to dock non-dockable widget"])
  else
    (set_dropArea
       (DropArea_addDockWidget dw location relativeTo option (m_dropArea w)) w,
     []).

(** [QStringList::removeAll(QString())] drops the empty strings. *)
Definition setAffinities (w : MainWindow) (affinityNames : list string)
  : MainWindow * list Event :=
  let affinities' := filter (fun a => a <> EmptyString) affinityNames in
  if decide (affinities w = affinities') then (w, [])
  else if decide (affinities w <> []) then
    (w, [Warning "setAffinities: Affinity is already set, refusing to change."])
  else (set_affinities affinities' w, []).

(** What [setUniqueName] sets off besides its warning. *)
Inductive Signal : Type :=
| UniqueNameChanged
| MainWindowRegistered.

Definition setUniqueName (w : MainWindow) (uniqueName : string)
  : MainWindow * list Event * list Signal :=
  if decide (uniqueName = EmptyString) then (w, [], [])
  else if decide (name w = EmptyString) then
    (set_name uniqueName w, [], [UniqueNameChanged; MainWindowRegistered])
  else (w, [Warning "setUniqueName: Already has a name."], []).

(** Calls of [setAffinities], and of [setUniqueName], one after the other. *)
Fixpoint setAffinitiesAll (w : MainWindow) (calls : list (list string))
  : MainWindow :=
  match calls with
  | [] => w
  | affinityNames :: rest => setAffinitiesAll (setAffinities w affinityNames).1 rest
  end.

Fixpoint setUniqueNames (w : MainWindow) (names : list string) : MainWindow :=
  match names with
  | [] => w
  | n :: rest => setUniqueNames (setUniqueName w n).1.1 rest
  end.

(** [moveToSideBar(dw, location)]. *)
Definition moveToSideBar (w : MainWindow) (dw : DockWidget)
    (location : SideBarLocation) : MainWindow * list Event :=
  match sideBar w location with
  | Some sb =>
      let w := set_dropArea (DropArea_forceClose dw (m_dropArea w)) w in
      (set_sideBars (<[location := SideBar.addDockWidget dw sb]> (sideBars w)) w,
       [])
  | None =>
      (w, [Warning "moveToSideBar: Minimization supported, probably disabled in Config::self().flags()"])
  end.

(** [moveToSideBar(dw)]: the side bar is the preferred one. *)
Definition moveToPreferredSideBar (w : MainWindow) (dw : DockWidget)
  : MainWindow * list Event :=
  let '(location, warnings) :=
    Placement.preferredSideBar DockWidget (itemForFrameOf (m_dropArea w))
      dw_width dw_height dw in
  let '(w, ev) := moveToSideBar w dw location in
  (w, (Warning <$> warnings) ++ ev).

(** Modelled from the spec: [SideBar::isEmpty] tells whether the ordered
    sequence of panels is empty. *)
Definition sideBarIsVisible (w : MainWindow) (loc : SideBarLocation) : bool :=
  match sideBar w loc with
  | Some sb => negb (bool_decide (sb = []))
  | None => false
  end.

(** The range-for of [anySideBarIsVisible]. *)
Fixpoint anyVisibleAmong (w : MainWindow) (locs : list SideBarLocation) : bool :=
  match locs with
  | [] => false
  | loc :: rest => if sideBarIsVisible w loc then true else anyVisibleAmong w rest
  end.

Definition anySideBarIsVisible (w : MainWindow) : bool :=
  anyVisibleAmong w [SideBarLocation_North; SideBarLocation_South;
                     SideBarLocation_East; SideBarLocation_West].

Definition onResized (w : MainWindow) : list Event :=
  match m_overlayedDockWidget w with
  | Some _ => updateOverlayGeometry w
  | None => []
  end.

(** The calls that concern minimized panels, and their effect with the
    notifications they send, one after the other. *)
Inductive Action : Type :=
| DoOverlayOnSideBar (dw : option DockWidget)
| DoToggleOverlayOnSideBar (dw : option DockWidget)
| DoClearSideBarOverlay
| DoRestoreFromSideBar (dw : DockWidget)
| DoMoveToSideBar (dw : DockWidget) (location : SideBarLocation)
| DoResize.

Definition perform (w : MainWindow) (a : Action) : MainWindow * list Event :=
  match a with
  | DoOverlayOnSideBar dw => overlayOnSideBar w dw
  | DoToggleOverlayOnSideBar dw => toggleOverlayOnSideBar w dw
  | DoClearSideBarOverlay => clearSideBarOverlay w
  | DoRestoreFromSideBar dw => restoreFromSideBar w dw
  | DoMoveToSideBar dw location => moveToSideBar w dw location
  | DoResize => (w, onResized w)
  end.

Fixpoint performAll (w : MainWindow) (actions : list Action)
  : MainWindow * list Event :=
  match actions with
  | [] => (w, [])
  | a :: rest =>
      let '(w1, ev1) := perform w a in
      let '(w2, ev2) := performAll w1 rest in
      (w2, ev1 ++ ev2)
  end.

(** The panel in the overlay slot, if any, sits in one of the side bars. *)
Definition overlayed_in_sideBar (w : MainWindow) : Prop :=
  ∀ dw, m_overlayedDockWidget w = Some dw ->
        sideBarForDockWidget w (Some dw) <> None.

(** The number of [isOverlayedChanged(overlayed)] notifications in a log. *)
Definition isOverlayedChange (overlayed : bool) (e : Event) : bool :=
  match e with
  | IsOverlayedChanged _ b => bool_decide (b = overlayed)
  | _ => false
  end.

Definition overlayedChanges (overlayed : bool) (log : list Event) : nat :=
  length (filter (fun e => isOverlayedChange overlayed e = true) log).

(** The [isOverlayedChanged(overlayed)] notifications of one panel: the
    emissions of the signal of [dw]. *)
Definition isOverlayedChangeOf (dw : DockWidget) (overlayed : bool) (e : Event)
  : bool :=
  match e with
  | IsOverlayedChanged d b => bool_decide (d = dw) && bool_decide (b = overlayed)
  | _ => false
  end.

Definition overlayedChangesOf (dw : DockWidget) (overlayed : bool)
    (log : list Event) : nat :=
  length (filter (fun e => isOverlayedChangeOf dw overlayed e = true) log).

Definition isWarning (e : Event) : bool :=
  match e with
  | Warning _ => true
  | _ => false
  end.

End MainWindow.

(** *** The rectangle of the overlay *)

(** What [rectForOverlay] reads of a side bar as a widget: its size, whether
    it is visible, and the y coordinate of [sb->mapTo(q, QPoint(0, 0))]. *)
Record SideBarGeometry : Type := mkSideBarGeometry {
  sb_width : Z;
  sb_height : Z;
  sb_isVisible : bool;
  sb_mapTo_y : Z;
}.

Record QMargins : Type := mkQMargins {
  m_left : Z; m_top : Z; m_right : Z; m_bottom : Z;
}.

Section RectForOverlay.

(** [q->sideBar(loc)], [q->centralAreaGeometry()] and
    [q->centerWidgetMargins()]. *)
Variable sideBarWidget : SideBarLocation -> option SideBarGeometry.
Variable centralAreaGeo : QRect.
Variable centerWidgetMargins : QMargins.

(** The width of a side bar that exists and is visible, else 0; likewise
    its height. *)
Definition visibleWidth (loc : SideBarLocation) : Z :=
  match sideBarWidget loc with
  | Some sb => if sb_isVisible sb then sb_width sb else 0
  | None => 0
  end.

Definition visibleHeight (loc : SideBarLocation) : Z :=
  match sideBarWidget loc with
  | Some sb => if sb_isVisible sb then sb_height sb else 0
  | None => 0
  end.

(** [rectForOverlay(frame, location)]; [frameMinSize] is
    [frame->minSize()]. *)
Definition rectForOverlay (frameMinSize : QSize) (location : SideBarLocation)
  : QRect :=
  match sideBarWidget location with
  | None => RectMove.null
  | Some sb =>
      let rect := RectMove.null in
      let margin := 1 in
      match location with
      | SideBarLocation_North | SideBarLocation_South =>
          let leftSideBarWidth := visibleWidth SideBarLocation_West in
          let rightSideBarWidth := visibleWidth SideBarLocation_East in
          let rect := RectMove.setHeight (qMax 300 (ht frameMinSize)) rect in
          let rect := RectMove.setWidth
                        (Rect.width centralAreaGeo - margin * 2
                         - leftSideBarWidth - rightSideBarWidth) rect in
          let rect := RectMove.moveLeft (margin + leftSideBarWidth) rect in
          if decide (location = SideBarLocation_South) then
            RectMove.moveTop
              (Rect.bottom centralAreaGeo - m_bottom centerWidgetMargins
               - Rect.height rect - sb_height sb) rect
          else
            RectMove.moveTop
              (RectMove.y centralAreaGeo + sb_height sb
               + m_top centerWidgetMargins) rect
      | SideBarLocation_West | SideBarLocation_East =>
          let topSideBarHeight := visibleHeight SideBarLocation_North in
          let bottomSideBarHeight := visibleHeight SideBarLocation_South in
          let rect := RectMove.setWidth (qMax 300 (wd frameMinSize)) rect in
          let rect := RectMove.setHeight
                        (Rect.height centralAreaGeo - topSideBarHeight
                         - bottomSideBarHeight - m_top centerWidgetMargins
                         - m_bottom centerWidgetMargins) rect in
          let rect := RectMove.moveTop
                        (sb_mapTo_y sb + topSideBarHeight - 1) rect in
          if decide (location = SideBarLocation_East) then
            RectMove.moveLeft
              (Rect.width centralAreaGeo - Rect.width rect - sb_width sb
               - m_right centerWidgetMargins - margin) rect
          else
            RectMove.moveLeft
              (margin + RectMove.x centralAreaGeo
               + m_left centerWidgetMargins + sb_width sb) rect
      | SideBarLocation_None => rect
      end
  end.

End RectForOverlay.

End MainWindowBase.

(** ** SideBarWidget.cpp *)

Module SideBarWidget.

(** The items of the box layout of a side bar: the buttons of the minimized
    panels and the stretch. *)
Inductive LayoutItem : Type :=
| Stretch
| Button (dw : nat).

(** [QBoxLayout::insertWidget(index, widget)]: a negative index appends. *)
Definition insertWidget (index : Z) (item : LayoutItem) (layout : list LayoutItem)
  : list LayoutItem :=
  if decide (index < 0) then layout ++ [item]
  else take (Z.to_nat index) layout ++ item :: drop (Z.to_nat index) layout.

(** The layout the constructor leaves: [addStretch()] on an empty layout. *)
Definition constructed : list LayoutItem := [Stretch].

(** [addDockWidget_Impl]: the button goes to position [count - 1]. *)
Definition addDockWidget_Impl (dw : nat) (layout : list LayoutItem)
  : list LayoutItem :=
  let count := Z.of_nat (length layout) in
  insertWidget (count - 1) (Button dw) layout.

Definition transposed (s : QSize) : QSize := {| wd := ht s; ht := wd s |}.
Definition QSize_plus (a b : QSize) : QSize :=
  {| wd := wd a + wd b; ht := ht a + ht b |}.

(** [SideBarButton::sizeHint]; [hint] is [QToolButton::sizeHint()]. *)
Definition sizeHint (isVertical : bool) (hint : QSize) : QSize :=
  if isVertical then QSize_plus (transposed hint) (mkQSize 2 0)
  else QSize_plus hint (mkQSize 0 2).

End SideBarWidget.

(** ** Sample states *)

(** A 100 by 100 target at the origin of the screen, allowed to range from
    50 to 200 pixels on both axes, under a handler installed on it. *)
Definition target_100 : WidgetResizeHandler.Widget :=
  WidgetResizeHandler.mkWidget (mkQRect 0 0 99 99) 50 200 50 200 false.

Definition handler_100 (resizing : bool) (cursorPos : Z)
  : WidgetResizeHandler.Handler :=
  WidgetResizeHandler.mkHandler false false resizing (mkQPoint 0 0) cursorPos
    target_100.

Definition move_to (x y : Z) : WidgetResizeHandler.QMouseEvent :=
  WidgetResizeHandler.mkQMouseEvent (mkQPoint x y) 0 1.

Definition press_at (x y : Z) : WidgetResizeHandler.QEvent :=
  WidgetResizeHandler.mkQEvent WidgetResizeHandler.MouseButtonPress
    (WidgetResizeHandler.mkQMouseEvent (mkQPoint x y) 1 1).

Definition the_target : WidgetResizeHandler.QObject :=
  WidgetResizeHandler.mkQObject true true true.

(** A main window with two minimized panels in its North side bar, an empty
    South side bar and no side bar to the East or West; the layout is left
    abstract. *)
Definition panel_names (dw : nat) : string :=
  if decide (dw = 1%nat) then "editor" else "console".

Definition registry (n : string) : option nat :=
  if decide (n = "editor") then Some 1%nat
  else if decide (n = "console") then Some 2%nat
  else None.

Definition empty_registry (n : string) : option nat := None.

Definition window_0 : MainWindowBase.MainWindow unit :=
  MainWindowBase.mkMainWindow unit "main" ["ide"] 1 None tt
    (<[SideBarLocation_North := [1%nat; 2%nat]]>
       (<[SideBarLocation_South := []]> ∅))
    (mkQRect 0 0 799 599) true 0 (mkQSize 1920 1080) ∅ [] 0%nat.

Definition other_options : MainWindowBase.Snapshot unit :=
  MainWindowBase.mkSnapshot unit 2 (mkQRect 0 0 799 599) true "main" 0
    (mkQSize 1920 1080) tt ["ide"] ∅.

(** A release of the left button and a move with the left button held, as
    events for [eventFilter]. *)
Definition release_at (x y : Z) : WidgetResizeHandler.QEvent :=
  WidgetResizeHandler.mkQEvent WidgetResizeHandler.MouseButtonRelease
    (WidgetResizeHandler.mkQMouseEvent (mkQPoint x y) 1 0).

Definition drag_to (x y : Z) : WidgetResizeHandler.QEvent :=
  WidgetResizeHandler.mkQEvent WidgetResizeHandler.MouseMove (move_to x y).

(** A native window of 400 by 300 pixels at (100, 100) whose title bar's drag
    area is its first 30 rows, with Qt and native pixels equal; and a widget
    that cannot change its width. *)
Definition native_window : WidgetResizeHandler.NativeEnv :=
  WidgetResizeHandler.mkNativeEnv false
    (WidgetResizeHandler.mkRECT 100 100 500 400) (fun p => p)
    (mkQRect 100 100 499 129) (fun _ => false) false true true.

Definition fixed_width_widget : WidgetResizeHandler.Widget :=
  WidgetResizeHandler.mkWidget (mkQRect 0 0 399 299) 400 400 100 1000 false.

(** The side bars of an 800 by 600 main window as widgets: a visible North
    side bar 30 pixels high and a visible West side bar 30 pixels wide below
    it. *)
Definition side_bar_widgets (loc : SideBarLocation)
  : option MainWindowBase.SideBarGeometry :=
  match loc with
  | SideBarLocation_North =>
      Some (MainWindowBase.mkSideBarGeometry 800 30 true 0)
  | SideBarLocation_West =>
      Some (MainWindowBase.mkSideBarGeometry 30 570 true 30)
  | _ => None
  end.

Definition no_margins : MainWindowBase.QMargins :=
  MainWindowBase.mkQMargins 0 0 0 0.

(** * Properties *)

(** ** Arithmetic of the Qt helpers *)

Lemma qMax_max a b : qMax a b = Z.max a b.
Proof. unfold qMax. case_decide; lia. Qed.

Lemma qMin_min a b : qMin a b = Z.min a b.
Proof. unfold qMin. case_decide; lia. Qed.

Lemma qAbs_abs t : qAbs t = Z.abs t.
Proof. unfold qAbs. case_decide; lia. Qed.

Lemma qBound_max_min lo v hi : qBound lo v hi = Z.max lo (Z.min hi v).
Proof. unfold qBound. now rewrite qMax_max, qMin_min. Qed.

Lemma qBound_in_range lo v hi : lo <= hi -> lo <= qBound lo v hi <= hi.
Proof. rewrite qBound_max_min. lia. Qed.

Lemma qBound_id lo v hi : lo <= v <= hi -> qBound lo v hi = v.
Proof. rewrite qBound_max_min. lia. Qed.

(** ** Guest widgets *)

Section GuestWidgetFacts.

Import GuestWidget.

Variable hardcodedMinimumSize : QSize.

Lemma widgetMinSize_wd (w : QWidget) :
  wd (widgetMinSize hardcodedMinimumSize w)
  = Z.max (if decide (minimumWidth w > 0) then minimumWidth w
           else wd (minimumSizeHint w))
          (wd hardcodedMinimumSize).
Proof. unfold widgetMinSize, expandedTo. cbn. apply qMax_max. Qed.

Lemma widgetMinSize_ht (w : QWidget) :
  ht (widgetMinSize hardcodedMinimumSize w)
  = Z.max (if decide (minimumHeight w > 0) then minimumHeight w
           else ht (minimumSizeHint w))
          (ht hardcodedMinimumSize).
Proof. unfold widgetMinSize, expandedTo. cbn. apply qMax_max. Qed.

End GuestWidgetFacts.

(** C10: [GuestWidget::minSize] is componentwise at least
    [Item::hardcodedMinimumSize].  On each axis it takes the widget's
    explicit minimum when that is greater than 0 and the minimum size hint
    otherwise, and then raises the value to the hardcoded floor; with a
    positive floor the result is positive on both axes, whatever the widget
    declares. *)
Theorem minSize_hardcoded_floor (hardcodedMinimumSize : QSize)
    (w : GuestWidget.QWidget) :
  let m := GuestWidget.minSize hardcodedMinimumSize w in
  (wd hardcodedMinimumSize <= wd m ∧ ht hardcodedMinimumSize <= ht m) ∧
  (GuestWidget.minimumWidth w > 0 ->
     wd m = Z.max (GuestWidget.minimumWidth w) (wd hardcodedMinimumSize)) ∧
  (GuestWidget.minimumWidth w <= 0 ->
     wd m = Z.max (wd (GuestWidget.minimumSizeHint w)) (wd hardcodedMinimumSize)) ∧
  (GuestWidget.minimumHeight w > 0 ->
     ht m = Z.max (GuestWidget.minimumHeight w) (ht hardcodedMinimumSize)) ∧
  (GuestWidget.minimumHeight w <= 0 ->
     ht m = Z.max (ht (GuestWidget.minimumSizeHint w)) (ht hardcodedMinimumSize)) ∧
  (0 < wd hardcodedMinimumSize -> 0 < ht hardcodedMinimumSize ->
     0 < wd m ∧ 0 < ht m).
Proof.
  intros m. subst m. unfold GuestWidget.minSize.
  rewrite widgetMinSize_wd, widgetMinSize_ht.
  repeat split; intros; repeat case_decide; lia.
Qed.

Lemma minSize_hardcoded_floor_witness :
  let m := GuestWidget.minSize (mkQSize 80 90)
             (GuestWidget.mkQWidget 0 120 (mkQSize 0 0)) in
  m = mkQSize 80 120 ∧ 0 < wd m ∧ 0 < ht m.
Proof.
  pose proof (minSize_hardcoded_floor (mkQSize 80 90)
                (GuestWidget.mkQWidget 0 120 (mkQSize 0 0))) as H.
  cbv zeta in H. destruct H as (_ & _ & _ & _ & _ & H).
  split; [reflexivity | apply H; reflexivity].
Defined.

(** ** Side-bar placement *)

Section PlacementFacts.

Import Placement.

Lemma aspectRatio_gt_1_iff (width height : Z) :
  height <> 0 ->
  aspectRatio_gt_1 width height = true <-> (1 < aspectRatio width height)%Q.
Proof.
  intros Hh. unfold aspectRatio_gt_1.
  destruct (decide (height = 0)) as [|_]; [contradiction|].
  rewrite negb_true_iff, <- not_true_iff_false, Qle_bool_iff.
  split; [apply Qnot_le_lt | apply Qlt_not_le].
Qed.

(** For a positive height the test compares the two integers. *)
Lemma aspectRatio_gt_1_pos (width height : Z) :
  0 < height ->
  aspectRatio_gt_1 width height = bool_decide (height < width).
Proof.
  intros Hh. apply eq_true_iff_eq.
  rewrite aspectRatio_gt_1_iff by lia. rewrite bool_decide_eq_true.
  unfold aspectRatio, Qdiv, Qlt, Qmult, Qinv, inject_Z. cbn.
  destruct height as [|p|p]; try lia. cbn. lia.
Qed.

Lemma aspectRatio_gt_1_of_ratio (width height : Z) (r : Q) :
  height <> 0 -> (aspectRatio width height == r)%Q -> (1 < r)%Q ->
  aspectRatio_gt_1 width height = true.
Proof.
  intros Hh Hr Hlt. apply aspectRatio_gt_1_iff; [assumption|].
  now rewrite Hr.
Qed.

Lemma preferredSideBar_table (DockWidgetBase : Type)
    (itemForFrameOf : DockWidgetBase -> option Item)
    (width height : DockWidgetBase -> Z) (dw : DockWidgetBase)
    (north east west south : bool) :
  itemForFrameOf dw = Some (mkItem (borders_of north east west south)) ->
  preferredSideBar DockWidgetBase itemForFrameOf width height dw
  = (preferredLocation_rules north east west south
       (aspectRatio_gt_1 (width dw) (height dw)), []).
Proof.
  intros Hitem. unfold preferredSideBar. rewrite Hitem.
  generalize (aspectRatio_gt_1 (width dw) (height dw)). intros wide.
  destruct north, east, west, south, wide; reflexivity.
Qed.

End PlacementFacts.

(** C1: when the frame of the panel has an item in the layout tree,
    [preferredSideBar] prints no warning and returns the side bar that the
    seven rules of the specification select, in their first-match order,
    from the border bitmask and from the aspect ratio: for a height other
    than 0 the rules are followed in their "aspect ratio > 1.0" reading when
    the quotient of the width by the height exceeds 1, and in their "else"
    reading when it does not (a quotient of exactly 1 is not above).  For a
    positive height the quotient exceeds 1 exactly when the width exceeds
    the height.  A height of 0, for which there is no quotient, is treated
    as above 1.0 exactly when the width is positive.  In particular a panel
    with aspect ratio 2 that touches all four borders goes to South. *)
Theorem preferredSideBar_follows_rules (DockWidgetBase : Type)
    (itemForFrameOf : DockWidgetBase -> option Placement.Item)
    (width height : DockWidgetBase -> Z) (dw : DockWidgetBase)
    (item : Placement.Item) (north east west south : bool) :
  itemForFrameOf dw = Some item ->
  Placement.adjacentLayoutBorders item = borders_of north east west south ->
  (height dw <> 0 ->
     (Placement.aspectRatioAbove1 (width dw) (height dw) ->
        Placement.preferredSideBar DockWidgetBase itemForFrameOf width height dw
        = (Placement.preferredLocation_rules north east west south true, [])) ∧
     (¬ Placement.aspectRatioAbove1 (width dw) (height dw) ->
        Placement.preferredSideBar DockWidgetBase itemForFrameOf width height dw
        = (Placement.preferredLocation_rules north east west south false, [])))
  ∧ (0 < height dw ->
     (Placement.aspectRatioAbove1 (width dw) (height dw)
      <-> height dw < width dw))
  ∧ (height dw = 0 ->
     Placement.preferredSideBar DockWidgetBase itemForFrameOf width height dw
     = (Placement.preferredLocation_rules north east west south
          (bool_decide (0 < width dw)), []))
  ∧ (height dw <> 0 ->
     (inject_Z (width dw) / inject_Z (height dw) == 2)%Q ->
     north = true -> east = true -> west = true -> south = true ->
     Placement.preferredSideBar DockWidgetBase itemForFrameOf width height dw
     = (SideBarLocation_South, [])).
Proof.
  intros Hitem Hborders. destruct item as [borders]. cbn in Hborders.
  subst borders.
  pose proof (preferredSideBar_table DockWidgetBase itemForFrameOf width height
                dw north east west south Hitem) as Htable.
  split; [|split; [|split]].
  - intros Hh.
    pose proof (aspectRatio_gt_1_iff (width dw) (height dw) Hh) as Hiff.
    unfold Placement.aspectRatio in Hiff. unfold Placement.aspectRatioAbove1.
    split; intros Habove; rewrite Htable.
    + now rewrite (proj2 Hiff Habove).
    + destruct (Placement.aspectRatio_gt_1 (width dw) (height dw));
        [destruct Habove; now apply Hiff|reflexivity].
  - intros Hpos.
    pose proof (aspectRatio_gt_1_iff (width dw) (height dw)) as Hiff.
    unfold Placement.aspectRatio in Hiff. unfold Placement.aspectRatioAbove1.
    rewrite <- Hiff by lia. rewrite aspectRatio_gt_1_pos by exact Hpos.
    apply bool_decide_eq_true.
  - intros Hzero. rewrite Htable. unfold Placement.aspectRatio_gt_1.
    now rewrite decide_True by exact Hzero.
  - intros Hh Hratio -> -> -> ->. rewrite Htable.
    rewrite (aspectRatio_gt_1_of_ratio (width dw) (height dw) 2 Hh Hratio)
      by reflexivity.
    reflexivity.
Qed.

Lemma preferredSideBar_follows_rules_witness :
  Placement.preferredSideBar unit
    (fun _ => Some (Placement.mkItem 15)) (fun _ => 400) (fun _ => 200) tt
  = (SideBarLocation_South, []) ∧
  Placement.preferredSideBar unit
    (fun _ => Some (Placement.mkItem 15)) (fun _ => 100) (fun _ => 100) tt
  = (SideBarLocation_East, []).
Proof.
  split.
  - destruct (preferredSideBar_follows_rules unit
                (fun _ => Some (Placement.mkItem 15)) (fun _ => 400)
                (fun _ => 200) tt (Placement.mkItem 15) true true true true
                eq_refl eq_refl)
      as (_ & _ & _ & Hscenario).
    apply Hscenario; try reflexivity. discriminate.
  - destruct (preferredSideBar_follows_rules unit
                (fun _ => Some (Placement.mkItem 15)) (fun _ => 100)
                (fun _ => 100) tt (Placement.mkItem 15) true true true true
                eq_refl eq_refl)
      as (Hrules & _).
    destruct (Hrules ltac:(discriminate)) as (_ & Helse).
    apply Helse. intros Habove. vm_compute in Habove. discriminate Habove.
Defined.

(** C6: when the frame of the panel has no item in the layout tree,
    [preferredSideBar] prints the warning "No item for dock widget" and
    returns None; neither the borders nor the size of the panel play a part,
    so the outcome is the same for every width and height. *)
Theorem preferredSideBar_no_item (DockWidgetBase : Type)
    (itemForFrameOf : DockWidgetBase -> option Placement.Item)
    (width height width' height' : DockWidgetBase -> Z) (dw : DockWidgetBase) :
  itemForFrameOf dw = None ->
  Placement.preferredSideBar DockWidgetBase itemForFrameOf width height dw
  = (SideBarLocation_None, ["preferredSideBar: No item for dock widget"])
  ∧ Placement.preferredSideBar DockWidgetBase itemForFrameOf width' height' dw
    = Placement.preferredSideBar DockWidgetBase itemForFrameOf width height dw.
Proof.
  intros Hitem. unfold Placement.preferredSideBar. rewrite Hitem.
  split; reflexivity.
Qed.

Lemma preferredSideBar_no_item_witness :
  Placement.preferredSideBar unit (fun _ => None) (fun _ => 400) (fun _ => 200) tt
  = (SideBarLocation_None, ["preferredSideBar: No item for dock widget"]).
Proof.
  apply (preferredSideBar_no_item unit (fun _ => None)
           (fun _ => 400) (fun _ => 200) (fun _ => 1) (fun _ => 1) tt).
  reflexivity.
Defined.

(** ** The resize handler *)

Section ResizeHandlerFacts.

Import WidgetResizeHandler.

Variable mapFromGlobal : Widget -> QPoint -> QPoint.
Variable KDDOCKWIDGETS_QTWIDGETS : bool.

Local Abbreviation cursorPosition := (cursorPosition mapFromGlobal).
Local Abbreviation mouseMoveEvent :=
  (mouseMoveEvent mapFromGlobal KDDOCKWIDGETS_QTWIDGETS).
Local Abbreviation eventFilter :=
  (eventFilter mapFromGlobal KDDOCKWIDGETS_QTWIDGETS).
Local Abbreviation mouseMoves := (mouseMoves mapFromGlobal KDDOCKWIDGETS_QTWIDGETS).
Local Abbreviation eventFilters :=
  (eventFilters mapFromGlobal KDDOCKWIDGETS_QTWIDGETS).

Ltac unfold_positions :=
  unfold dragsLeft, dragsRight, dragsTop, dragsBottom,
    CursorPosition_TopLeft, CursorPosition_TopRight,
    CursorPosition_BottomLeft, CursorPosition_BottomRight,
    CursorPosition_Left, CursorPosition_Right, CursorPosition_Top,
    CursorPosition_Bottom, CursorPosition_Undefined in *;
  change (Z.lor 4 1) with 5 in *; change (Z.lor 4 2) with 6 in *;
  change (Z.lor 8 1) with 9 in *; change (Z.lor 8 2) with 10 in *.

Lemma horizontalZone_code (w x : Z) :
  (if decide (qAbs x <= widgetResizeHandlerMargin)
   then Z.lor CursorPosition_Undefined CursorPosition_Left
   else if decide (qAbs (x - (w - widgetResizeHandlerMargin))
                   <= widgetResizeHandlerMargin)
        then Z.lor CursorPosition_Undefined CursorPosition_Right
        else CursorPosition_Undefined)
  = horizontalZone w x.
Proof.
  unfold horizontalZone, widgetResizeHandlerMargin. rewrite !qAbs_abs.
  repeat case_decide; try reflexivity; lia.
Qed.

Lemma cursorPosition_zones (target : Widget) (globalPos : QPoint) :
  cursorPosition (Some target) globalPos
  = Z.lor (horizontalZone (width target) (px (mapFromGlobal target globalPos)))
          (verticalZone (height target) (py (mapFromGlobal target globalPos))).
Proof.
  unfold WidgetResizeHandler.cursorPosition.
  set (pos := mapFromGlobal target globalPos).
  rewrite <- horizontalZone_code.
  unfold verticalZone, widgetResizeHandlerMargin. rewrite !qAbs_abs.
  repeat case_decide; try reflexivity; lia.
Qed.

Lemma horizontalZone_cases (w x : Z) :
  horizontalZone w x = CursorPosition_Left ∨
  horizontalZone w x = CursorPosition_Right ∨
  horizontalZone w x = CursorPosition_Undefined.
Proof. unfold horizontalZone. repeat case_decide; auto. Qed.

Lemma verticalZone_cases (h y : Z) :
  verticalZone h y = CursorPosition_Top ∨
  verticalZone h y = CursorPosition_Bottom ∨
  verticalZone h y = CursorPosition_Undefined.
Proof. unfold verticalZone. repeat case_decide; auto. Qed.

(** What a move does to the geometry while a resize is under way. *)
Lemma mouseMoveEvent_resizing (h : Handler) (e : QMouseEvent) :
  mResizeWidget h = true ->
  let g := geometry (mTarget h) in
  let g' := resizeHeight (mTarget h) (mCursorPos h) (globalPos e) g
              (resizeWidth (mTarget h) (mCursorPos h) (globalPos e) g g) in
  (mouseMoveEvent h e).1.1 = true ∧
  (mouseMoveEvent h e).2 = [] ∧
  (mouseMoveEvent h e).1.2 = set_mTarget (setGeometry g' (mTarget h)) h.
Proof.
  intros Hr g g'. unfold WidgetResizeHandler.mouseMoveEvent.
  rewrite Hr. cbn [negb]. fold g. fold g'.
  case_decide as Hne; cbn; repeat split.
  rewrite Hne.
  destruct h as [? ? ? ? ? []]; reflexivity.
Qed.

Lemma mouseMoveEvent_hovering (h : Handler) (e : QMouseEvent) :
  mResizeWidget h = false -> (mouseMoveEvent h e).1.2 = h.
Proof.
  intros Hr. unfold WidgetResizeHandler.mouseMoveEvent. now rewrite Hr.
Qed.

Lemma resizeWidth_spec (t : Widget) (c : Z) (p : QPoint) :
  let g := geometry t in
  let g' := resizeWidth t c p g g in
  y1 g' = y1 g ∧ y2 g' = y2 g ∧
  (dragsLeft c ->
     x2 g' = x2 g ∧
     Rect.width g' = qBound (minimumWidth t)
                       (width t + (Rect.left g - px p)) (maximumWidth t)) ∧
  (dragsRight c ->
     x1 g' = x1 g ∧
     Rect.width g' = qBound (minimumWidth t)
                       (width t + (px p - Rect.right g)) (maximumWidth t)) ∧
  (¬ dragsLeft c -> ¬ dragsRight c -> g' = g).
Proof.
  intros g g'. subst g'. unfold resizeWidth, width. fold g.
  destruct g as [a b c' d]. unfold Rect.width, Rect.left, Rect.right,
    Rect.setLeft, Rect.setRight. cbn.
  repeat case_decide; cbn; unfold_positions;
    repeat split; intros; try reflexivity; try lia.
Qed.

Lemma resizeHeight_spec (t : Widget) (c : Z) (p : QPoint) (g0 : QRect) :
  let g := geometry t in
  y1 g0 = y1 g -> y2 g0 = y2 g ->
  let g' := resizeHeight t c p g g0 in
  x1 g' = x1 g0 ∧ x2 g' = x2 g0 ∧
  (dragsTop c ->
     y2 g' = y2 g ∧
     Rect.height g' = qBound (minimumHeight t)
                        (height t + (Rect.top g - py p)) (maximumHeight t)) ∧
  (dragsBottom c ->
     y1 g' = y1 g ∧
     Rect.height g' = qBound (minimumHeight t)
                        (height t + (py p - Rect.bottom g)) (maximumHeight t)) ∧
  (¬ dragsTop c -> ¬ dragsBottom c -> g' = g0).
Proof.
  intros g Hy1 Hy2 g'. subst g'. unfold resizeHeight, height. fold g.
  destruct g as [a b c' d], g0 as [a0 b0 c0 d0]. cbn in Hy1, Hy2. subst.
  unfold Rect.height, Rect.top, Rect.bottom, Rect.setTop, Rect.setBottom. cbn.
  repeat case_decide; cbn; unfold_positions;
    repeat split; intros; try reflexivity; try lia.
Qed.

Lemma set_mTarget_same (h : Handler) :
  set_mTarget (setGeometry (geometry (mTarget h)) (mTarget h)) h = h.
Proof. destruct h as [? ? ? ? ? []]; reflexivity. Qed.

(** One move of a running resize, edge by edge. *)
Lemma mouseMoveEvent_geometry (h : Handler) (e : QMouseEvent) :
  mResizeWidget h = true ->
  let t := mTarget h in
  let t' := mTarget (mouseMoveEvent h e).1.2 in
  let c := mCursorPos h in
  let p := globalPos e in
  (minimumWidth t' = minimumWidth t ∧ maximumWidth t' = maximumWidth t ∧
   minimumHeight t' = minimumHeight t ∧ maximumHeight t' = maximumHeight t) ∧
  (dragsLeft c ->
     width t' = qBound (minimumWidth t)
                  (width t + (Rect.left (geometry t) - px p)) (maximumWidth t) ∧
     Rect.right (geometry t') = Rect.right (geometry t)) ∧
  (dragsRight c ->
     width t' = qBound (minimumWidth t)
                  (width t + (px p - Rect.right (geometry t))) (maximumWidth t) ∧
     Rect.left (geometry t') = Rect.left (geometry t)) ∧
  (¬ dragsLeft c -> ¬ dragsRight c ->
     Rect.left (geometry t') = Rect.left (geometry t) ∧
     Rect.right (geometry t') = Rect.right (geometry t)) ∧
  (dragsTop c ->
     height t' = qBound (minimumHeight t)
                   (height t + (Rect.top (geometry t) - py p)) (maximumHeight t) ∧
     Rect.bottom (geometry t') = Rect.bottom (geometry t)) ∧
  (dragsBottom c ->
     height t' = qBound (minimumHeight t)
                   (height t + (py p - Rect.bottom (geometry t))) (maximumHeight t) ∧
     Rect.top (geometry t') = Rect.top (geometry t)) ∧
  (¬ dragsTop c -> ¬ dragsBottom c ->
     Rect.top (geometry t') = Rect.top (geometry t) ∧
     Rect.bottom (geometry t') = Rect.bottom (geometry t)).
Proof.
  intros Hr t t' c p.
  destruct (mouseMoveEvent_resizing h e Hr) as (_ & _ & Hh).
  subst t'. rewrite Hh. cbn [mTarget set_mTarget setGeometry geometry
    minimumWidth maximumWidth minimumHeight maximumHeight].
  unfold width at 1 3, height at 1 3. cbn [geometry setGeometry].
  fold t c p.
  pose proof (resizeWidth_spec t c p) as Hw. cbv zeta in Hw.
  destruct Hw as (Hy1 & Hy2 & HL & HR & HN).
  pose proof (resizeHeight_spec t c p _ Hy1 Hy2) as Hv. cbv zeta in Hv.
  destruct Hv as (Hx1 & Hx2 & HT & HB & HM).
  set (gw := resizeWidth t c p (geometry t) (geometry t)) in *.
  set (gh := resizeHeight t c p (geometry t) gw) in *.
  unfold Rect.left, Rect.right, Rect.top, Rect.bottom, Rect.width, Rect.height in *.
  split; [tauto|].
  split; [intros Hc; destruct (HL Hc) as [? <-]; split; lia|].
  split; [intros Hc; destruct (HR Hc) as [? <-]; split; lia|].
  split; [intros H1 H2; rewrite (HN H1 H2) in *; split; lia|].
  split; [intros Hc; destruct (HT Hc) as [? <-]; split; lia|].
  split; [intros Hc; destruct (HB Hc) as [? <-]; split; lia|].
  intros H1 H2. rewrite (HM H1 H2). split; lia.
Qed.

Lemma drags_decided (c : Z) :
  (dragsLeft c ∨ ¬ dragsLeft c) ∧ (dragsRight c ∨ ¬ dragsRight c) ∧
  (dragsTop c ∨ ¬ dragsTop c) ∧ (dragsBottom c ∨ ¬ dragsBottom c).
Proof. unfold_positions. lia. Qed.

Lemma mouseMoveEvent_within_constraints (h : Handler) (e : QMouseEvent) :
  within_constraints (mTarget h) ->
  within_constraints (mTarget (mouseMoveEvent h e).1.2).
Proof.
  intros Hin. destruct (mResizeWidget h) eqn:Hr;
    [|now rewrite mouseMoveEvent_hovering].
  pose proof (mouseMoveEvent_geometry h e Hr) as Hg. cbv zeta in Hg.
  destruct Hg as ((E1 & E2 & E3 & E4) & HL & HR & HN & HT & HB & HM).
  destruct Hin as [Hw Hh]. unfold within_constraints.
  rewrite E1, E2, E3, E4.
  set (c := mCursorPos h) in *.
  destruct (drags_decided c) as (HcL & HcR & HcT & HcB).
  split.
  - destruct HcL as [Hc|Hc1]; [destruct (HL Hc) as [-> _]; apply qBound_in_range; lia|].
    destruct HcR as [Hc|Hc2]; [destruct (HR Hc) as [-> _]; apply qBound_in_range; lia|].
    destruct (HN Hc1 Hc2) as [F1 F2].
    unfold width, Rect.width, Rect.left, Rect.right in *. lia.
  - destruct HcT as [Hc|Hc1]; [destruct (HT Hc) as [-> _]; apply qBound_in_range; lia|].
    destruct HcB as [Hc|Hc2]; [destruct (HB Hc) as [-> _]; apply qBound_in_range; lia|].
    destruct (HM Hc1 Hc2) as [F1 F2].
    unfold height, Rect.height, Rect.top, Rect.bottom in *. lia.
Qed.

Lemma eventFilter_target (h : Handler) (o : QObject) (e : QEvent) :
  mTarget (eventFilter h o e).1.2 = mTarget h ∨
  ∃ h2, mTarget h2 = mTarget h ∧
        mTarget (eventFilter h o e).1.2 = mTarget (mouseMoveEvent h2 (mouse e)).1.2.
Proof.
  unfold WidgetResizeHandler.eventFilter.
  destruct (s_disableAllHandlers h); [now left|].
  destruct (negb (isWidget o)); [now left|].
  destruct (negb (mFilterIsGlobal h) && _); [now left|].
  destruct (type e).
  - destruct (isMaximized (mTarget h)); [now left|]. cbv zeta.
    case_decide; [now left|].
    destruct (negb _); [now left|].
    case_decide; now left.
  - destruct (isMaximized (mTarget h)); [now left|]. cbv zeta.
    case_decide; now left.
  - destruct (isMaximized (mTarget h)); [now left|]. cbv zeta.
    right.
    match goal with
    | |- context [WidgetResizeHandler.mouseMoveEvent _ _ ?h2 (mouse e)] =>
        exists h2; split; [reflexivity|];
        destruct (mouseMoveEvent h2 (mouse e)) as [[? ?] ?]; reflexivity
    end.
  - now left.
Qed.

Lemma eventFilter_within_constraints (h : Handler) (o : QObject) (e : QEvent) :
  within_constraints (mTarget h) ->
  within_constraints (mTarget (eventFilter h o e).1.2).
Proof.
  intros Hin. destruct (eventFilter_target h o e) as [->|(h2 & Ht & ->)];
    [exact Hin|].
  apply mouseMoveEvent_within_constraints. now rewrite Ht.
Qed.

(** C2: a target whose size respects its constraints keeps respecting them
    through every sequence of pointer moves, whether they are given to
    [mouseMoveEvent] directly or arrive through [eventFilter] among other
    events.  In a move of a running session the width becomes
    [qBound(minimumWidth, width + delta, maximumWidth)], where [delta] is the
    distance of the pointer from the dragged vertical edge, and only that
    edge moves; the height is treated the same way and independently, so a
    corner drag adjusts both, and an axis without a dragged edge keeps its
    two edges.  A dragged axis whose minimum does not exceed its maximum
    ends within its range wherever it started. *)
Theorem mouseMoveEvent_keeps_constraints (h : Handler) :
  (within_constraints (mTarget h) ->
     (∀ es : list QMouseEvent, within_constraints (mTarget (mouseMoves h es))) ∧
     (∀ es : list (QObject * QEvent),
        within_constraints (mTarget (eventFilters h es)))) ∧
  (∀ e : QMouseEvent, mResizeWidget h = true ->
     let t := mTarget h in
     let t' := mTarget (mouseMoveEvent h e).1.2 in
     let c := mCursorPos h in
     let p := globalPos e in
     (dragsLeft c ->
        width t' = qBound (minimumWidth t)
                     (width t + (Rect.left (geometry t) - px p)) (maximumWidth t) ∧
        Rect.right (geometry t') = Rect.right (geometry t)) ∧
     (dragsRight c ->
        width t' = qBound (minimumWidth t)
                     (width t + (px p - Rect.right (geometry t))) (maximumWidth t) ∧
        Rect.left (geometry t') = Rect.left (geometry t)) ∧
     (¬ dragsLeft c -> ¬ dragsRight c ->
        Rect.left (geometry t') = Rect.left (geometry t) ∧
        Rect.right (geometry t') = Rect.right (geometry t)) ∧
     (dragsTop c ->
        height t' = qBound (minimumHeight t)
                      (height t + (Rect.top (geometry t) - py p)) (maximumHeight t) ∧
        Rect.bottom (geometry t') = Rect.bottom (geometry t)) ∧
     (dragsBottom c ->
        height t' = qBound (minimumHeight t)
                      (height t + (py p - Rect.bottom (geometry t))) (maximumHeight t) ∧
        Rect.top (geometry t') = Rect.top (geometry t)) ∧
     (¬ dragsTop c -> ¬ dragsBottom c ->
        Rect.top (geometry t') = Rect.top (geometry t) ∧
        Rect.bottom (geometry t') = Rect.bottom (geometry t)) ∧
     (minimumWidth t <= maximumWidth t -> dragsLeft c ∨ dragsRight c ->
        minimumWidth t <= width t' <= maximumWidth t) ∧
     (minimumHeight t <= maximumHeight t -> dragsTop c ∨ dragsBottom c ->
        minimumHeight t <= height t' <= maximumHeight t)).
Proof.
  split.
  - intros Hin. split.
    + intros es. revert h Hin.
      induction es as [|e es IH]; intros h Hin; [exact Hin|].
      cbn [WidgetResizeHandler.mouseMoves]. apply IH.
      now apply mouseMoveEvent_within_constraints.
    + intros es. revert h Hin.
      induction es as [|[o e] es IH]; intros h Hin; [exact Hin|].
      cbn [WidgetResizeHandler.eventFilters]. apply IH.
      now apply eventFilter_within_constraints.
  - intros e Hr. cbv zeta.
    pose proof (mouseMoveEvent_geometry h e Hr) as Hg. cbv zeta in Hg.
    destruct Hg as (_ & HL & HR & HN & HT & HB & HM).
    repeat (split; [assumption|]). split.
    + intros Hle [Hc|Hc];
        [destruct (HL Hc) as [-> _] | destruct (HR Hc) as [-> _]];
        now apply qBound_in_range.
    + intros Hle [Hc|Hc];
        [destruct (HT Hc) as [-> _] | destruct (HB Hc) as [-> _]];
        now apply qBound_in_range.
Qed.

(** C9: while the target is maximized, [eventFilter] consumes nothing and
    changes nothing, whatever the watched object and the event (press, move,
    release or any other): the handler keeps its fields, so no resize
    session starts, the target keeps its geometry, and no call reaches the
    toolkit.  The same holds for every sequence of events. *)
Theorem eventFilter_maximized_noop (h : Handler) (o : QObject) (e : QEvent) :
  isMaximized (mTarget h) = true ->
  eventFilter h o e = (false, h, []) ∧
  (∀ es : list (QObject * QEvent), eventFilters h es = h).
Proof.
  intros Hmax.
  assert (Hone : ∀ o e, eventFilter h o e = (false, h, [])).
  { intros o0 e0. unfold WidgetResizeHandler.eventFilter. rewrite Hmax.
    destruct (s_disableAllHandlers h); [reflexivity|].
    destruct (negb (isWidget o0)); [reflexivity|].
    destruct (negb (mFilterIsGlobal h) && _); [reflexivity|].
    destruct (type e0); reflexivity. }
  split; [apply Hone|].
  intros es. induction es as [|[o0 e0] es IH]; [reflexivity|].
  cbn [WidgetResizeHandler.eventFilters]. now rewrite Hone.
Qed.

(** C5, as amended: [cursorPosition] tests the two axes independently and
    joins the outcomes with a bitwise or.  Horizontally the pointer matches
    Left when [-4 <= x <= 4] and otherwise Right when
    [width - 8 <= x <= width]; vertically Top when [-4 <= y <= 4] and
    otherwise Bottom when [height - 8 <= y <= height].  The result is one of
    the four edges, the four corners or Undefined, and it is Undefined
    exactly when neither axis matches (or when there is no target).  A
    press at an Undefined position is not consumed and starts no session,
    and a session pinned to Undefined leaves the geometry alone. *)
Theorem cursorPosition_classifies (target : Widget) (globalPos : QPoint) :
  let pos := mapFromGlobal target globalPos in
  let hz := horizontalZone (width target) (px pos) in
  let vz := verticalZone (height target) (py pos) in
  let c := cursorPosition (Some target) globalPos in
  c = Z.lor hz vz ∧
  c ∈ [CursorPosition_Undefined; CursorPosition_Left; CursorPosition_Right;
       CursorPosition_Top; CursorPosition_Bottom; CursorPosition_TopLeft;
       CursorPosition_TopRight; CursorPosition_BottomLeft;
       CursorPosition_BottomRight] ∧
  (c = CursorPosition_Undefined <->
     hz = CursorPosition_Undefined ∧ vz = CursorPosition_Undefined) ∧
  cursorPosition None globalPos = CursorPosition_Undefined ∧
  (∀ (h : Handler) (o : QObject) (e : QEvent),
     mTarget h = target -> type e = MouseButtonPress ->
     WidgetResizeHandler.globalPos (mouse e) = globalPos ->
     c = CursorPosition_Undefined ->
     eventFilter h o e = (false, h, [])) ∧
  (∀ (h : Handler) (e : QMouseEvent),
     mResizeWidget h = true -> mCursorPos h = CursorPosition_Undefined ->
     mouseMoveEvent h e = (true, h, [])).
Proof.
  intros pos hz vz c. subst c. rewrite cursorPosition_zones. fold pos hz vz.
  split; [reflexivity|].
  split.
  { destruct (horizontalZone_cases (width target) (px pos)) as [H|[H|H]];
    destruct (verticalZone_cases (height target) (py pos)) as [V|[V|V]];
    fold hz in H; fold vz in V; rewrite H, V; set_solver. }
  split.
  { destruct (horizontalZone_cases (width target) (px pos)) as [H|[H|H]];
    destruct (verticalZone_cases (height target) (py pos)) as [V|[V|V]];
    fold hz in H; fold vz in V; rewrite H, V; split;
      solve [discriminate | intros [? ?]; discriminate | auto]. }
  split; [reflexivity|].
  split.
  - intros h o e Ht Hty Hpos Hc.
    unfold WidgetResizeHandler.eventFilter. rewrite Hty.
    destruct (s_disableAllHandlers h); [reflexivity|].
    destruct (negb (isWidget o)); [reflexivity|].
    destruct (negb (mFilterIsGlobal h) && _); [reflexivity|].
    destruct (isMaximized (mTarget h)); [reflexivity|].
    cbv zeta. rewrite Ht, Hpos, cursorPosition_zones. fold pos hz vz.
    rewrite Hc. now rewrite decide_True by reflexivity.
  - intros h e Hr Hc.
    destruct (mouseMoveEvent_resizing h e Hr) as (H1 & H2 & H3).
    pose proof (resizeWidth_spec (mTarget h) (mCursorPos h)
                  (WidgetResizeHandler.globalPos e)) as Hw. cbv zeta in Hw.
    destruct Hw as (Hy1 & Hy2 & _ & _ & HN).
    pose proof (resizeHeight_spec (mTarget h) (mCursorPos h)
                  (WidgetResizeHandler.globalPos e) _ Hy1 Hy2) as Hv.
    cbv zeta in Hv. destruct Hv as (_ & _ & _ & _ & HM).
    rewrite HM, HN, set_mTarget_same in H3
      by (rewrite Hc; unfold_positions; lia).
    destruct (mouseMoveEvent h e) as [[b h'] l]. cbn in *. congruence.
Qed.

End ResizeHandlerFacts.

(** Dragging the bottom-right corner far out and then far in: the size
    stops at 200 by 200 and then at 50 by 50. *)
Lemma mouseMoveEvent_keeps_constraints_witness :
  let h := handler_100 true WidgetResizeHandler.CursorPosition_BottomRight in
  let h1 := WidgetResizeHandler.mouseMoves (fun _ p => p) true h [move_to 900 700] in
  let h2 := WidgetResizeHandler.mouseMoves (fun _ p => p) true h
              [move_to 900 700; move_to (-30) 10] in
  WidgetResizeHandler.within_constraints (WidgetResizeHandler.mTarget h2) ∧
  WidgetResizeHandler.geometry (WidgetResizeHandler.mTarget h1)
  = mkQRect 0 0 199 199 ∧
  WidgetResizeHandler.geometry (WidgetResizeHandler.mTarget h2)
  = mkQRect 0 0 49 49.
Proof.
  intros h h1 h2.
  assert (Hin : WidgetResizeHandler.within_constraints
                  (WidgetResizeHandler.mTarget h)).
  { unfold WidgetResizeHandler.within_constraints. vm_compute.
    repeat split; discriminate. }
  destruct (mouseMoveEvent_keeps_constraints (fun _ p => p) true h)
    as [Hkept _].
  destruct (Hkept Hin) as [Hmoves _].
  split; [exact (Hmoves [move_to 900 700; move_to (-30) 10])|].
  split; vm_compute; reflexivity.
Defined.

Lemma eventFilter_maximized_noop_witness :
  let h := WidgetResizeHandler.set_mTarget
             (WidgetResizeHandler.mkWidget (mkQRect 0 0 99 99) 50 200 50 200 true)
             (handler_100 false 0) in
  WidgetResizeHandler.eventFilter (fun _ p => p) true h the_target (press_at 2 2)
  = (false, h, []).
Proof.
  intros h.
  destruct (eventFilter_maximized_noop (fun _ p => p) true h the_target
              (press_at 2 2) eq_refl) as [Hnoop _].
  exact Hnoop.
Defined.

(** The same press on the target when it is not maximized starts a resize
    from the top-left corner. *)
Example eventFilter_press_starts_resize :
  WidgetResizeHandler.eventFilter (fun _ p => p) true (handler_100 false 0)
    the_target (press_at 2 2)
  = (true,
     WidgetResizeHandler.mkHandler false false true (mkQPoint 2 2)
       WidgetResizeHandler.CursorPosition_TopLeft target_100,
     []).
Proof. vm_compute. reflexivity. Qed.

Lemma cursorPosition_classifies_witness :
  WidgetResizeHandler.cursorPosition (fun _ p => p) (Some target_100)
    (mkQPoint 50 50) = WidgetResizeHandler.CursorPosition_Undefined ∧
  WidgetResizeHandler.eventFilter (fun _ p => p) true (handler_100 false 0)
    the_target (press_at 50 50) = (false, handler_100 false 0, []) ∧
  WidgetResizeHandler.mouseMoveEvent (fun _ p => p) true (handler_100 true 0)
    (move_to 900 700) = (true, handler_100 true 0, []).
Proof.
  pose proof (cursorPosition_classifies (fun _ p => p) true target_100
                (mkQPoint 50 50)) as H.
  cbv zeta in H. destruct H as (_ & _ & _ & _ & Hpress & Hmove).
  split; [vm_compute; reflexivity|]. split.
  - exact (Hpress (handler_100 false 0) the_target (press_at 50 50)
             eq_refl eq_refl eq_refl eq_refl).
  - exact (Hmove (handler_100 true 0) (move_to 900 700) eq_refl eq_refl).
Defined.

(** C5, counterexample: on a target 100 pixels wide, a pointer at x = 93
    is 7 pixels inside the right boundary and further still from the left
    one, yet [cursorPosition] answers Right; a pointer at x = 102 is 2
    pixels outside the right boundary and the answer is Undefined.  The
    classification by distance to the boundaries says the opposite in both
    places. *)
Lemma cursorPosition_right_zone_counterexample :
  let at_93 := mkQPoint 93 50 in
  let at_102 := mkQPoint 102 50 in
  (WidgetResizeHandler.cursorPosition (fun _ p => p) (Some target_100) at_93
   = WidgetResizeHandler.CursorPosition_Right ∧
   WidgetResizeHandler.classify_by_boundary
     (WidgetResizeHandler.width target_100)
     (WidgetResizeHandler.height target_100) at_93
   = WidgetResizeHandler.CursorPosition_Undefined) ∧
  (WidgetResizeHandler.cursorPosition (fun _ p => p) (Some target_100) at_102
   = WidgetResizeHandler.CursorPosition_Undefined ∧
   WidgetResizeHandler.classify_by_boundary
     (WidgetResizeHandler.width target_100)
     (WidgetResizeHandler.height target_100) at_102
   = WidgetResizeHandler.CursorPosition_Right).
Proof. repeat split; vm_compute; reflexivity. Qed.

(** ** The main window *)

Section MainWindowFacts.

Import MainWindowBase.

Variable DropArea : Type.
Variable MultiSplitterLayout : Type.
Variable DropArea_serialize : DropArea -> MultiSplitterLayout.
Variable DropArea_deserialize : DropArea -> MultiSplitterLayout -> DropArea * bool.
Variable DropArea_redock : DockWidget -> DropArea -> DropArea.
Variable uniqueName : DockWidget -> string.
Variable dockByName : string -> option DockWidget.

Local Abbreviation MainWindow := (MainWindow DropArea).
Local Abbreviation Snapshot := (Snapshot MultiSplitterLayout).
Local Abbreviation deserialize :=
  (deserialize DropArea MultiSplitterLayout DropArea_deserialize dockByName).
Local Abbreviation serialize :=
  (serialize DropArea MultiSplitterLayout DropArea_serialize uniqueName).
Local Abbreviation step := (step DropArea DropArea_redock).
Local Abbreviation run := (run DropArea DropArea_redock).

Lemma not_None_four (loc : SideBarLocation) :
  loc <> SideBarLocation_None <->
  loc ∈ [SideBarLocation_North; SideBarLocation_South;
         SideBarLocation_East; SideBarLocation_West].
Proof.
  rewrite !elem_of_cons, elem_of_nil.
  destruct loc; split; intros H; try congruence; try tauto;
    repeat destruct H as [H|H]; try discriminate H; try contradiction.
Qed.

Lemma findSideBar_None (w : MainWindow) (dw : DockWidget)
    (locs : list SideBarLocation) :
  (∀ loc sb, loc ∈ locs -> sideBar DropArea w loc = Some sb -> dw ∉ sb) ->
  findSideBar DropArea w (Some dw) locs = None.
Proof.
  induction locs as [|loc locs IH]; intros Hout; [reflexivity|].
  cbn [findSideBar]. destruct (sideBar DropArea w loc) as [sb|] eqn:Hsb.
  - cbn [SideBar.containsDockWidget].
    rewrite bool_decide_eq_false_2 by (eapply Hout; [left|exact Hsb]).
    apply IH. intros loc' sb' Hin. apply Hout. now right.
  - apply IH. intros loc' sb' Hin. apply Hout. now right.
Qed.

Lemma sideBarForDockWidget_None (w : MainWindow) (dw : DockWidget) :
  in_no_sideBar DropArea w dw ->
  sideBarForDockWidget DropArea w (Some dw) = None.
Proof.
  intros Hout. apply findSideBar_None. intros loc sb Hin.
  apply Hout. now apply not_None_four.
Qed.

(** C8: for a panel that sits in none of the four side bars,
    [overlayOnSideBar] prints its warning and returns with the main window
    as it was: the overlay slot, the side bars, the layout and the frames
    are the same, so no frame has been created. *)
Theorem overlayOnSideBar_outside_sideBars (w : MainWindow) (dw : DockWidget) :
  in_no_sideBar DropArea w dw ->
  overlayOnSideBar DropArea w (Some dw)
  = (w, [Warning "overlayOnSideBar: You need to add the dock widget to the sidebar before you can overlay it"]).
Proof.
  intros Hout. unfold overlayOnSideBar.
  now rewrite (sideBarForDockWidget_None w dw Hout).
Qed.

(** C7: when the option flags stored in the snapshot differ from those of
    the main window, [deserialize] prints its refusal, returns false and
    leaves the main window as it was: layout, side bars and affinities
    included. *)
Theorem deserialize_refuses_other_options (w : MainWindow) (mw : Snapshot) :
  sv_options MultiSplitterLayout mw <> m_options DropArea w ->
  deserialize w mw
  = (false, w,
     [Warning "deserialize: Refusing to restore MainWindow with different options"]).
Proof.
  intros Hne. unfold MainWindowBase.deserialize.
  now rewrite decide_True by exact Hne.
Qed.

Lemma clearSideBarOverlay_consistent (w : MainWindow) :
  overlay_consistent DropArea w ->
  let w' := (clearSideBarOverlay DropArea w).1 in
  overlay_consistent DropArea w' ∧
  m_overlayedDockWidget DropArea w' = None ∧
  overlayFrames DropArea w' = [] ∧
  nextFrame DropArea w' = nextFrame DropArea w ∧
  sideBars DropArea w' = sideBars DropArea w ∧
  (∀ dw frame, frameOf DropArea w' !! dw = Some frame ->
               frameOf DropArea w !! dw = Some frame).
Proof.
  intros [Halloc Hslot]. unfold clearSideBarOverlay, overlay_consistent.
  destruct (m_overlayedDockWidget DropArea w) as [dw|] eqn:Hdw; cbn.
  - destruct Hslot as (frame & Hframe & Hlive & _).
    rewrite Hframe, Hlive. cbn.
    rewrite decide_False by (intros Hne; now apply Hne).
    repeat split; try reflexivity.
    + intros dw' f' Hl. apply lookup_delete_Some in Hl as [_ Hl]. eauto.
    + intros dw' f' Hl. now apply lookup_delete_Some in Hl as [_ Hl].
  - rewrite Hdw. repeat split; auto.
Qed.

Lemma overlayOnSideBar_consistent (w : MainWindow) (dw : option DockWidget) :
  overlay_consistent DropArea w ->
  overlay_consistent DropArea (overlayOnSideBar DropArea w dw).1.
Proof.
  intros Hinv. unfold overlayOnSideBar.
  destruct dw as [d|]; [|exact Hinv].
  destruct (sideBarForDockWidget DropArea w (Some d)); [|exact Hinv].
  case_decide; [exact Hinv|].
  pose proof (clearSideBarOverlay_consistent w Hinv) as Hc. cbv zeta in Hc.
  destruct (clearSideBarOverlay DropArea w) as [w1 ev1]. cbn [fst] in Hc.
  destruct Hc as ([Halloc _] & Hnone & Hlive & Hnext & _ & _).
  cbn. unfold overlay_consistent. cbn. rewrite Hlive. split.
  - intros dw' f' Hl. apply lookup_insert_Some in Hl as [[_ <-]|[_ Hl]].
    + lia.
    + apply Halloc in Hl. lia.
  - exists (nextFrame DropArea w1). rewrite lookup_insert_eq.
    repeat split. intros dw' Hl.
    apply lookup_insert_Some in Hl as [[<- _]|[_ Hl]]; [reflexivity|].
    apply Halloc in Hl. lia.
Qed.

Lemma toggleOverlayOnSideBar_consistent (w : MainWindow) (dw : option DockWidget) :
  overlay_consistent DropArea w ->
  overlay_consistent DropArea (toggleOverlayOnSideBar DropArea w dw).1.
Proof.
  intros Hinv. unfold toggleOverlayOnSideBar.
  pose proof (clearSideBarOverlay_consistent w Hinv) as Hc. cbv zeta in Hc.
  destruct (clearSideBarOverlay DropArea w) as [w1 ev1]. cbn [fst] in Hc.
  destruct Hc as (Hinv1 & _).
  destruct (negb _); [|exact Hinv1].
  pose proof (overlayOnSideBar_consistent w1 dw Hinv1) as Ho.
  now destruct (overlayOnSideBar DropArea w1 dw).
Qed.

Lemma restoreFromSideBar_consistent (w : MainWindow) (dw : DockWidget) :
  overlay_consistent DropArea w ->
  overlay_consistent DropArea (restoreFromSideBar DropArea DropArea_redock w dw).1.
Proof.
  intros Hinv. unfold restoreFromSideBar.
  assert (∃ w1 ev1,
            (if decide (Some dw = m_overlayedDockWidget DropArea w)
             then clearSideBarOverlay DropArea w else (w, [])) = (w1, ev1) ∧
            overlay_consistent DropArea w1 ∧
            m_overlayedDockWidget DropArea w1 <> Some dw) as (w1 & ev1 & -> & Hinv1 & Hslot).
  { case_decide as Hd.
    - pose proof (clearSideBarOverlay_consistent w Hinv) as Hc. cbv zeta in Hc.
      destruct (clearSideBarOverlay DropArea w) as [w1 ev1]. cbn [fst] in Hc.
      destruct Hc as (Hinv1 & Hnone & _).
      exists w1, ev1. rewrite Hnone.
      split; [reflexivity|]. split; [exact Hinv1|discriminate].
    - exists w, []. split; [reflexivity|]. split; [exact Hinv|congruence]. }
  destruct (sideBarForDockWidget DropArea w1 (Some dw)) as [loc|]; [|exact Hinv1].
  destruct Hinv1 as [Halloc Hs]. unfold overlay_consistent. cbn. split.
  - intros dw' f' Hl. apply lookup_insert_Some in Hl as [[_ <-]|[_ Hl]].
    + lia.
    + apply Halloc in Hl. lia.
  - destruct (m_overlayedDockWidget DropArea w1) as [d|]; [|exact Hs].
    destruct Hs as (frame & Hframe & Hlive & Honly).
    exists frame. rewrite lookup_insert_ne by congruence.
    repeat split; [exact Hframe|exact Hlive|].
    intros dw' Hl. apply lookup_insert_Some in Hl as [[_ <-]|[_ Hl]].
    + apply Halloc in Hframe. lia.
    + now apply Honly.
Qed.

Lemma step_consistent (w : MainWindow) (op : Op) :
  overlay_consistent DropArea w -> overlay_consistent DropArea (step w op).1.
Proof.
  intros Hinv. destruct op as [dw|dw| |dw]; cbn [MainWindowBase.step].
  - now apply overlayOnSideBar_consistent.
  - now apply toggleOverlayOnSideBar_consistent.
  - now apply clearSideBarOverlay_consistent.
  - now apply restoreFromSideBar_consistent.
Qed.

Lemma run_consistent (w : MainWindow) (ops : list Op) :
  overlay_consistent DropArea w -> overlay_consistent DropArea (run w ops).
Proof.
  revert w. induction ops as [|op ops IH]; intros w Hinv; [exact Hinv|].
  cbn [MainWindowBase.run]. apply IH. now apply step_consistent.
Qed.

Lemma overlay_consistent_Overlayed (w : MainWindow) (dw : DockWidget) :
  overlay_consistent DropArea w ->
  Overlayed DropArea w dw <-> m_overlayedDockWidget DropArea w = Some dw.
Proof.
  intros [_ Hslot]. unfold Overlayed.
  destruct (m_overlayedDockWidget DropArea w) as [d|].
  - destruct Hslot as (frame & Hframe & Hlive & Honly). split.
    + intros (f & Hf & Hin). rewrite Hlive in Hin.
      apply list_elem_of_singleton in Hin. subst f. f_equal. symmetry. now apply Honly.
    + intros [= ->]. exists frame. rewrite Hlive. split; [exact Hframe|].
      now apply list_elem_of_singleton.
  - rewrite Hslot. split; [|discriminate].
    intros (f & _ & Hin). now apply elem_of_nil in Hin.
Qed.

(** When an operation puts another panel in the slot, the overlay frames of
    before are gone. *)
Lemma step_clears_before_set (w : MainWindow) (op : Op) :
  overlay_consistent DropArea w ->
  m_overlayedDockWidget DropArea (step w op).1 <> m_overlayedDockWidget DropArea w ->
  ∀ frame, frame ∈ overlayFrames DropArea w ->
           frame ∉ overlayFrames DropArea (step w op).1.
Proof.
  intros Hinv Hchg frame Hin Hin'.
  pose proof (clearSideBarOverlay_consistent w Hinv) as Hc0. cbv zeta in Hc0.
  destruct Hc0 as (Hinv1 & _ & Hclr & Hnext & _).
  assert (Hlt : (frame < nextFrame DropArea w)%nat).
  { destruct Hinv as [Halloc Hslot].
    destruct (m_overlayedDockWidget DropArea w) as [d|];
      [|rewrite Hslot in Hin; now apply elem_of_nil in Hin].
    destruct Hslot as (f & Hf & Hlive & _). rewrite Hlive in Hin.
    apply list_elem_of_singleton in Hin. subst frame. eauto. }
  clear Hin Hinv.
  destruct op as [dw|dw| |dw]; cbn [MainWindowBase.step] in *;
    unfold toggleOverlayOnSideBar, restoreFromSideBar in *;
    remember (clearSideBarOverlay DropArea w) as r eqn:Hr;
    destruct r as [w1 ev1]; cbn [fst] in *.
  - unfold overlayOnSideBar in *.
    destruct dw as [d'|]; [|contradiction].
    destruct (sideBarForDockWidget DropArea w (Some d')); [|contradiction].
    case_decide; [contradiction|].
    rewrite <- Hr in *. cbn in Hin'. rewrite Hclr, Hnext in Hin'.
    apply list_elem_of_singleton in Hin'. lia.
  - destruct (negb _).
    + pose proof (clearSideBarOverlay_consistent w1 Hinv1) as Hc1.
      cbv zeta in Hc1. destruct Hc1 as (_ & _ & Hclr1 & Hnext1 & _).
      unfold overlayOnSideBar in *.
      destruct dw as [d'|];
        [|cbn in Hin'; rewrite Hclr in Hin'; now apply elem_of_nil in Hin'].
      destruct (sideBarForDockWidget DropArea w1 (Some d'));
        [|cbn in Hin'; rewrite Hclr in Hin'; now apply elem_of_nil in Hin'].
      case_decide;
        [cbn in Hin'; rewrite Hclr in Hin'; now apply elem_of_nil in Hin'|].
      destruct (clearSideBarOverlay DropArea w1) as [w2 ev2]. cbn in *.
      rewrite Hclr1, Hnext1, Hnext in Hin'.
      apply list_elem_of_singleton in Hin'. lia.
    + cbn in Hin'. rewrite Hclr in Hin'. now apply elem_of_nil in Hin'.
  - rewrite Hclr in Hin'. now apply elem_of_nil in Hin'.
  - case_decide as Hdec.
    + destruct (sideBarForDockWidget DropArea w1 (Some dw)); cbn in Hin';
        rewrite Hclr in Hin'; now apply elem_of_nil in Hin'.
    + destruct (sideBarForDockWidget DropArea w (Some dw)); cbn in Hchg;
        contradiction.
Qed.

(** C3: from a main window whose overlay slot and overlay frames agree (a
    new main window has neither), every sequence of [overlayOnSideBar],
    [toggleOverlayOnSideBar], [clearSideBarOverlay] and [restoreFromSideBar]
    leads to a main window where they agree again.  There is then at most
    one live overlay frame, the overlayed panels are exactly the panel of
    the slot, so at most one panel is overlayed, and any further operation
    that puts another panel in the slot leaves none of the earlier overlay
    frames alive. *)
Theorem at_most_one_overlayed (w0 : MainWindow) (ops : list Op) :
  overlay_consistent DropArea w0 ->
  let w := run w0 ops in
  overlay_consistent DropArea w ∧
  (length (overlayFrames DropArea w) <= 1)%nat ∧
  (∀ dw, Overlayed DropArea w dw <-> m_overlayedDockWidget DropArea w = Some dw) ∧
  (∀ dw1 dw2, Overlayed DropArea w dw1 -> Overlayed DropArea w dw2 -> dw1 = dw2) ∧
  (∀ op frame,
     m_overlayedDockWidget DropArea (step w op).1 <> m_overlayedDockWidget DropArea w ->
     frame ∈ overlayFrames DropArea w ->
     frame ∉ overlayFrames DropArea (step w op).1).
Proof.
  intros Hinv0 w. pose proof (run_consistent w0 ops Hinv0) as Hinv. fold w in Hinv.
  split; [exact Hinv|]. split.
  { destruct Hinv as [_ Hslot].
    destruct (m_overlayedDockWidget DropArea w).
    - destruct Hslot as (f & _ & -> & _). cbn. lia.
    - rewrite Hslot. cbn. lia. }
  split; [intros dw; now apply overlay_consistent_Overlayed|].
  split.
  { intros dw1 dw2 H1 H2.
    apply (overlay_consistent_Overlayed w dw1 Hinv) in H1.
    apply (overlay_consistent_Overlayed w dw2 Hinv) in H2. congruence. }
  intros op frame Hchg. now apply step_clears_before_set.
Qed.

(** *** Snapshots *)

Lemma restoreDockWidgets_fst (names : list string) (sb : list DockWidget) :
  (restoreDockWidgets dockByName names sb).1 = sb ++ omap dockByName names.
Proof.
  revert sb. induction names as [|n names IH]; intros sb; cbn.
  - now rewrite app_nil_r.
  - destruct (dockByName n) as [dw|].
    + rewrite IH. unfold SideBar.addDockWidget. now rewrite <- app_assoc.
    + specialize (IH sb).
      destruct (restoreDockWidgets dockByName names sb). exact IH.
Qed.

Lemma restoreDockWidgets_snd (names : list string) (sb : list DockWidget) :
  (∀ n, n ∈ names -> is_Some (dockByName n)) ->
  (restoreDockWidgets dockByName names sb).2 = [].
Proof.
  revert sb. induction names as [|n names IH]; intros sb Hreg; cbn; [reflexivity|].
  destruct (Hreg n) as [dw ->]; [left|].
  apply IH. intros n' Hn'. apply Hreg. now right.
Qed.

Lemma omap_dockByName_uniqueName (sb : list DockWidget) :
  (∀ dw, dw ∈ sb -> dockByName (uniqueName dw) = Some dw) ->
  omap dockByName (uniqueName <$> sb) = sb.
Proof.
  induction sb as [|dw sb IH]; intros Hreg; cbn; [reflexivity|].
  rewrite (Hreg dw) by left. f_equal. apply IH.
  intros dw' Hin. apply Hreg. now right.
Qed.

Lemma clearSideBarsAt_lookup (locs : list SideBarLocation)
    (s : gmap SideBarLocation (list DockWidget)) (loc : SideBarLocation) :
  (loc ∈ locs -> clearSideBarsAt locs s !! loc = SideBar.clear <$> s !! loc) ∧
  (loc ∉ locs -> clearSideBarsAt locs s !! loc = s !! loc).
Proof.
  revert s. induction locs as [|l locs IH]; intros s; cbn.
  - split; [intros Hin; now apply elem_of_nil in Hin|reflexivity].
  - destruct (IH (alter SideBar.clear l s)) as [IHin IHout]. split.
    + intros Hin. destruct (decide (loc ∈ locs)) as [Hi|Ho].
      * rewrite IHin by exact Hi. destruct (decide (l = loc)) as [->|Hne].
        -- rewrite lookup_alter_eq. now destruct (s !! loc).
        -- now rewrite lookup_alter_ne.
      * rewrite IHout by exact Ho.
        apply elem_of_cons in Hin as [->|Hin]; [|contradiction].
        apply lookup_alter_eq.
    + intros Hout. apply not_elem_of_cons in Hout as [Hne Ho].
      rewrite IHout by exact Ho. now apply lookup_alter_ne.
Qed.

Lemma restoreSideBars_lookup (per : gmap SideBarLocation (list string))
    (locs : list SideBarLocation)
    (s : gmap SideBarLocation (list DockWidget)) (loc : SideBarLocation) :
  NoDup locs ->
  (loc ∈ locs ->
   (restoreSideBars dockByName per locs s).1 !! loc
   = (fun sb => sb ++ omap dockByName (default [] (per !! loc))) <$> s !! loc) ∧
  (loc ∉ locs -> (restoreSideBars dockByName per locs s).1 !! loc = s !! loc).
Proof.
  intros Hnd. revert s.
  induction Hnd as [|l locs Hl Hnd IH]; intros s; cbn.
  - split; [intros Hin; now apply elem_of_nil in Hin|reflexivity].
  - assert (Hstep :
      (restoreSideBars dockByName per (l :: locs) s).1
      = (restoreSideBars dockByName per locs
           (match s !! l with
            | Some sb =>
                <[l := sb ++ omap dockByName (default [] (per !! l))]> s
            | None => s
            end)).1).
    { cbn. destruct (s !! l) as [sb|]; [|reflexivity].
      pose proof (restoreDockWidgets_fst (default [] (per !! l)) sb) as Hf.
      destruct (restoreDockWidgets dockByName (default [] (per !! l)) sb)
        as [sb' ev1]. cbn [fst] in Hf. subst sb'.
      now destruct (restoreSideBars dockByName per locs _). }
    cbn in Hstep. rewrite Hstep. clear Hstep.
    match goal with
    | |- context [restoreSideBars dockByName per locs ?s'] =>
        destruct (IH s') as [IHin IHout]
    end.
    split.
    + intros Hin. destruct (decide (l = loc)) as [->|Hne].
      * rewrite IHout by exact Hl.
        destruct (s !! loc) as [sb|] eqn:Hsb; [|now rewrite Hsb].
        now rewrite lookup_insert_eq.
      * apply elem_of_cons in Hin as [->|Hin]; [contradiction|].
        rewrite IHin by exact Hin.
        destruct (s !! l); [|reflexivity]. now rewrite lookup_insert_ne.
    + intros Hout. apply not_elem_of_cons in Hout as [Hne Ho].
      rewrite IHout by exact Ho.
      destruct (s !! l); [|reflexivity]. now rewrite lookup_insert_ne.
Qed.

Lemma restoreSideBars_snd (per : gmap SideBarLocation (list string))
    (locs : list SideBarLocation)
    (s : gmap SideBarLocation (list DockWidget)) :
  (∀ loc n, loc ∈ locs -> n ∈ default [] (per !! loc) ->
            is_Some (dockByName n)) ->
  (restoreSideBars dockByName per locs s).2 = [].
Proof.
  revert s. induction locs as [|l locs IH]; intros s Hreg; cbn; [reflexivity|].
  assert (Hrest : ∀ loc n, loc ∈ locs -> n ∈ default [] (per !! loc) ->
                           is_Some (dockByName n)).
  { intros loc n Hin. apply Hreg. now right. }
  destruct (s !! l) as [sb|]; [|now apply IH].
  pose proof (restoreDockWidgets_snd (default [] (per !! l)) sb) as Hs.
  destruct (restoreDockWidgets dockByName (default [] (per !! l)) sb)
    as [sb' ev1]. cbn [snd] in Hs.
  rewrite Hs by (intros n; apply Hreg; left).
  specialize (IH (<[l := sb']> s) Hrest).
  destruct (restoreSideBars dockByName per locs _) as [s' ev2].
  cbn [snd] in *. now rewrite IH.
Qed.

Lemma serializeSideBars_lookup (w : MainWindow) (locs : list SideBarLocation)
    (m : gmap SideBarLocation (list string)) (loc : SideBarLocation) :
  (loc ∈ locs ->
   serializeSideBars DropArea uniqueName w locs m !! loc
   = match sideBar DropArea w loc with
     | Some sb =>
         if decide (SideBar.serialize uniqueName sb <> [])
         then Some (SideBar.serialize uniqueName sb) else m !! loc
     | None => m !! loc
     end) ∧
  (loc ∉ locs -> serializeSideBars DropArea uniqueName w locs m !! loc = m !! loc).
Proof.
  revert m. induction locs as [|l locs IH]; intros m.
  - split; [intros Hin; now apply elem_of_nil in Hin|reflexivity].
  - assert (Hstep :
      serializeSideBars DropArea uniqueName w (l :: locs) m
      = serializeSideBars DropArea uniqueName w locs
          (match sideBar DropArea w l with
           | Some sb =>
               if decide (SideBar.serialize uniqueName sb <> [])
               then <[l := SideBar.serialize uniqueName sb]> m else m
           | None => m
           end)).
    { cbn. destruct (sideBar DropArea w l); [|reflexivity].
      now case_decide. }
    rewrite Hstep. clear Hstep.
    set (m' := match sideBar DropArea w l with
               | Some sb =>
                   if decide (SideBar.serialize uniqueName sb <> [])
                   then <[l := SideBar.serialize uniqueName sb]> m else m
               | None => m
               end).
    assert (Hother : l <> loc -> m' !! loc = m !! loc).
    { intros Hne. subst m'. destruct (sideBar DropArea w l); [|reflexivity].
      case_decide; [|reflexivity]. now rewrite lookup_insert_ne. }
    destruct (IH m') as [IHin IHout].
    split.
    + intros Hin. destruct (decide (loc ∈ locs)) as [Hi|Ho].
      * rewrite IHin by exact Hi.
        destruct (decide (l = loc)) as [->|Hne]; [|now rewrite Hother].
        subst m'. destruct (sideBar DropArea w loc); [|reflexivity].
        destruct (decide _); reflexivity.
      * rewrite IHout by exact Ho.
        apply elem_of_cons in Hin as [->|Hin]; [|contradiction].
        subst m'. destruct (sideBar DropArea w l); [|reflexivity].
        case_decide; [|reflexivity]. apply lookup_insert_eq.
    + intros Hout. apply not_elem_of_cons in Hout as [Hne Ho].
      rewrite IHout by exact Ho. apply Hother. congruence.
Qed.

Lemma not_None_four' (loc : SideBarLocation) :
  loc <> SideBarLocation_None <->
  loc ∈ [SideBarLocation_North; SideBarLocation_East;
         SideBarLocation_West; SideBarLocation_South].
Proof.
  rewrite !elem_of_cons, elem_of_nil.
  destruct loc; split; intros H; try congruence; try tauto;
    repeat destruct H as [H|H]; try discriminate H; try contradiction.
Qed.

Lemma NoDup_four :
  NoDup [SideBarLocation_North; SideBarLocation_East;
         SideBarLocation_West; SideBarLocation_South].
Proof.
  repeat (apply NoDup_cons; split;
          [rewrite ?elem_of_cons, elem_of_nil; intuition discriminate|]).
  apply NoDup_nil_2.
Qed.

(** What [deserialize] does with a snapshot whose options match: the
    affinities are those of the snapshot, the geometry and the overlay slot
    are not touched, and each of the four side bars holds, in the order of
    the snapshot, the panels the registry knows among the names stored for
    its location. *)
Lemma deserialize_matching (w : MainWindow) (mw : Snapshot) :
  sv_options MultiSplitterLayout mw = m_options DropArea w ->
  let r := deserialize w mw in
  let d := DropArea_deserialize (m_dropArea DropArea w)
             (sv_multiSplitterLayout MultiSplitterLayout mw) in
  r.1.1 = d.2 ∧
  m_dropArea DropArea r.1.2 = d.1 ∧
  affinities DropArea r.1.2 = sv_affinities MultiSplitterLayout mw ∧
  geometry DropArea r.1.2 = geometry DropArea w ∧
  m_overlayedDockWidget DropArea r.1.2 = m_overlayedDockWidget DropArea w ∧
  (∀ loc, loc <> SideBarLocation_None ->
     sideBars DropArea r.1.2 !! loc
     = (fun _ => omap dockByName
                   (default [] (sv_dockWidgetsPerSideBar MultiSplitterLayout mw !! loc)))
       <$> sideBars DropArea w !! loc) ∧
  sideBars DropArea r.1.2 !! SideBarLocation_None
  = sideBars DropArea w !! SideBarLocation_None ∧
  r.2 = (if decide (affinities DropArea w <> sv_affinities MultiSplitterLayout mw)
         then [Warning "deserialize: Affinty name changed"] else [])
        ++ (restoreSideBars dockByName
              (sv_dockWidgetsPerSideBar MultiSplitterLayout mw)
              [SideBarLocation_North; SideBarLocation_East;
               SideBarLocation_West; SideBarLocation_South]
              (clearSideBarsAt
                 [SideBarLocation_North; SideBarLocation_South;
                  SideBarLocation_East; SideBarLocation_West]
                 (sideBars DropArea w))).2.
Proof.
  intros Hopt r d. subst r d. unfold MainWindowBase.deserialize.
  rewrite decide_False by (intros Hne; now apply Hne).
  set (s0 := clearSideBarsAt
               [SideBarLocation_North; SideBarLocation_South;
                SideBarLocation_East; SideBarLocation_West] (sideBars DropArea w)).
  set (per := sv_dockWidgetsPerSideBar MultiSplitterLayout mw).
  assert (Hs0 : ∀ w', sideBars DropArea w' = sideBars DropArea w ->
                      sideBars DropArea (clearSideBars DropArea w') = s0).
  { intros w' Hw'. unfold clearSideBars. cbn. now rewrite Hw'. }
  assert (Hlook : ∀ loc, loc <> SideBarLocation_None ->
            (restoreSideBars dockByName per
               [SideBarLocation_North; SideBarLocation_East;
                SideBarLocation_West; SideBarLocation_South] s0).1 !! loc
            = (fun _ => omap dockByName (default [] (per !! loc)))
              <$> sideBars DropArea w !! loc).
  { intros loc Hloc.
    destruct (restoreSideBars_lookup per _ s0 loc NoDup_four) as [Hin _].
    rewrite Hin by (now apply not_None_four').
    destruct (clearSideBarsAt_lookup
                [SideBarLocation_North; SideBarLocation_South;
                 SideBarLocation_East; SideBarLocation_West]
                (sideBars DropArea w) loc) as [Hc _].
    subst s0. rewrite Hc by (now apply not_None_four).
    now destruct (sideBars DropArea w !! loc). }
  assert (Hnone :
            (restoreSideBars dockByName per
               [SideBarLocation_North; SideBarLocation_East;
                SideBarLocation_West; SideBarLocation_South] s0).1
              !! SideBarLocation_None
            = sideBars DropArea w !! SideBarLocation_None).
  { destruct (restoreSideBars_lookup per _ s0 SideBarLocation_None NoDup_four)
      as [_ Hout].
    rewrite Hout by (intros Hin; now apply not_None_four' in Hin).
    destruct (clearSideBarsAt_lookup
                [SideBarLocation_North; SideBarLocation_South;
                 SideBarLocation_East; SideBarLocation_West]
                (sideBars DropArea w) SideBarLocation_None) as [_ Hc].
    subst s0. apply Hc. intros Hin. now apply not_None_four in Hin. }
  case_decide as Haff; cbn [set_affinities m_dropArea];
    destruct (DropArea_deserialize (m_dropArea DropArea w)
                (sv_multiSplitterLayout MultiSplitterLayout mw))
      as [dropArea success];
    rewrite Hs0 by reflexivity;
    destruct (restoreSideBars dockByName per _ s0) as [s' ev2];
    cbn in *; repeat split; auto.
Qed.

(** What [serialize] stores. *)
Lemma serialize_fields (w : MainWindow) :
  let mw := serialize w in
  sv_options MultiSplitterLayout mw = m_options DropArea w ∧
  sv_geometry MultiSplitterLayout mw = geometry DropArea w ∧
  sv_affinities MultiSplitterLayout mw = affinities DropArea w ∧
  sv_multiSplitterLayout MultiSplitterLayout mw
  = DropArea_serialize (m_dropArea DropArea w) ∧
  (∀ loc, loc <> SideBarLocation_None ->
     sv_dockWidgetsPerSideBar MultiSplitterLayout mw !! loc
     = match sideBar DropArea w loc with
       | Some sb => if decide (sb <> []) then Some (uniqueName <$> sb) else None
       | None => None
       end).
Proof.
  cbv zeta. repeat split. intros loc Hloc.
  unfold MainWindowBase.serialize. cbn [sv_dockWidgetsPerSideBar].
  destruct (serializeSideBars_lookup w
              [SideBarLocation_North; SideBarLocation_East;
               SideBarLocation_West; SideBarLocation_South] ∅ loc) as [Hin _].
  rewrite Hin by (now apply not_None_four').
  destruct (sideBar DropArea w loc) as [sb|]; [|apply lookup_empty].
  unfold SideBar.serialize. rewrite lookup_empty.
  destruct sb; cbn; repeat case_decide; cbn in *; congruence.
Qed.

(** C4, as amended: when every panel in the four side bars is the one the
    registry finds under its unique name, restoring the snapshot a main
    window has just taken of itself gives back the same geometry (which
    [deserialize] does not touch and which equals the stored one), the same
    affinities and the same side bars, each with the same panels in the same
    order, and prints no warning.  [serialize] stores the options, the
    geometry, the affinities, the layout and, for each side bar that is not
    empty, the unique names of its panels in order; [deserialize], for any
    snapshot with matching options, empties the four side bars and refills
    each with the registered panels among the stored names, in their
    order. *)
Theorem deserialize_serialize_roundtrip (w : MainWindow) :
  sideBars_registered DropArea uniqueName dockByName w ->
  let mw := serialize w in
  let r := deserialize w mw in
  (sv_options MultiSplitterLayout mw = m_options DropArea w ∧
   sv_geometry MultiSplitterLayout mw = geometry DropArea w ∧
   sv_affinities MultiSplitterLayout mw = affinities DropArea w ∧
   sv_multiSplitterLayout MultiSplitterLayout mw
   = DropArea_serialize (m_dropArea DropArea w) ∧
   (∀ loc, loc <> SideBarLocation_None ->
      sv_dockWidgetsPerSideBar MultiSplitterLayout mw !! loc
      = match sideBar DropArea w loc with
        | Some sb => if decide (sb <> []) then Some (uniqueName <$> sb) else None
        | None => None
        end)) ∧
  (∀ mw' : Snapshot,
     sv_options MultiSplitterLayout mw' = m_options DropArea w ->
     ∀ loc, loc <> SideBarLocation_None ->
       sideBars DropArea (deserialize w mw').1.2 !! loc
       = (fun _ => omap dockByName
                     (default [] (sv_dockWidgetsPerSideBar MultiSplitterLayout mw' !! loc)))
         <$> sideBars DropArea w !! loc) ∧
  geometry DropArea r.1.2 = geometry DropArea w ∧
  geometry DropArea r.1.2 = sv_geometry MultiSplitterLayout mw ∧
  affinities DropArea r.1.2 = affinities DropArea w ∧
  sideBars DropArea r.1.2 = sideBars DropArea w ∧
  r.2 = [].
Proof.
  intros Hreg mw r.
  pose proof (serialize_fields w) as Hser. cbv zeta in Hser. fold mw in Hser.
  destruct Hser as (Hopt & Hgeo & Haff & Hlay & Hper).
  split; [repeat split; assumption|].
  split.
  { intros mw' Hopt' loc Hloc.
    pose proof (deserialize_matching w mw' Hopt') as Hd. cbv zeta in Hd.
    destruct Hd as (_ & _ & _ & _ & _ & Hlook & _). now apply Hlook. }
  pose proof (deserialize_matching w mw Hopt) as Hd. cbv zeta in Hd. fold r in Hd.
  destruct Hd as (_ & _ & Haff' & Hgeo' & _ & Hlook & Hnone & Hev).
  clearbody r. clearbody mw.
  assert (Hnames : ∀ loc sb, loc <> SideBarLocation_None ->
            sideBars DropArea w !! loc = Some sb ->
            default [] (sv_dockWidgetsPerSideBar MultiSplitterLayout mw !! loc)
            = uniqueName <$> sb).
  { intros loc sb Hloc Hsb. rewrite (Hper loc Hloc). unfold sideBar.
    rewrite Hsb. destruct sb; [reflexivity|].
    now rewrite decide_True by discriminate. }
  split; [exact Hgeo'|]. split; [congruence|]. split; [congruence|]. split.
  - apply map_eq. intros loc.
    destruct (decide (loc = SideBarLocation_None)) as [->|Hloc]; [exact Hnone|].
    rewrite (Hlook loc Hloc).
    destruct (sideBars DropArea w !! loc) as [sb|] eqn:Hsb; [|reflexivity].
    cbn -[default]. rewrite (Hnames loc sb Hloc Hsb). f_equal.
    apply omap_dockByName_uniqueName. intros dw Hdw.
    now apply (Hreg loc sb dw Hloc Hsb).
  - rewrite Hev. rewrite decide_False by (intros Hne; now apply Hne).
    apply restoreSideBars_snd. intros loc n Hin Hn.
    apply not_None_four' in Hin.
    rewrite (Hper loc Hin) in Hn.
    destruct (sideBar DropArea w loc) as [sb|] eqn:Hsb;
      [|now apply elem_of_nil in Hn].
    case_decide; [|now apply elem_of_nil in Hn].
    cbn in Hn. apply list_elem_of_fmap in Hn as (dw & -> & Hdw).
    rewrite (Hreg loc sb dw Hin Hsb Hdw). eauto.
Qed.

End MainWindowFacts.

Lemma window_0_consistent : MainWindowBase.overlay_consistent unit window_0.
Proof.
  split; [|reflexivity]. intros dw frame H. cbn in H.
  rewrite lookup_empty in H. discriminate H.
Qed.

Lemma at_most_one_overlayed_witness :
  let w := MainWindowBase.run unit (fun _ d => d) window_0
             [MainWindowBase.OverlayOnSideBar (Some 1%nat);
              MainWindowBase.OverlayOnSideBar (Some 2%nat);
              MainWindowBase.ToggleOverlayOnSideBar (Some 1%nat)] in
  MainWindowBase.m_overlayedDockWidget unit w = Some 1%nat ∧
  MainWindowBase.overlayFrames unit w = [2%nat] ∧
  (length (MainWindowBase.overlayFrames unit w) <= 1)%nat.
Proof.
  intros w.
  destruct (at_most_one_overlayed unit (fun _ d => d) window_0
              [MainWindowBase.OverlayOnSideBar (Some 1%nat);
               MainWindowBase.OverlayOnSideBar (Some 2%nat);
               MainWindowBase.ToggleOverlayOnSideBar (Some 1%nat)]
              window_0_consistent) as (_ & Hlen & _).
  split; [vm_compute; reflexivity|]. split; [vm_compute; reflexivity|].
  exact Hlen.
Defined.

Lemma window_0_without_3 : MainWindowBase.in_no_sideBar unit window_0 3%nat.
Proof.
  intros loc sb Hloc Hsb. destruct loc; vm_compute in Hsb;
    try contradiction; try discriminate Hsb;
    injection Hsb as <-; rewrite ?elem_of_cons, elem_of_nil; lia.
Qed.

Lemma overlayOnSideBar_outside_sideBars_witness :
  MainWindowBase.overlayOnSideBar unit window_0 (Some 3%nat)
  = (window_0,
     [MainWindowBase.Warning "overlayOnSideBar: You need to add the dock widget to the sidebar before you can overlay it"]).
Proof.
  exact (overlayOnSideBar_outside_sideBars unit window_0 3%nat window_0_without_3).
Defined.

Lemma deserialize_refuses_other_options_witness :
  MainWindowBase.deserialize unit unit (fun d _ => (d, true)) registry
    window_0 other_options
  = (false, window_0,
     [MainWindowBase.Warning "deserialize: Refusing to restore MainWindow with different options"]).
Proof.
  apply (deserialize_refuses_other_options unit unit (fun d _ => (d, true))
           registry window_0 other_options).
  cbn. lia.
Defined.

Lemma window_0_registered :
  MainWindowBase.sideBars_registered unit panel_names registry window_0.
Proof.
  intros loc sb dw Hloc Hsb Hdw. destruct loc; vm_compute in Hsb;
    try contradiction; try discriminate Hsb; injection Hsb as <-.
  - rewrite !elem_of_cons, elem_of_nil in Hdw.
    destruct Hdw as [->|[->|[]]]; reflexivity.
  - now apply elem_of_nil in Hdw.
Qed.

Lemma deserialize_serialize_roundtrip_witness :
  let r := MainWindowBase.deserialize unit unit (fun d _ => (d, true)) registry
             window_0
             (MainWindowBase.serialize unit unit (fun d => d) panel_names
                window_0) in
  MainWindowBase.sideBars unit r.1.2 = MainWindowBase.sideBars unit window_0 ∧
  MainWindowBase.geometry unit r.1.2 = mkQRect 0 0 799 599 ∧
  MainWindowBase.affinities unit r.1.2 = ["ide"] ∧
  r.2 = [].
Proof.
  intros r.
  destruct (deserialize_serialize_roundtrip unit unit (fun d => d)
              (fun d _ => (d, true)) panel_names registry window_0
              window_0_registered) as (_ & _ & Hgeo & _ & Haff & Hbars & Hev).
  split; [exact Hbars|]. split; [exact Hgeo|]. split; [exact Haff|exact Hev].
Defined.

(** C4, counterexample: the same main window while the registry knows no
    panel.  The options of the snapshot are those of the window, yet
    restoring the snapshot it has just taken leaves the North side bar
    empty, with two warnings, where it held two panels. *)
Lemma roundtrip_unregistered_counterexample :
  let mw := MainWindowBase.serialize unit unit (fun d => d) panel_names
              window_0 in
  let r := MainWindowBase.deserialize unit unit (fun d _ => (d, true))
             empty_registry window_0 mw in
  MainWindowBase.sv_options unit mw = MainWindowBase.m_options unit window_0 ∧
  MainWindowBase.sv_dockWidgetsPerSideBar unit mw !! SideBarLocation_North
  = Some ["editor"; "console"] ∧
  MainWindowBase.sideBars unit window_0 !! SideBarLocation_North
  = Some [1%nat; 2%nat] ∧
  MainWindowBase.sideBars unit r.1.2 !! SideBarLocation_North = Some [] ∧
  MainWindowBase.sideBars unit r.1.2 <> MainWindowBase.sideBars unit window_0 ∧
  length r.2 = 2%nat.
Proof.
  intros mw r.
  assert (Hafter : MainWindowBase.sideBars unit r.1.2 !! SideBarLocation_North
                   = Some []) by (vm_compute; reflexivity).
  assert (Hbefore : MainWindowBase.sideBars unit window_0 !! SideBarLocation_North
                    = Some [1%nat; 2%nat]) by (vm_compute; reflexivity).
  repeat split; try (vm_compute; reflexivity); try assumption.
  intros Heq. rewrite Heq, Hbefore in Hafter. discriminate Hafter.
Qed.

(** * Further properties *)

(** ** The resize handler: sessions *)

Section ResizeHandlerSessions.

Import WidgetResizeHandler.

Variable mapFromGlobal : Widget -> QPoint -> QPoint.
Variable KDDOCKWIDGETS_QTWIDGETS : bool.

Local Abbreviation cursorPosition := (cursorPosition mapFromGlobal).
Local Abbreviation mouseMoveEvent :=
  (mouseMoveEvent mapFromGlobal KDDOCKWIDGETS_QTWIDGETS).
Local Abbreviation eventFilter :=
  (eventFilter mapFromGlobal KDDOCKWIDGETS_QTWIDGETS).
Local Abbreviation eventFilters :=
  (eventFilters mapFromGlobal KDDOCKWIDGETS_QTWIDGETS).

Lemma set_mResizeWidget_same (h : Handler) (b : bool) :
  mResizeWidget h = b -> set_mResizeWidget b h = h.
Proof. intros <-. now destruct h. Qed.

Lemma QRect_ext (a b : QRect) :
  x1 a = x1 b -> y1 a = y1 b -> x2 a = x2 b -> y2 a = y2 b -> a = b.
Proof. destruct a, b. cbn. now intros -> -> -> ->. Qed.

(** How the head of [eventFilter] and the maximized test dispatch. *)
Lemma eventFilter_reaches (h : Handler) (o : QObject) (e : QEvent) :
  reachesTarget h o ->
  eventFilter h o e
  = match type e with
    | MouseButtonPress =>
        let cursorPos := cursorPosition (Some (mTarget h)) (globalPos (mouse e)) in
        if decide (cursorPos = CursorPosition_Undefined) then (false, h, [])
        else if negb (Rect.contains
                        (Rect.marginsAdded 4 4 4 4 (rect (mTarget h)))
                        (mapFromGlobal (mTarget h) (globalPos (mouse e))))
        then (false, h, [])
        else (true,
              set_press (globalPos (mouse e)) cursorPos
                (if decide (button (mouse e) = LeftButton)
                 then set_mResizeWidget true h else h), [])
    | MouseButtonRelease =>
        if decide (button (mouse e) = LeftButton)
        then (true, set_mResizeWidget false h, [ReleaseMouse; ReleaseKeyboard])
        else (false, h, [])
    | MouseMove =>
        let held := mResizeWidget h && leftButtonHeld (mouse e) in
        let r := mouseMoveEvent (set_mResizeWidget (isTarget o && held) h)
                   (mouse e) in
        (r.1.1, set_mResizeWidget held r.1.2, r.2)
    | OtherEvent => (false, h, [])
    end.
Proof.
  intros (Hdis & Hwid & Hflt & Hmax). unfold WidgetResizeHandler.eventFilter.
  rewrite Hdis, Hwid, Hmax. cbn [negb].
  assert (negb (mFilterIsGlobal h) && (negb (isTopLevel o) || negb (isTarget o))
          = false) as ->.
  { destruct Hflt as [->|[-> ->]]; [reflexivity|]. now destruct (mFilterIsGlobal h). }
  destruct (type e); try reflexivity. cbv zeta.
  unfold leftButtonHeld.
  cbn [set_mResizeWidget mResizeWidget s_disableAllHandlers mFilterIsGlobal
       mNewPosition mCursorPos mTarget].
  now destruct (WidgetResizeHandler.mouseMoveEvent _ _ _ _) as [[c h'] eff].
Qed.

Lemma reachesTarget_decided (h : Handler) (o : QObject) :
  reachesTarget h o ∨ ¬ reachesTarget h o.
Proof.
  unfold reachesTarget.
  destruct (s_disableAllHandlers h), (isWidget o), (mFilterIsGlobal h),
    (isTopLevel o), (isTarget o), (isMaximized (mTarget h));
    intuition discriminate.
Qed.

Lemma eventFilter_not_reached (h : Handler) (o : QObject) (e : QEvent) :
  ¬ reachesTarget h o -> eventFilter h o e = (false, h, []).
Proof.
  unfold reachesTarget, WidgetResizeHandler.eventFilter. intros Hn.
  destruct (s_disableAllHandlers h); [reflexivity|].
  destruct (isWidget o); [|reflexivity]. cbn [negb].
  destruct (mFilterIsGlobal h), (isTopLevel o), (isTarget o); try reflexivity;
    (destruct (isMaximized (mTarget h)); [now destruct (type e)|]);
    exfalso; apply Hn; intuition.
Qed.

Lemma eventFilter_idle (h : Handler) (o : QObject) (e : QEvent) :
  mResizeWidget h = false -> type e <> MouseButtonPress ->
  (eventFilter h o e).1.2 = h.
Proof.
  intros Hr Hty.
  destruct (reachesTarget_decided h o) as [Hreach|Hn];
    [|now rewrite eventFilter_not_reached].
  rewrite (eventFilter_reaches h o e Hreach).
  destruct (type e); [contradiction| | |reflexivity].
  - case_decide; [|reflexivity]. now apply set_mResizeWidget_same.
  - cbv zeta. rewrite Hr. cbn [andb]. rewrite andb_false_r.
    rewrite (set_mResizeWidget_same h false Hr).
    cbn [fst snd]. rewrite (mouseMoveEvent_hovering _ _ h (mouse e) Hr).
    now apply set_mResizeWidget_same.
Qed.

(** As long as no resize is under way and no press arrives, the handler
    stays as it is: hovering, releasing and any other event leave its
    fields and the geometry of the target alone. *)
Theorem eventFilter_idle_until_press (h : Handler) (es : list (QObject * QEvent)) :
  mResizeWidget h = false ->
  Forall (fun oe => type oe.2 <> MouseButtonPress) es ->
  eventFilters h es = h.
Proof.
  intros Hr Hes. induction Hes as [|[o e] es Hty _ IH]; [reflexivity|].
  cbn [WidgetResizeHandler.eventFilters].
  now rewrite (eventFilter_idle h o e Hr Hty).
Qed.

(** A press never moves the target and calls nothing.  When it is not
    consumed the handler is unchanged.  When it is consumed the event has
    passed the tests at the head of [eventFilter], the pointer lies in a
    resize zone and within the target grown by the margin, the zone and the
    position are stored, and a resize starts only if the button is the left
    one: another button leaves [mResizeWidget] as it was. *)
Theorem eventFilter_press (h : Handler) (o : QObject) (e : QEvent) :
  type e = MouseButtonPress ->
  let r := eventFilter h o e in
  let cursorPos := cursorPosition (Some (mTarget h)) (globalPos (mouse e)) in
  mTarget r.1.2 = mTarget h ∧ r.2 = [] ∧
  (r.1.1 = false -> r.1.2 = h) ∧
  (r.1.1 = true ->
     reachesTarget h o ∧
     cursorPos <> CursorPosition_Undefined ∧
     Rect.contains (Rect.marginsAdded 4 4 4 4 (rect (mTarget h)))
       (mapFromGlobal (mTarget h) (globalPos (mouse e))) = true ∧
     mCursorPos r.1.2 = cursorPos ∧
     mNewPosition r.1.2 = globalPos (mouse e) ∧
     mResizeWidget r.1.2
     = (mResizeWidget h || bool_decide (button (mouse e) = LeftButton))).
Proof.
  intros Hty r cursorPos. subst r.
  destruct (reachesTarget_decided h o) as [Hreach|Hn];
    [|rewrite eventFilter_not_reached by exact Hn;
      repeat split; try reflexivity; discriminate].
  rewrite (eventFilter_reaches h o e Hreach), Hty. cbv zeta. fold cursorPos.
  case_decide as Hc; [repeat split; try reflexivity; discriminate|].
  destruct (Rect.contains _ _) eqn:Hin; cbn [negb];
    [|repeat split; try reflexivity; discriminate].
  case_decide as Hb;
    [rewrite (bool_decide_eq_true_2 _ Hb), orb_true_r
    |rewrite (bool_decide_eq_false_2 _ Hb), orb_false_r];
    cbn; repeat split; try assumption; try discriminate; try tauto;
    apply Hreach.
Qed.

(** After a consumed release no resize is under way, the release calls
    [releaseMouse] and [releaseKeyboard], the geometry is the one of before,
    and it stays so through every sequence of events without a press. *)
Theorem eventFilter_release_ends_session (h : Handler) (o : QObject) (e : QEvent)
    (es : list (QObject * QEvent)) :
  type e = MouseButtonRelease ->
  (eventFilter h o e).1.1 = true ->
  Forall (fun oe => type oe.2 <> MouseButtonPress) es ->
  let h' := (eventFilter h o e).1.2 in
  mResizeWidget h' = false ∧
  (eventFilter h o e).2 = [ReleaseMouse; ReleaseKeyboard] ∧
  mTarget h' = mTarget h ∧
  eventFilters h' es = h'.
Proof.
  intros Hty Hcons Hes h'.
  assert (Hh' : mResizeWidget h' = false ∧
                (eventFilter h o e).2 = [ReleaseMouse; ReleaseKeyboard] ∧
                mTarget h' = mTarget h).
  { subst h'. destruct (reachesTarget_decided h o) as [Hreach|Hn];
      [|rewrite eventFilter_not_reached in Hcons by exact Hn; discriminate].
    rewrite (eventFilter_reaches h o e Hreach), Hty in *.
    case_decide; [repeat split|discriminate]. }
  destruct Hh' as (Hr & Heff & Ht). repeat split; try assumption.
  induction Hes as [|[o' e'] es' Hty' _ IH]; [reflexivity|].
  cbn [WidgetResizeHandler.eventFilters].
  now rewrite (eventFilter_idle h' o' e' Hr Hty').
Qed.

(** A move that reaches the handler keeps the session exactly when one was
    running and the left button is held.  It changes the geometry only if,
    besides, the watched object is the target, and then the new geometry is
    the one [mouseMoveEvent] computes for the handler as it was. *)
Theorem eventFilter_move (h : Handler) (o : QObject) (e : QEvent) :
  reachesTarget h o -> type e = MouseMove ->
  let r := eventFilter h o e in
  let held := mResizeWidget h && leftButtonHeld (mouse e) in
  mResizeWidget r.1.2 = held ∧
  mCursorPos r.1.2 = mCursorPos h ∧
  (isTarget o && held = false -> mTarget r.1.2 = mTarget h) ∧
  (isTarget o && held = true ->
     r.1.1 = true ∧ r.2 = [] ∧
     mTarget r.1.2 = mTarget (mouseMoveEvent h (mouse e)).1.2).
Proof.
  intros Hreach Hty r held. subst r.
  rewrite (eventFilter_reaches h o e Hreach), Hty. cbv zeta. fold held.
  cbn [fst snd].
  destruct (isTarget o && held) eqn:Hon.
  - apply andb_true_iff in Hon as [_ Hheld].
    assert (Hr : mResizeWidget h = true).
    { subst held. now apply andb_true_iff in Hheld as [-> _]. }
    rewrite (set_mResizeWidget_same h true Hr).
    destruct (mouseMoveEvent_resizing mapFromGlobal KDDOCKWIDGETS_QTWIDGETS
                h (mouse e) Hr) as (Hc & Heff & Hh).
    rewrite Hh. repeat split; try discriminate; auto.
  - pose proof (mouseMoveEvent_hovering mapFromGlobal KDDOCKWIDGETS_QTWIDGETS
                  (set_mResizeWidget false h) (mouse e) eq_refl) as Hh.
    rewrite Hh. repeat split; try discriminate; auto.
Qed.

Lemma mouseMoveEvent_session_kept (h : Handler) (e : QMouseEvent) :
  mResizeWidget h = true ->
  let h1 := (mouseMoveEvent h e).1.2 in
  mResizeWidget h1 = true ∧ mCursorPos h1 = mCursorPos h.
Proof.
  intros Hr h1. subst h1.
  destruct (mouseMoveEvent_resizing mapFromGlobal KDDOCKWIDGETS_QTWIDGETS
              h e Hr) as (_ & _ & ->).
  split; [exact Hr|reflexivity].
Qed.

(** While a dragged axis is not stopped by its bounds, the dragged edge
    lands on the pointer: the right or left edge takes the pointer's x, the
    top or bottom edge its y. *)
Theorem mouseMoveEvent_edge_follows_pointer (h : Handler) (e : QMouseEvent) :
  mResizeWidget h = true ->
  let t := mTarget h in
  let t' := mTarget (mouseMoveEvent h e).1.2 in
  let c := mCursorPos h in
  let p := globalPos e in
  (dragsLeft c ->
     minimumWidth t <= width t + (Rect.left (geometry t) - px p) <= maximumWidth t ->
     Rect.left (geometry t') = px p) ∧
  (dragsRight c ->
     minimumWidth t <= width t + (px p - Rect.right (geometry t)) <= maximumWidth t ->
     Rect.right (geometry t') = px p) ∧
  (dragsTop c ->
     minimumHeight t <= height t + (Rect.top (geometry t) - py p) <= maximumHeight t ->
     Rect.top (geometry t') = py p) ∧
  (dragsBottom c ->
     minimumHeight t <= height t + (py p - Rect.bottom (geometry t)) <= maximumHeight t ->
     Rect.bottom (geometry t') = py p).
Proof.
  intros Hr. cbv zeta.
  pose proof (mouseMoveEvent_geometry mapFromGlobal KDDOCKWIDGETS_QTWIDGETS
                h e Hr) as Hg. cbv zeta in Hg.
  destruct Hg as (_ & HL & HR & _ & HT & HB & _).
  unfold width, height, Rect.width, Rect.height, Rect.left, Rect.right,
    Rect.top, Rect.bottom in *.
  repeat split; intros Hc Hin.
  - destruct (HL Hc) as [Hw Hk]. rewrite qBound_id in Hw by exact Hin. lia.
  - destruct (HR Hc) as [Hw Hk]. rewrite qBound_id in Hw by exact Hin. lia.
  - destruct (HT Hc) as [Hw Hk]. rewrite qBound_id in Hw by exact Hin. lia.
  - destruct (HB Hc) as [Hw Hk]. rewrite qBound_id in Hw by exact Hin. lia.
Qed.

Lemma mouseMoveEvent_twice_geometry (h : Handler) (e : QMouseEvent) :
  mResizeWidget h = true ->
  let h1 := (mouseMoveEvent h e).1.2 in
  geometry (mTarget (mouseMoveEvent h1 e).1.2) = geometry (mTarget h1).
Proof.
  intros Hr h1.
  destruct (mouseMoveEvent_session_kept h e Hr) as [Hr1 Hc1]. fold h1 in Hr1, Hc1.
  pose proof (mouseMoveEvent_geometry mapFromGlobal KDDOCKWIDGETS_QTWIDGETS
                h e Hr) as G1. cbv zeta in G1. fold h1 in G1.
  pose proof (mouseMoveEvent_geometry mapFromGlobal KDDOCKWIDGETS_QTWIDGETS
                h1 e Hr1) as G2. cbv zeta in G2.
  destruct G1 as ((E1 & E2 & E3 & E4) & HL & HR & HN & HT & HB & HM).
  rewrite Hc1, E1, E2, E3, E4 in G2.
  destruct G2 as (_ & HL2 & HR2 & HN2 & HT2 & HB2 & HM2).
  destruct (drags_decided (mCursorPos h)) as (DL & DR & DT & DB).
  set (t := mTarget h) in *. set (t1 := mTarget h1) in *.
  set (t2 := mTarget (mouseMoveEvent h1 e).1.2) in *.
  unfold width, height, Rect.width, Rect.height, Rect.left, Rect.right,
    Rect.top, Rect.bottom in *.
  assert (Hx : x1 (geometry t2) = x1 (geometry t1) ∧
               x2 (geometry t2) = x2 (geometry t1)).
  { destruct DL as [Hc|Hc1'].
    { destruct (HL Hc) as [Hw Hk]. destruct (HL2 Hc) as [Hw2 Hk2].
      replace (x2 (geometry t1) - x1 (geometry t1) + 1
               + (x1 (geometry t1) - px (globalPos e)))
        with (x2 (geometry t) - x1 (geometry t) + 1
              + (x1 (geometry t) - px (globalPos e))) in Hw2 by lia.
      lia. }
    destruct DR as [Hc|Hc2'].
    { destruct (HR Hc) as [Hw Hk]. destruct (HR2 Hc) as [Hw2 Hk2].
      assert (Hsame :
        qBound (minimumWidth t)
          (x2 (geometry t1) - x1 (geometry t1) + 1
           + (px (globalPos e) - x2 (geometry t1))) (maximumWidth t)
        = qBound (minimumWidth t)
            (x2 (geometry t) - x1 (geometry t) + 1
             + (px (globalPos e) - x2 (geometry t))) (maximumWidth t)).
      { f_equal. lia. }
      lia. }
    apply (HN2 Hc1' Hc2'). }
  assert (Hy : y1 (geometry t2) = y1 (geometry t1) ∧
               y2 (geometry t2) = y2 (geometry t1)).
  { destruct DT as [Hc|Hc1'].
    { destruct (HT Hc) as [Hw Hk]. destruct (HT2 Hc) as [Hw2 Hk2].
      replace (y2 (geometry t1) - y1 (geometry t1) + 1
               + (y1 (geometry t1) - py (globalPos e)))
        with (y2 (geometry t) - y1 (geometry t) + 1
              + (y1 (geometry t) - py (globalPos e))) in Hw2 by lia.
      lia. }
    destruct DB as [Hc|Hc2'].
    { destruct (HB Hc) as [Hw Hk]. destruct (HB2 Hc) as [Hw2 Hk2].
      assert (Hsame :
        qBound (minimumHeight t)
          (y2 (geometry t1) - y1 (geometry t1) + 1
           + (py (globalPos e) - y2 (geometry t1))) (maximumHeight t)
        = qBound (minimumHeight t)
            (y2 (geometry t) - y1 (geometry t) + 1
             + (py (globalPos e) - y2 (geometry t))) (maximumHeight t)).
      { f_equal. lia. }
      lia. }
    apply (HM2 Hc1' Hc2'). }
  apply QRect_ext; tauto.
Qed.

(** Moving the pointer to the same place a second time changes nothing: the
    geometry a move produces is a fixed point of that move.  No bound on the
    size constraints is needed. *)
Theorem mouseMoveEvent_same_position_idempotent (h : Handler) (e : QMouseEvent) :
  mResizeWidget h = true ->
  let h1 := (mouseMoveEvent h e).1.2 in
  mouseMoveEvent h1 e = (true, h1, []).
Proof.
  intros Hr h1.
  destruct (mouseMoveEvent_session_kept h e Hr) as [Hr1 _]. fold h1 in Hr1.
  pose proof (mouseMoveEvent_twice_geometry h e Hr) as Hg. cbv zeta in Hg.
  fold h1 in Hg.
  destruct (mouseMoveEvent_resizing mapFromGlobal KDDOCKWIDGETS_QTWIDGETS
              h1 e Hr1) as (Hc & Heff & Hh).
  rewrite Hh in Hg. cbn [mTarget set_mTarget geometry setGeometry] in Hg.
  rewrite Hg, set_mTarget_same in Hh.
  destruct (mouseMoveEvent h1 e) as [[b h2] l]. cbn in *. congruence.
Qed.

End ResizeHandlerSessions.

(** ** The resize handler: native hit test *)

Section NativeHitTest.

Import WidgetResizeHandler.

Ltac hit_cases :=
  unfold ncHitTest, HTCAPTION, HTLEFT, HTRIGHT, HTTOP, HTTOPLEFT, HTTOPRIGHT,
    HTBOTTOM, HTBOTTOMLEFT, HTBOTTOMRIGHT;
  repeat match goal with
         | |- context [decide ?P] => destruct (decide P)
         | |- context [negb ?b && bool_decide ?P] =>
             let Hb := fresh "Hb" in
             destruct (negb b && bool_decide P) eqn:Hb;
             [apply andb_true_iff in Hb as [? Hb];
              apply bool_decide_eq_true in Hb|]
         | |- context [if negb ?b then _ else _] =>
             let Hb := fresh "Hb" in
             destruct (negb b) eqn:Hb; [apply negb_true_iff in Hb|]
         end.

Ltac hit_finish :=
  repeat split; intros;
  repeat match goal with
         | H : _ ∨ _ |- _ => destruct H
         end;
  try discriminate; try assumption;
  unfold Rect.left, Rect.right, Rect.top, Rect.bottom in *; try lia;
  try (rewrite !elem_of_cons; repeat (first [left; reflexivity | right])).

(** A resize code is only answered for a point in the band of 8 pixels
    along the matching border of the window rectangle, and the caption code
    only for a point of the drag rectangle that is not over a widget that
    disallows dragging. *)
Theorem ncHitTest_sound (env : NativeEnv) (w : Widget) (xPos yPos : Z) :
  let r := ncHitTest env w xPos yPos in
  let rect := windowRect env in
  let q := fromNativePixels env (mkQPoint xPos yPos) in
  (r = HTLEFT ∨ r = HTTOPLEFT ∨ r = HTBOTTOMLEFT ->
     rc_left rect <= xPos <= rc_left rect + 8) ∧
  (r = HTRIGHT ∨ r = HTTOPRIGHT ∨ r = HTBOTTOMRIGHT ->
     rc_right rect - 8 <= xPos <= rc_right rect) ∧
  (r = HTTOP ∨ r = HTTOPLEFT ∨ r = HTTOPRIGHT ->
     rc_top rect <= yPos <= rc_top rect + 8) ∧
  (r = HTBOTTOM ∨ r = HTBOTTOMLEFT ∨ r = HTBOTTOMRIGHT ->
     rc_bottom rect - 8 <= yPos <= rc_bottom rect) ∧
  (r = HTCAPTION ->
     Rect.left (dragRect env) <= px q <= Rect.right (dragRect env) ∧
     Rect.top (dragRect env) <= py q <= Rect.bottom (dragRect env) ∧
     inDisallowDragWidget env q = false) ∧
  r ∈ [0; HTCAPTION; HTLEFT; HTRIGHT; HTTOP; HTTOPLEFT; HTTOPRIGHT; HTBOTTOM;
       HTBOTTOMLEFT; HTBOTTOMRIGHT].
Proof.
  cbv zeta. hit_cases; hit_finish.
Qed.

(** A window of fixed width is never answered a left or right edge, and a
    window of fixed height never a top or bottom edge.  The four corner
    tests come first and do not look at the size constraints: a corner code
    is answered for the same point whatever the constraints are, fixed
    sizes included. *)
Theorem ncHitTest_fixed_size (env : NativeEnv) (w : Widget) (xPos yPos : Z) :
  let r := ncHitTest env w xPos yPos in
  (minimumWidth w = maximumWidth w -> r <> HTLEFT ∧ r <> HTRIGHT) ∧
  (minimumHeight w = maximumHeight w -> r <> HTTOP ∧ r <> HTBOTTOM) ∧
  (∀ w' : Widget,
     r = HTTOPLEFT ∨ r = HTTOPRIGHT ∨ r = HTBOTTOMLEFT ∨ r = HTBOTTOMRIGHT ->
     ncHitTest env w' xPos yPos = r).
Proof.
  cbv zeta. split; [|split].
  - intros Hfix. unfold ncHitTest. rewrite Hfix.
    rewrite (bool_decide_eq_true_2 (maximumWidth w = maximumWidth w)) by reflexivity.
    cbn [negb andb].
    unfold HTCAPTION, HTLEFT, HTRIGHT, HTTOP, HTTOPLEFT, HTTOPRIGHT,
      HTBOTTOM, HTBOTTOMLEFT, HTBOTTOMRIGHT.
    repeat match goal with
           | |- context [decide ?P] => destruct (decide P)
           | |- context [if negb ?b && bool_decide ?P then _ else _] =>
               destruct (negb b && bool_decide P)
           | |- context [if negb ?b then _ else _] => destruct (negb b)
           end; split; discriminate.
  - intros Hfix. unfold ncHitTest. rewrite Hfix.
    rewrite (bool_decide_eq_true_2 (maximumHeight w = maximumHeight w)) by reflexivity.
    cbn [negb andb].
    unfold HTCAPTION, HTLEFT, HTRIGHT, HTTOP, HTTOPLEFT, HTTOPRIGHT,
      HTBOTTOM, HTBOTTOMLEFT, HTBOTTOMRIGHT.
    repeat match goal with
           | |- context [decide ?P] => destruct (decide P)
           | |- context [if negb ?b && bool_decide ?P then _ else _] =>
               destruct (negb b && bool_decide P)
           | |- context [if negb ?b then _ else _] => destruct (negb b)
           end; split; discriminate.
  - intros w'. unfold ncHitTest.
    unfold HTCAPTION, HTLEFT, HTRIGHT, HTTOP, HTTOPLEFT, HTTOPRIGHT,
      HTBOTTOM, HTBOTTOMLEFT, HTBOTTOMRIGHT.
    repeat match goal with
           | |- context [decide ?P] => destruct (decide P); try reflexivity
           end;
    repeat match goal with
           | |- context [if negb ?b && bool_decide ?P then _ else _] =>
               destruct (negb b && bool_decide P)
           | |- context [if negb ?b then _ else _] => destruct (negb b)
           end;
    intros [H|[H|[H|H]]]; discriminate H.
Qed.

End NativeHitTest.

(** ** The main window: names, affinities and docking *)

Section MainWindowSettings.

Import MainWindowBase.

Variable DropArea : Type.
Variable Location : Type.
Variable AddingOption : Type.
Variable DropArea_addDockWidget :
  DockWidget -> Location -> option DockWidget -> AddingOption -> DropArea -> DropArea.
Variable CentralFrame_addWidget : DockWidget -> DropArea -> DropArea.
Variable affinitiesMatch : list string -> list string -> bool.
Variable dw_affinities : DockWidget -> list string.
Variable dw_options : DockWidget -> Z.
Variable Option_NotDockable : Z.
Variable MainWindowOption_HasCentralFrame : Z.

Local Abbreviation MainWindow := (MainWindow DropArea).
Local Abbreviation addDockWidgetAsTab :=
  (addDockWidgetAsTab DropArea CentralFrame_addWidget affinitiesMatch
     dw_affinities dw_options Option_NotDockable MainWindowOption_HasCentralFrame).
Local Abbreviation addDockWidget :=
  (addDockWidget DropArea Location AddingOption DropArea_addDockWidget
     dw_options Option_NotDockable).

Lemma setAffinities_kept (w : MainWindow) (affinityNames : list string) :
  affinities DropArea w <> [] ->
  affinities DropArea (setAffinities DropArea w affinityNames).1
  = affinities DropArea w.
Proof.
  intros Hset. unfold setAffinities. cbv zeta.
  case_decide; [reflexivity|]. now rewrite decide_True by exact Hset.
Qed.

(** Affinities are set once: as soon as the main window has some, no call of
    [setAffinities] changes them.  While it has none, a call stores the
    given names without the empty ones, and without a warning; and a call
    never brings an empty name in. *)
Theorem setAffinities_once (w : MainWindow) (affinityNames : list string) :
  (affinities DropArea w <> [] ->
   ∀ calls, affinities DropArea (setAffinitiesAll DropArea w calls)
            = affinities DropArea w) ∧
  (affinities DropArea w = [] ->
   setAffinities DropArea w affinityNames
   = (set_affinities DropArea
        (filter (fun a => a <> EmptyString) affinityNames) w, [])) ∧
  (EmptyString ∉ affinities DropArea w ->
   EmptyString ∉ affinities DropArea (setAffinities DropArea w affinityNames).1).
Proof.
  split; [|split].
  - intros Hset calls. revert w Hset.
    induction calls as [|c calls IH]; intros w Hset; [reflexivity|].
    cbn [setAffinitiesAll]. rewrite IH; rewrite setAffinities_kept; auto.
  - intros Hnone. unfold setAffinities. cbv zeta. rewrite Hnone.
    case_decide as Heq.
    + rewrite <- Heq. f_equal. destruct w; cbn in *. now subst.
    + now rewrite decide_False by (intros Hne; now apply Hne).
  - intros Hclean. unfold setAffinities. cbv zeta.
    case_decide; [exact Hclean|]. case_decide; [exact Hclean|].
    cbn. intros Hin. apply list_elem_of_filter in Hin as [Hne _]. now apply Hne.
Qed.

Lemma setUniqueName_kept (w : MainWindow) (n : string) :
  name DropArea w <> EmptyString ->
  name DropArea (setUniqueName DropArea w n).1.1 = name DropArea w.
Proof.
  intros Hset. unfold setUniqueName.
  case_decide; [reflexivity|]. now rewrite decide_False by exact Hset.
Qed.

(** The unique name is given once: a main window that has a name keeps it
    through every sequence of [setUniqueName], and an empty name is never
    taken.  The name changes, with its two notifications and nothing else
    touched, exactly when the window has no name and the given one is not
    empty. *)
Theorem setUniqueName_once (w : MainWindow) (n : string) :
  (name DropArea w <> EmptyString ->
   ∀ names, name DropArea (setUniqueNames DropArea w names) = name DropArea w) ∧
  (name DropArea w = EmptyString -> n <> EmptyString ->
   setUniqueName DropArea w n
   = (set_name DropArea n w, [], [UniqueNameChanged; MainWindowRegistered])) ∧
  (name DropArea w <> EmptyString ∨ n = EmptyString ->
   (setUniqueName DropArea w n).1.1 = w ∧ (setUniqueName DropArea w n).2 = []) ∧
  (name DropArea (setUniqueName DropArea w n).1.1 = EmptyString ->
   name DropArea w = EmptyString ∧ n = EmptyString).
Proof.
  split; [|split; [|split]].
  - intros Hset names. revert w Hset.
    induction names as [|m names IH]; intros w Hset; [reflexivity|].
    cbn [setUniqueNames]. rewrite IH; rewrite setUniqueName_kept; auto.
  - intros Hnone Hn. unfold setUniqueName.
    rewrite decide_False by exact Hn. now rewrite decide_True by exact Hnone.
  - intros Hcase. unfold setUniqueName.
    case_decide; [split; reflexivity|].
    destruct Hcase as [Hset|Hn]; [|contradiction].
    rewrite decide_False by exact Hset. split; reflexivity.
  - unfold setUniqueName. case_decide as Hn.
    + cbn. intros Hw. split; assumption.
    + case_decide as Hw; cbn; intros Hres; contradiction.
Qed.

(** A dock widget with [Option_NotDockable] is never docked: both entry
    points warn and leave the main window as it was.  [addDockWidgetAsTab]
    changes the main window only by adding the widget to the central frame,
    and does so exactly when the affinities match, the widget is dockable
    and the window has a central frame; in every other case it prints one
    warning and changes nothing. *)
Theorem NotDockable_never_docked (w : MainWindow) (dw : DockWidget)
    (location : Location) (relativeTo : option DockWidget)
    (addingOption : AddingOption) :
  let dockable := bool_decide (Z.land (dw_options dw) Option_NotDockable = 0) in
  let fits := affinitiesMatch (affinities DropArea w) (dw_affinities dw)
              && dockable
              && supportsCentralFrame DropArea MainWindowOption_HasCentralFrame w in
  (dockable = false ->
     (addDockWidget w dw location relativeTo addingOption).1 = w ∧
     (addDockWidgetAsTab w dw).1 = w ∧
     length (addDockWidget w dw location relativeTo addingOption).2 = 1%nat ∧
     length (addDockWidgetAsTab w dw).2 = 1%nat) ∧
  (fits = true ->
     addDockWidgetAsTab w dw
     = (set_dropArea DropArea (CentralFrame_addWidget dw (m_dropArea DropArea w)) w,
        [])) ∧
  (fits = false ->
     (addDockWidgetAsTab w dw).1 = w ∧
     ∃ msg, (addDockWidgetAsTab w dw).2 = [Warning msg]).
Proof.
  cbv zeta. unfold MainWindowBase.addDockWidget, MainWindowBase.addDockWidgetAsTab.
  destruct (affinitiesMatch _ _); cbn [negb andb];
    destruct (supportsCentralFrame DropArea MainWindowOption_HasCentralFrame w);
    repeat case_decide;
    rewrite ?bool_decide_eq_true_2, ?bool_decide_eq_false_2 by assumption;
    cbn; repeat split; try discriminate; try reflexivity; try contradiction;
    eauto.
Qed.

End MainWindowSettings.

(** ** The main window: minimized and overlayed panels *)

Section MainWindowSideBars.

Import MainWindowBase.

Variable DropArea : Type.
Variable DropArea_redock : DockWidget -> DropArea -> DropArea.
Variable DropArea_forceClose : DockWidget -> DropArea -> DropArea.

Local Abbreviation MainWindow := (MainWindow DropArea).
Local Abbreviation sideBar := (sideBar DropArea).
Local Abbreviation sideBars := (sideBars DropArea).
Local Abbreviation slot := (m_overlayedDockWidget DropArea).
Local Abbreviation sideBarForDockWidget := (sideBarForDockWidget DropArea).
Local Abbreviation clearSideBarOverlay := (clearSideBarOverlay DropArea).
Local Abbreviation overlayOnSideBar := (overlayOnSideBar DropArea).
Local Abbreviation toggleOverlayOnSideBar := (toggleOverlayOnSideBar DropArea).
Local Abbreviation restoreFromSideBar :=
  (restoreFromSideBar DropArea DropArea_redock).
Local Abbreviation moveToSideBar := (moveToSideBar DropArea DropArea_forceClose).
Local Abbreviation perform :=
  (perform DropArea DropArea_redock DropArea_forceClose).
Local Abbreviation performAll :=
  (performAll DropArea DropArea_redock DropArea_forceClose).

(** Some side bar among the four holds the panel. *)
Local Abbreviation held w d :=
  (∃ loc sb, loc <> SideBarLocation_None ∧ sideBar w loc = Some sb ∧ d ∈ sb).

Lemma findSideBar_Some (w : MainWindow) (dw : option DockWidget)
    (locs : list SideBarLocation) (loc : SideBarLocation) :
  findSideBar DropArea w dw locs = Some loc ->
  loc ∈ locs ∧ ∃ sb d, sideBar w loc = Some sb ∧ dw = Some d ∧ d ∈ sb.
Proof.
  induction locs as [|l locs IH]; cbn [findSideBar]; [discriminate|].
  destruct (MainWindowBase.sideBar DropArea w l) as [sb|] eqn:Hsb.
  - destruct (SideBar.containsDockWidget dw sb) eqn:Hc.
    + intros [= <-]. split; [left|]. destruct dw as [d|]; [|discriminate].
      cbn in Hc. apply bool_decide_eq_true in Hc. eauto.
    + intros H. destruct (IH H) as [Hin Hx]. split; [now right|exact Hx].
  - intros H. destruct (IH H) as [Hin Hx]. split; [now right|exact Hx].
Qed.

Lemma findSideBar_found (w : MainWindow) (d : DockWidget)
    (locs : list SideBarLocation) (loc : SideBarLocation) (sb : list DockWidget) :
  loc ∈ locs -> sideBar w loc = Some sb -> d ∈ sb ->
  findSideBar DropArea w (Some d) locs <> None.
Proof.
  induction locs as [|l locs IH]; intros Hin Hsb Hd;
    [now apply elem_of_nil in Hin|].
  cbn [findSideBar]. apply elem_of_cons in Hin as [<-|Hin].
  - rewrite Hsb. cbn. now rewrite bool_decide_eq_true_2.
  - destruct (MainWindowBase.sideBar DropArea w l) as [sb'|]; [|now apply IH].
    destruct (SideBar.containsDockWidget (Some d) sb'); [discriminate|now apply IH].
Qed.

Lemma findSideBar_sideBars (w w' : MainWindow) (dw : option DockWidget)
    (locs : list SideBarLocation) :
  sideBars w' = sideBars w ->
  findSideBar DropArea w' dw locs = findSideBar DropArea w dw locs.
Proof.
  intros Heq. induction locs as [|l locs IH]; [reflexivity|].
  cbn [findSideBar]. unfold MainWindowBase.sideBar. now rewrite Heq, IH.
Qed.

Lemma sideBarForDockWidget_held (w : MainWindow) (d : DockWidget) :
  sideBarForDockWidget w (Some d) <> None <-> held w d.
Proof.
  unfold MainWindowBase.sideBarForDockWidget. split.
  - destruct (findSideBar DropArea w (Some d) _) as [loc|] eqn:Hf; [|congruence].
    intros _. apply findSideBar_Some in Hf as (Hin & sb & d' & Hsb & [= <-] & Hd).
    exists loc, sb. split; [|split; assumption].
    now apply not_None_four.
  - intros (loc & sb & Hloc & Hsb & Hd).
    apply (findSideBar_found w d _ loc sb); try assumption.
    now apply not_None_four.
Qed.

Lemma clearSideBarOverlay_frame (w : MainWindow) :
  slot (clearSideBarOverlay w).1 = None ∧
  sideBars (clearSideBarOverlay w).1 = sideBars w ∧
  m_dropArea DropArea (clearSideBarOverlay w).1 = m_dropArea DropArea w ∧
  (clearSideBarOverlay w).2
  = match slot w with
    | Some d => [IsOverlayedChanged d false]
    | None => []
    end.
Proof.
  unfold MainWindowBase.clearSideBarOverlay.
  destruct (MainWindowBase.m_overlayedDockWidget DropArea w) eqn:Hs; cbn; auto.
Qed.

Ltac simpl_window :=
  cbn [fst snd MainWindowBase.m_overlayedDockWidget MainWindowBase.sideBars
       MainWindowBase.m_dropArea MainWindowBase.frameOf
       MainWindowBase.overlayFrames MainWindowBase.nextFrame
       MainWindowBase.set_frames MainWindowBase.set_overlayedDockWidget
       MainWindowBase.set_sideBars MainWindowBase.set_dropArea
       MainWindowBase.set_affinities] in *.

Lemma updateOverlayGeometry_found (w : MainWindow) (d : DockWidget)
    (loc : SideBarLocation) :
  slot w = Some d -> sideBarForDockWidget w (Some d) = Some loc ->
  updateOverlayGeometry DropArea w
  = [OverlayGeometrySet (frameOf DropArea w !! d) loc].
Proof. intros Hs Hf. unfold updateOverlayGeometry. now rewrite Hs, Hf. Qed.

(** What [overlayOnSideBar] does for a panel that some side bar holds and
    that is not the overlayed one yet. *)
Lemma overlayOnSideBar_sets (w : MainWindow) (d : DockWidget) :
  sideBarForDockWidget w (Some d) <> None -> slot w <> Some d ->
  slot (overlayOnSideBar w (Some d)).1 = Some d ∧
  sideBars (overlayOnSideBar w (Some d)).1 = sideBars w ∧
  m_dropArea DropArea (overlayOnSideBar w (Some d)).1 = m_dropArea DropArea w ∧
  ∃ loc frame,
    (overlayOnSideBar w (Some d)).2
    = (clearSideBarOverlay w).2
      ++ [OverlayGeometrySet (Some frame) loc; FrameShown frame;
          IsOverlayedChanged d true].
Proof.
  intros Hin Hslot. unfold MainWindowBase.overlayOnSideBar.
  destruct (MainWindowBase.sideBarForDockWidget DropArea w (Some d)) as [loc|] eqn:Hf;
    [|contradiction].
  rewrite decide_False by exact Hslot.
  destruct (clearSideBarOverlay_frame w) as (_ & Hbars & Hdrop & _).
  destruct (clearSideBarOverlay w) as [w1 ev1]. cbv beta iota zeta.
  simpl_window. repeat split; try assumption.
  exists loc, (nextFrame DropArea w1).
  erewrite (updateOverlayGeometry_found _ d loc); simpl_window;
    [now rewrite lookup_insert_eq|reflexivity|].
  unfold MainWindowBase.sideBarForDockWidget in *.
  rewrite (findSideBar_sideBars w) by (simpl_window; exact Hbars).
  exact Hf.
Qed.

Lemma overlayOnSideBar_slot (w : MainWindow) (d : DockWidget) :
  sideBarForDockWidget w (Some d) <> None ->
  slot (overlayOnSideBar w (Some d)).1 = Some d ∧
  sideBars (overlayOnSideBar w (Some d)).1 = sideBars w ∧
  m_dropArea DropArea (overlayOnSideBar w (Some d)).1 = m_dropArea DropArea w.
Proof.
  intros Hin. destruct (decide (slot w = Some d)) as [Hs|Hs].
  - unfold MainWindowBase.overlayOnSideBar.
    destruct (MainWindowBase.sideBarForDockWidget DropArea w (Some d));
      [|contradiction].
    rewrite decide_True by exact Hs. auto.
  - destruct (overlayOnSideBar_sets w d Hin Hs) as (? & ? & ? & _). auto.
Qed.

(** Once a side bar holds the panel, [overlayOnSideBar] makes it the
    overlayed panel, whatever was overlayed before, without touching the
    side bars or the layout; calling it again is then silent and changes
    nothing. *)
Theorem overlayOnSideBar_idempotent (w : MainWindow) (d : DockWidget) :
  sideBarForDockWidget w (Some d) <> None ->
  let w1 := (overlayOnSideBar w (Some d)).1 in
  slot w1 = Some d ∧
  sideBars w1 = sideBars w ∧
  m_dropArea DropArea w1 = m_dropArea DropArea w ∧
  overlayOnSideBar w1 (Some d) = (w1, []).
Proof.
  intros Hin w1.
  destruct (overlayOnSideBar_slot w d Hin) as (Hs1 & Hb1 & Hd1).
  fold w1 in Hs1, Hb1, Hd1. repeat split; try assumption.
  unfold MainWindowBase.overlayOnSideBar.
  assert (Hin1 : sideBarForDockWidget w1 (Some d) <> None).
  { unfold MainWindowBase.sideBarForDockWidget in *.
    now rewrite (findSideBar_sideBars w w1 (Some d) _ Hb1). }
  destruct (MainWindowBase.sideBarForDockWidget DropArea w1 (Some d));
    [|contradiction].
  now rewrite decide_True by exact Hs1.
Qed.

(** [toggleOverlayOnSideBar] leaves either nothing or the given panel
    overlayed, never another one.  For a panel that some side bar holds it
    flips the state: an overlayed panel is no longer overlayed, and any
    other panel becomes the overlayed one. *)
Theorem toggleOverlayOnSideBar_flips (w : MainWindow) (d : DockWidget) :
  let w1 := (toggleOverlayOnSideBar w (Some d)).1 in
  (slot w1 = None ∨ slot w1 = Some d) ∧
  sideBars w1 = sideBars w ∧
  (slot w = Some d -> slot w1 = None) ∧
  (sideBarForDockWidget w (Some d) <> None -> slot w <> Some d ->
   slot w1 = Some d).
Proof.
  intros w1. subst w1. unfold MainWindowBase.toggleOverlayOnSideBar.
  destruct (clearSideBarOverlay_frame w) as (Hnone & Hbars & _ & _).
  destruct (clearSideBarOverlay w) as [w0 ev0]. cbn [fst snd] in *.
  destruct (decide (slot w = Some d)) as [Hs|Hs].
  - rewrite bool_decide_eq_true_2 by exact Hs. cbn [negb fst].
    repeat split; auto. intros _ Hne. contradiction.
  - rewrite bool_decide_eq_false_2 by exact Hs. cbn [negb].
    destruct (decide (sideBarForDockWidget w0 (Some d) = None)) as [Hout|Hin].
    + assert (Hres : overlayOnSideBar w0 (Some d)
                     = (w0, [Warning "overlayOnSideBar: You need to add the dock widget to the sidebar before you can overlay it"])).
      { unfold MainWindowBase.overlayOnSideBar. now rewrite Hout. }
      rewrite Hres. cbn [fst]. repeat split; auto; try contradiction.
      intros Hin _. exfalso. apply Hin.
      unfold MainWindowBase.sideBarForDockWidget in *.
      now rewrite <- (findSideBar_sideBars w w0 (Some d) _ Hbars).
    + assert (Hs0 : slot w0 <> Some d) by (rewrite Hnone; discriminate).
      destruct (overlayOnSideBar_sets w0 d Hin Hs0) as (Hset & Hb & _ & _).
      destruct (overlayOnSideBar w0 (Some d)) as [w2 ev2]. cbn [fst] in *.
      repeat split; auto; try contradiction. congruence.
Qed.

Lemma restoreFromSideBar_cleared (w : MainWindow) (d : DockWidget) :
  ∃ w0 ev0,
    (if decide (Some d = slot w) then clearSideBarOverlay w else (w, []))
    = (w0, ev0) ∧
    slot w0 <> Some d ∧ sideBars w0 = sideBars w ∧
    m_dropArea DropArea w0 = m_dropArea DropArea w ∧
    (slot w0 = None ∨ w0 = w) ∧
    ev0 = (if decide (Some d = slot w) then [IsOverlayedChanged d false] else []).
Proof.
  case_decide as Hd.
  - destruct (clearSideBarOverlay_frame w) as (Hnone & Hbars & Hdrop & Hev).
    destruct (clearSideBarOverlay w) as [w0 ev0]. cbn [fst snd] in *.
    exists w0, ev0. rewrite Hnone, <- Hd in *. repeat split; auto.
  - exists w, []. repeat split; auto; congruence.
Qed.

Lemma restoreFromSideBar_found (w : MainWindow) (d : DockWidget)
    (loc : SideBarLocation) :
  sideBarForDockWidget w (Some d) = Some loc ->
  sideBars (restoreFromSideBar w d).1
  = alter (filter (fun x => x <> d)) loc (sideBars w) ∧
  m_dropArea DropArea (restoreFromSideBar w d).1
  = DropArea_redock d (m_dropArea DropArea w).
Proof.
  intros Hfound. unfold MainWindowBase.restoreFromSideBar.
  destruct (restoreFromSideBar_cleared w d)
    as (w0 & ev0 & -> & _ & Hb0 & Hd0 & _ & _).
  assert (Hf : sideBarForDockWidget w0 (Some d) = Some loc).
  { unfold MainWindowBase.sideBarForDockWidget in *.
    now rewrite (findSideBar_sideBars w w0 (Some d) _ Hb0). }
  rewrite Hf. simpl_window. unfold SideBar.removeDockWidget.
  now rewrite Hb0, Hd0.
Qed.

(** After [restoreFromSideBar] the panel is never the overlayed one.  When
    no side bar holds it, the side bars and the layout are as before and
    the call ends with its warning.  Otherwise the panel is taken out of the
    first side bar that holds it, in the order North, South, East, West:
    that side bar no longer contains it, the other panels keep their order,
    the other side bars are untouched, and the panel is docked again. *)
Theorem restoreFromSideBar_effect (w : MainWindow) (d : DockWidget) :
  let w1 := (restoreFromSideBar w d).1 in
  slot w1 <> Some d ∧
  (sideBarForDockWidget w (Some d) = None ->
     sideBars w1 = sideBars w ∧ m_dropArea DropArea w1 = m_dropArea DropArea w ∧
     ∃ ev, (restoreFromSideBar w d).2
           = ev ++ [Warning "restoreFromSideBar: Dock widget isn't in any sidebar"]) ∧
  (∀ loc, sideBarForDockWidget w (Some d) = Some loc ->
     sideBars w1 = alter (filter (fun x => x <> d)) loc (sideBars w) ∧
     (∀ sb, sideBars w1 !! loc = Some sb -> d ∉ sb) ∧
     m_dropArea DropArea w1 = DropArea_redock d (m_dropArea DropArea w)).
Proof.
  intros w1. subst w1. unfold MainWindowBase.restoreFromSideBar.
  destruct (restoreFromSideBar_cleared w d)
    as (w0 & ev0 & -> & Hs0 & Hb0 & Hd0 & _ & _).
  assert (Hf : sideBarForDockWidget w0 (Some d) = sideBarForDockWidget w (Some d)).
  { unfold MainWindowBase.sideBarForDockWidget.
    now apply findSideBar_sideBars. }
  rewrite Hf.
  destruct (sideBarForDockWidget w (Some d)) as [loc|]; simpl_window.
  - split; [exact Hs0|]. split; [discriminate|].
    intros loc' [= <-]. unfold SideBar.removeDockWidget. rewrite Hb0, Hd0.
    repeat split.
    intros sb Hsb. rewrite lookup_alter_eq in Hsb.
    destruct (sideBars w !! loc) as [sb0|]; [|discriminate].
    injection Hsb as <-. intros Hin.
    apply list_elem_of_filter in Hin as [Hne _]. now apply Hne.
  - split; [exact Hs0|]. split; [|discriminate].
    intros _. repeat split; try assumption. now exists ev0.
Qed.

Lemma overlayed_in_sideBar_held (w : MainWindow) :
  overlayed_in_sideBar DropArea w <-> ∀ d, slot w = Some d -> held w d.
Proof.
  unfold overlayed_in_sideBar. split; intros H d Hd.
  - apply sideBarForDockWidget_held. now apply H.
  - apply sideBarForDockWidget_held. now apply H.
Qed.

Local Abbreviation ExpectedASideBar :=
  (Warning "updateOverlayGeometry: Expected a sidebar").

Ltac no_expected :=
  cbn [fst snd]; rewrite ?elem_of_app, ?elem_of_cons, ?elem_of_nil;
  intuition (try discriminate).

Lemma clearSideBarOverlay_quiet (w : MainWindow) :
  ExpectedASideBar ∉ (clearSideBarOverlay w).2.
Proof.
  destruct (clearSideBarOverlay_frame w) as (_ & _ & _ & ->).
  destruct (slot w); no_expected.
Qed.

Lemma overlayOnSideBar_keeps (w : MainWindow) (dw : option DockWidget) :
  overlayed_in_sideBar DropArea w ->
  overlayed_in_sideBar DropArea (overlayOnSideBar w dw).1 ∧
  ExpectedASideBar ∉ (overlayOnSideBar w dw).2.
Proof.
  intros Hinv. destruct dw as [d|]; [|split; [exact Hinv|apply not_elem_of_nil]].
  destruct (decide (sideBarForDockWidget w (Some d) = None)) as [Hout|Hin].
  { unfold MainWindowBase.overlayOnSideBar. rewrite Hout.
    split; [exact Hinv|no_expected]. }
  destruct (decide (slot w = Some d)) as [Hs|Hs].
  { unfold MainWindowBase.overlayOnSideBar.
    destruct (MainWindowBase.sideBarForDockWidget DropArea w (Some d));
      [|contradiction].
    rewrite decide_True by exact Hs. split; [exact Hinv|apply not_elem_of_nil]. }
  destruct (overlayOnSideBar_sets w d Hin Hs) as (Hset & Hbars & _ & loc & f & Hev).
  split.
  - intros d' Hd'. rewrite Hset in Hd'. injection Hd' as <-.
    unfold MainWindowBase.sideBarForDockWidget in *.
    now rewrite (findSideBar_sideBars w _ (Some d) _ Hbars).
  - rewrite Hev. pose proof (clearSideBarOverlay_quiet w). no_expected.
Qed.

Lemma perform_keeps (w : MainWindow) (a : Action) :
  overlayed_in_sideBar DropArea w ->
  overlayed_in_sideBar DropArea (perform w a).1 ∧
  ExpectedASideBar ∉ (perform w a).2.
Proof.
  intros Hinv. destruct a as [dw|dw| |d|d loc|]; cbn [MainWindowBase.perform].
  - now apply overlayOnSideBar_keeps.
  - unfold MainWindowBase.toggleOverlayOnSideBar.
    pose proof (clearSideBarOverlay_quiet w) as Hq.
    destruct (clearSideBarOverlay_frame w) as (Hnone & _ & _ & _).
    destruct (clearSideBarOverlay w) as [w0 ev0]. cbn [fst snd] in *.
    assert (Hinv0 : overlayed_in_sideBar DropArea w0).
    { intros d' Hd'. rewrite Hnone in Hd'. discriminate. }
    destruct (negb _); [|split; assumption].
    destruct (overlayOnSideBar_keeps w0 dw Hinv0) as [Hk Hqq].
    destruct (overlayOnSideBar w0 dw) as [w2 ev2]. cbn [fst snd] in *.
    split; [exact Hk|]. no_expected.
  - split; [|apply clearSideBarOverlay_quiet].
    destruct (clearSideBarOverlay_frame w) as (Hnone & _).
    intros d' Hd'. rewrite Hnone in Hd'. discriminate.
  - unfold MainWindowBase.restoreFromSideBar.
    destruct (restoreFromSideBar_cleared w d)
      as (w0 & ev0 & -> & Hs0 & Hb0 & _ & Hcase & ->).
    assert (Hinv0 : overlayed_in_sideBar DropArea w0).
    { destruct Hcase as [Hnone| ->]; [|exact Hinv].
      intros d' Hd'. rewrite Hnone in Hd'. discriminate. }
    destruct (MainWindowBase.sideBarForDockWidget DropArea w0 (Some d)) as [loc|];
      simpl_window.
    + split; [|case_decide; no_expected].
      apply overlayed_in_sideBar_held. intros d' Hd'. simpl_window.
      destruct (proj1 (overlayed_in_sideBar_held w0) Hinv0 d' Hd')
        as (l & sb & Hl & Hsb & Hin).
      unfold MainWindowBase.sideBar in *. simpl_window.
      destruct (decide (loc = l)) as [->|Hne].
      * exists l, (filter (fun x => x <> d) sb). split; [exact Hl|].
        rewrite lookup_alter_eq, Hsb. split; [reflexivity|].
        apply list_elem_of_filter. split; [congruence|exact Hin].
      * exists l, sb. rewrite lookup_alter_ne by exact Hne. auto.
    + split; [exact Hinv0|case_decide; no_expected].
  - unfold MainWindowBase.moveToSideBar.
    destruct (MainWindowBase.sideBar DropArea w loc) as [sb0|] eqn:Hsb0;
      simpl_window; [|split; [exact Hinv|no_expected]].
    split; [|apply not_elem_of_nil].
    apply overlayed_in_sideBar_held. intros d' Hd'. simpl_window.
    destruct (proj1 (overlayed_in_sideBar_held w) Hinv d' Hd')
      as (l & sb & Hl & Hsb & Hin).
    unfold MainWindowBase.sideBar in *. simpl_window.
    destruct (decide (loc = l)) as [->|Hne].
    + exists l, (SideBar.addDockWidget d sb0). split; [exact Hl|].
      rewrite lookup_insert_eq. split; [reflexivity|].
      unfold SideBar.addDockWidget. apply elem_of_app. left. congruence.
    + exists l, sb. rewrite lookup_insert_ne by exact Hne. auto.
  - split; [exact Hinv|]. unfold onResized.
    destruct (slot w) as [d|] eqn:Hd; [|apply not_elem_of_nil].
    specialize (Hinv d Hd).
    destruct (sideBarForDockWidget w (Some d)) as [loc|] eqn:Hf; [|contradiction].
    rewrite (updateOverlayGeometry_found w d loc Hd Hf). no_expected.
Qed.

(** The overlayed panel always sits in a side bar: if this holds of a main
    window (it does when nothing is overlayed), it holds after every
    sequence of overlaying, toggling, clearing, restoring, minimizing and
    resizing, and along the way [updateOverlayGeometry] never prints
    "Expected a sidebar". *)
Theorem overlayed_panel_stays_in_sideBar (w : MainWindow)
    (actions : list Action) :
  overlayed_in_sideBar DropArea w ->
  overlayed_in_sideBar DropArea (performAll w actions).1 ∧
  Warning "updateOverlayGeometry: Expected a sidebar" ∉ (performAll w actions).2.
Proof.
  revert w. induction actions as [|a actions IH]; intros w Hinv.
  - split; [exact Hinv|apply not_elem_of_nil].
  - cbn [MainWindowBase.performAll].
    destruct (perform_keeps w a Hinv) as [Hk Hq].
    destruct (perform w a) as [w1 ev1]. cbn [fst snd] in *.
    destruct (IH w1 Hk) as [Hk2 Hq2].
    destruct (performAll w1 actions) as [w2 ev2]. cbn [fst snd] in *.
    split; [exact Hk2|]. no_expected.
Qed.

Local Abbreviation overlays w :=
  (match slot w with Some _ => 1%nat | None => 0%nat end).

Lemma overlayedChanges_app (b : bool) (l1 l2 : list Event) :
  overlayedChanges b (l1 ++ l2)
  = (overlayedChanges b l1 + overlayedChanges b l2)%nat.
Proof. unfold overlayedChanges. now rewrite filter_app, length_app. Qed.

Ltac count_events :=
  cbn [fst snd];
  rewrite ?overlayedChanges_app;
  repeat match goal with
         | |- context [overlayedChanges ?b (?e :: ?l)] =>
             let v := eval vm_compute in (overlayedChanges b (e :: l)) in
             change (overlayedChanges b (e :: l)) with v
         | |- context [overlayedChanges ?b []] =>
             change (overlayedChanges b []) with 0%nat
         end.

Lemma clearSideBarOverlay_balanced (w : MainWindow) :
  overlayedChanges true (clearSideBarOverlay w).2 = 0%nat ∧
  overlayedChanges false (clearSideBarOverlay w).2 = overlays w.
Proof.
  destruct (clearSideBarOverlay_frame w) as (_ & _ & _ & ->).
  destruct (slot w); split; reflexivity.
Qed.

Lemma overlayOnSideBar_balanced (w : MainWindow) (dw : option DockWidget) :
  (overlayedChanges true (overlayOnSideBar w dw).2 + overlays w
   = overlayedChanges false (overlayOnSideBar w dw).2
     + overlays (overlayOnSideBar w dw).1)%nat.
Proof.
  destruct dw as [d|];
    [|unfold MainWindowBase.overlayOnSideBar; count_events; lia].
  destruct (decide (sideBarForDockWidget w (Some d) = None)) as [Hout|Hin].
  { unfold MainWindowBase.overlayOnSideBar. rewrite Hout. count_events. lia. }
  destruct (decide (slot w = Some d)) as [Hs|Hs].
  { unfold MainWindowBase.overlayOnSideBar.
    destruct (MainWindowBase.sideBarForDockWidget DropArea w (Some d));
      [|contradiction].
    rewrite decide_True by exact Hs. count_events. lia. }
  destruct (overlayOnSideBar_sets w d Hin Hs) as (Hset & _ & _ & loc & f & Hev).
  destruct (clearSideBarOverlay_balanced w) as [Ht Hf].
  rewrite Hev, Hset. count_events. rewrite Ht, Hf.
  destruct (slot w); lia.
Qed.

Lemma perform_balanced (w : MainWindow) (a : Action) :
  (overlayedChanges true (perform w a).2 + overlays w
   = overlayedChanges false (perform w a).2 + overlays (perform w a).1)%nat.
Proof.
  destruct a as [dw|dw| |d|d loc|]; cbn [MainWindowBase.perform].
  - apply overlayOnSideBar_balanced.
  - unfold MainWindowBase.toggleOverlayOnSideBar.
    destruct (clearSideBarOverlay_balanced w) as [Ht Hf].
    destruct (clearSideBarOverlay_frame w) as (Hnone & _).
    destruct (clearSideBarOverlay w) as [w0 ev0]. cbn [fst snd] in *.
    destruct (negb _).
    + pose proof (overlayOnSideBar_balanced w0 dw) as Hb.
      destruct (overlayOnSideBar w0 dw) as [w2 ev2]. cbn [fst snd] in *.
      rewrite Hnone in Hb. rewrite !overlayedChanges_app. lia.
    + cbn [fst snd]. rewrite Hnone. lia.
  - destruct (clearSideBarOverlay_balanced w) as [Ht Hf].
    destruct (clearSideBarOverlay_frame w) as (Hnone & _).
    rewrite Hnone. lia.
  - unfold MainWindowBase.restoreFromSideBar.
    assert (Hc : ∃ w0 ev0,
              (if decide (Some d = slot w) then clearSideBarOverlay w else (w, []))
              = (w0, ev0) ∧
              (overlayedChanges true ev0 + overlays w
               = overlayedChanges false ev0 + overlays w0)%nat).
    { case_decide.
      - destruct (clearSideBarOverlay_balanced w) as [Ht Hf].
        destruct (clearSideBarOverlay_frame w) as (Hnone & _).
        destruct (clearSideBarOverlay w) as [w0 ev0]. cbn [fst snd] in *.
        exists w0, ev0. rewrite Hnone. split; [reflexivity|lia].
      - exists w, []. split; [reflexivity|count_events; lia]. }
    destruct Hc as (w0 & ev0 & -> & Hb).
    destruct (MainWindowBase.sideBarForDockWidget DropArea w0 (Some d));
      simpl_window; [exact Hb|].
    count_events. lia.
  - unfold MainWindowBase.moveToSideBar.
    destruct (MainWindowBase.sideBar DropArea w loc); simpl_window;
      count_events; lia.
  - cbn [fst snd]. unfold onResized, updateOverlayGeometry.
    destruct (slot w); [|count_events; lia].
    destruct (MainWindowBase.sideBarForDockWidget DropArea w _);
      count_events; lia.
Qed.

Lemma performAll_balanced (w : MainWindow) (actions : list Action) :
  (overlayedChanges true (performAll w actions).2 + overlays w
   = overlayedChanges false (performAll w actions).2
     + overlays (performAll w actions).1)%nat.
Proof.
  revert w. induction actions as [|a actions IH]; intros w;
    [cbn [MainWindowBase.performAll]; count_events; lia|].
  cbn [MainWindowBase.performAll].
  pose proof (perform_balanced w a) as H1.
  destruct (perform w a) as [w1 ev1]. cbn [fst snd] in *.
  specialize (IH w1).
  destruct (performAll w1 actions) as [w2 ev2]. cbn [fst snd] in *.
  rewrite !overlayedChanges_app. lia.
Qed.

(** Whether the panel is the overlayed one, as a number. *)
Local Abbreviation overlaysOf w d :=
  (if decide (slot w = Some d) then 1%nat else 0%nat).

Lemma overlayedChangesOf_nil (d : DockWidget) (b : bool) :
  overlayedChangesOf d b [] = 0%nat.
Proof. reflexivity. Qed.

Lemma overlayedChangesOf_cons (d : DockWidget) (b : bool) (e : Event)
    (l : list Event) :
  overlayedChangesOf d b (e :: l)
  = ((if isOverlayedChangeOf d b e then 1 else 0) + overlayedChangesOf d b l)%nat.
Proof.
  unfold overlayedChangesOf. rewrite filter_cons.
  destruct (isOverlayedChangeOf d b e); case_decide; try congruence;
    reflexivity.
Qed.

Lemma overlayedChangesOf_app (d : DockWidget) (b : bool) (l1 l2 : list Event) :
  overlayedChangesOf d b (l1 ++ l2)
  = (overlayedChangesOf d b l1 + overlayedChangesOf d b l2)%nat.
Proof. unfold overlayedChangesOf. now rewrite filter_app, length_app. Qed.

Ltac count_for :=
  cbn [fst snd];
  rewrite ?overlayedChangesOf_app, ?overlayedChangesOf_cons,
    ?overlayedChangesOf_nil;
  cbn [isOverlayedChangeOf];
  repeat case_bool_decide; repeat case_decide; cbn [andb];
  try congruence; try lia.

Lemma clearSideBarOverlay_balancedFor (d : DockWidget) (w : MainWindow) :
  (overlayedChangesOf d true (clearSideBarOverlay w).2 + overlaysOf w d
   = overlayedChangesOf d false (clearSideBarOverlay w).2
     + overlaysOf (clearSideBarOverlay w).1 d)%nat.
Proof.
  destruct (clearSideBarOverlay_frame w) as (Hnone & _ & _ & Hev).
  rewrite Hev, Hnone. destruct (slot w) as [d0|]; count_for.
Qed.

Lemma overlayOnSideBar_balancedFor (d : DockWidget) (w : MainWindow)
    (dw : option DockWidget) :
  (overlayedChangesOf d true (overlayOnSideBar w dw).2 + overlaysOf w d
   = overlayedChangesOf d false (overlayOnSideBar w dw).2
     + overlaysOf (overlayOnSideBar w dw).1 d)%nat.
Proof.
  destruct dw as [d0|];
    [|unfold MainWindowBase.overlayOnSideBar; count_for].
  destruct (decide (sideBarForDockWidget w (Some d0) = None)) as [Hout|Hin].
  { unfold MainWindowBase.overlayOnSideBar. rewrite Hout. count_for. }
  destruct (decide (slot w = Some d0)) as [Hs|Hs].
  { unfold MainWindowBase.overlayOnSideBar.
    destruct (MainWindowBase.sideBarForDockWidget DropArea w (Some d0));
      [|contradiction].
    rewrite decide_True by exact Hs. count_for. }
  destruct (overlayOnSideBar_sets w d0 Hin Hs) as (Hset & _ & _ & loc & f & Hev).
  pose proof (clearSideBarOverlay_balancedFor d w) as Hc.
  destruct (clearSideBarOverlay_frame w) as (Hnone & _).
  rewrite Hnone in Hc. rewrite Hev, Hset.
  rewrite overlayedChangesOf_app, !overlayedChangesOf_app in *.
  rewrite !overlayedChangesOf_cons, !overlayedChangesOf_nil.
  cbn [isOverlayedChangeOf].
  revert Hc. repeat case_bool_decide; repeat case_decide; cbn [andb];
    intros; try congruence; lia.
Qed.

Lemma perform_balancedFor (d : DockWidget) (w : MainWindow) (a : Action) :
  (overlayedChangesOf d true (perform w a).2 + overlaysOf w d
   = overlayedChangesOf d false (perform w a).2
     + overlaysOf (perform w a).1 d)%nat.
Proof.
  destruct a as [dw|dw| |d0|d0 loc|]; cbn [MainWindowBase.perform].
  - apply overlayOnSideBar_balancedFor.
  - unfold MainWindowBase.toggleOverlayOnSideBar.
    pose proof (clearSideBarOverlay_balancedFor d w) as Hc.
    destruct (clearSideBarOverlay w) as [w0 ev0]. cbn [fst snd] in *.
    destruct (negb _).
    + pose proof (overlayOnSideBar_balancedFor d w0 dw) as Hb.
      destruct (overlayOnSideBar w0 dw) as [w2 ev2]. cbn [fst snd] in *.
      rewrite !overlayedChangesOf_app. lia.
    + cbn [fst snd]. exact Hc.
  - apply clearSideBarOverlay_balancedFor.
  - unfold MainWindowBase.restoreFromSideBar.
    assert (Hc : ∃ w0 ev0,
              (if decide (Some d0 = slot w) then clearSideBarOverlay w else (w, []))
              = (w0, ev0) ∧
              (overlayedChangesOf d true ev0 + overlaysOf w d
               = overlayedChangesOf d false ev0 + overlaysOf w0 d)%nat).
    { case_decide.
      - pose proof (clearSideBarOverlay_balancedFor d w) as Hc.
        destruct (clearSideBarOverlay w) as [w0 ev0]. cbn [fst snd] in *.
        exists w0, ev0. split; [reflexivity|exact Hc].
      - exists w, []. split; [reflexivity|].
        rewrite !overlayedChangesOf_nil. lia. }
    destruct Hc as (w0 & ev0 & -> & Hb).
    destruct (MainWindowBase.sideBarForDockWidget DropArea w0 (Some d0));
      simpl_window; [exact Hb|].
    rewrite !overlayedChangesOf_app, !overlayedChangesOf_cons,
      !overlayedChangesOf_nil.
    cbn [isOverlayedChangeOf]. lia.
  - unfold MainWindowBase.moveToSideBar.
    destruct (MainWindowBase.sideBar DropArea w loc); simpl_window;
      rewrite ?overlayedChangesOf_cons, ?overlayedChangesOf_nil;
      cbn [isOverlayedChangeOf]; lia.
  - cbn [fst snd]. unfold onResized, updateOverlayGeometry.
    destruct (slot w) as [d0|]; [|rewrite !overlayedChangesOf_nil; lia].
    destruct (MainWindowBase.sideBarForDockWidget DropArea w _);
      rewrite !overlayedChangesOf_cons, !overlayedChangesOf_nil;
      cbn [isOverlayedChangeOf]; lia.
Qed.

(** The [isOverlayedChanged] notifications keep count of the overlay, panel
    by panel: over every sequence of calls and for every panel, the
    notifications with [true] sent to that panel, plus one if it was the
    overlayed panel at the start, equal the notifications with [false] sent
    to it, plus one if it is the overlayed panel at the end.  Hence a panel
    that is overlayed neither at the start nor at the end has been told
    [false] as often as [true]; and the same count holds of all
    notifications taken together. *)
Theorem isOverlayedChanged_balanced (w : MainWindow) (actions : list Action) :
  (∀ d : DockWidget,
     (overlayedChangesOf d true (performAll w actions).2 + overlaysOf w d
      = overlayedChangesOf d false (performAll w actions).2
        + overlaysOf (performAll w actions).1 d)%nat) ∧
  (∀ d : DockWidget,
     slot w <> Some d -> slot (performAll w actions).1 <> Some d ->
     overlayedChangesOf d true (performAll w actions).2
     = overlayedChangesOf d false (performAll w actions).2) ∧
  (overlayedChanges true (performAll w actions).2 + overlays w
   = overlayedChanges false (performAll w actions).2
     + overlays (performAll w actions).1)%nat.
Proof.
  assert (Hfor : ∀ d : DockWidget,
            (overlayedChangesOf d true (performAll w actions).2 + overlaysOf w d
             = overlayedChangesOf d false (performAll w actions).2
               + overlaysOf (performAll w actions).1 d)%nat).
  { intros d. revert w. induction actions as [|a actions IH]; intros w;
      [cbn [MainWindowBase.performAll fst snd];
       rewrite !overlayedChangesOf_nil; lia|].
    cbn [MainWindowBase.performAll].
    pose proof (perform_balancedFor d w a) as H1.
    destruct (perform w a) as [w1 ev1]. cbn [fst snd] in *.
    specialize (IH w1).
    destruct (performAll w1 actions) as [w2 ev2]. cbn [fst snd] in *.
    rewrite !overlayedChangesOf_app. lia. }
  split; [exact Hfor|]. split; [|apply performAll_balanced].
  intros d Hstart Hend. specialize (Hfor d).
  rewrite decide_False in Hfor by exact Hstart.
  rewrite decide_False in Hfor by exact Hend. lia.
Qed.

Lemma findSideBar_only (w : MainWindow) (d : DockWidget)
    (locs : list SideBarLocation) (loc : SideBarLocation) :
  loc ∈ locs ->
  (∃ sb, sideBar w loc = Some sb ∧ d ∈ sb) ->
  (∀ l sb, l ∈ locs -> l <> loc -> sideBar w l = Some sb -> d ∉ sb) ->
  findSideBar DropArea w (Some d) locs = Some loc.
Proof.
  intros Hin (sb & Hsb & Hd) Hothers.
  destruct (findSideBar DropArea w (Some d) locs) as [l|] eqn:Hf.
  - apply findSideBar_Some in Hf as (Hl & sb' & d' & Hsb' & [= <-] & Hd').
    destruct (decide (l = loc)) as [->|Hne]; [reflexivity|].
    now destruct (Hothers l sb' Hl Hne Hsb').
  - now destruct (findSideBar_found w d locs loc sb Hin Hsb Hd).
Qed.

(** Minimizing a panel to an existing side bar appends it there and leaves
    the other side bars alone; the side bar is then visible, the panel is
    found by [sideBarForDockWidget], and [overlayOnSideBar] overlays it.
    Where the location has no side bar, [moveToSideBar] only warns. *)
Theorem moveToSideBar_appends (w : MainWindow) (d : DockWidget)
    (loc : SideBarLocation) :
  let w1 := (moveToSideBar w d loc).1 in
  (sideBar w loc = None ->
     w1 = w ∧ ∃ msg, (moveToSideBar w d loc).2 = [Warning msg]) ∧
  (∀ sb, sideBar w loc = Some sb ->
     sideBars w1 = <[loc := sb ++ [d]]> (sideBars w) ∧
     slot w1 = slot w ∧
     (moveToSideBar w d loc).2 = [] ∧
     sideBarIsVisible DropArea w1 loc = true ∧
     (loc <> SideBarLocation_None ->
        sideBarForDockWidget w1 (Some d) <> None ∧
        slot (overlayOnSideBar w1 (Some d)).1 = Some d)).
Proof.
  intros w1. subst w1. unfold MainWindowBase.moveToSideBar.
  destruct (MainWindowBase.sideBar DropArea w loc) as [sb0|] eqn:Hsb0.
  - split; [discriminate|]. intros sb [= <-]. simpl_window.
    unfold SideBar.addDockWidget.
    set (w1 := set_sideBars DropArea (<[loc:=sb0 ++ [d]]> (sideBars w))
                 (set_dropArea DropArea
                    (DropArea_forceClose d (m_dropArea DropArea w)) w)).
    assert (Hl : sideBar w1 loc = Some (sb0 ++ [d])).
    { unfold MainWindowBase.sideBar. subst w1. simpl_window.
      apply lookup_insert_eq. }
    repeat split.
    + unfold sideBarIsVisible. rewrite Hl.
      rewrite bool_decide_eq_false_2; [reflexivity|]. now destruct sb0.
    + apply sideBarForDockWidget_held. exists loc, (sb0 ++ [d]).
      repeat split; try assumption. apply elem_of_app. right. now left.
    + apply overlayOnSideBar_slot.
      apply sideBarForDockWidget_held. exists loc, (sb0 ++ [d]).
      repeat split; try assumption. apply elem_of_app. right. now left.
  - split; [|discriminate]. intros _. split; [reflexivity|]. eauto.
Qed.

Lemma removeDockWidget_absent (d : DockWidget) (sb : list DockWidget) :
  d ∉ sb -> filter (fun x => x <> d) sb = sb.
Proof.
  induction sb as [|x sb IH]; intros Hout; [reflexivity|].
  apply not_elem_of_cons in Hout as [Hne Hout].
  rewrite filter_cons_True by congruence. now rewrite IH.
Qed.

(** Minimizing a panel that sits in no side bar and restoring it at once
    gives back the side bars there were: the panel is found in the side bar
    it was appended to and taken out of it, nothing else moves. *)
Theorem moveToSideBar_restoreFromSideBar (w : MainWindow) (d : DockWidget)
    (loc : SideBarLocation) (sb : list DockWidget) :
  loc <> SideBarLocation_None -> sideBar w loc = Some sb ->
  in_no_sideBar DropArea w d ->
  let w1 := (moveToSideBar w d loc).1 in
  sideBarForDockWidget w1 (Some d) = Some loc ∧
  sideBars (restoreFromSideBar w1 d).1 = sideBars w.
Proof.
  intros Hloc Hsb Hout w1.
  assert (Hbars : sideBars w1 = <[loc := sb ++ [d]]> (sideBars w)).
  { subst w1. unfold MainWindowBase.moveToSideBar. rewrite Hsb. reflexivity. }
  assert (Hf : sideBarForDockWidget w1 (Some d) = Some loc).
  { apply findSideBar_only.
    - now apply not_None_four.
    - exists (sb ++ [d]). unfold MainWindowBase.sideBar. rewrite Hbars.
      split; [apply lookup_insert_eq|]. apply elem_of_app. right. now left.
    - intros l sb' Hl Hne Hsb'. unfold MainWindowBase.sideBar in Hsb'.
      rewrite Hbars, lookup_insert_ne in Hsb' by congruence.
      apply (Hout l sb'); [now apply not_None_four|exact Hsb']. }
  split; [exact Hf|].
  destruct (restoreFromSideBar_found w1 d loc Hf) as [-> _].
  rewrite Hbars. apply map_eq. intros l.
  destruct (decide (loc = l)) as [<-|Hne].
  - rewrite lookup_alter_eq, lookup_insert_eq. cbn.
    unfold MainWindowBase.sideBar in Hsb. rewrite Hsb. f_equal.
    rewrite filter_app. cbn.
    rewrite decide_False by (intros Hne; now apply Hne). rewrite app_nil_r.
    apply removeDockWidget_absent. now apply (Hout loc sb Hloc).
  - now rewrite lookup_alter_ne, lookup_insert_ne.
Qed.

Lemma anyVisibleAmong_iff (w : MainWindow) (locs : list SideBarLocation) :
  anyVisibleAmong DropArea w locs = true <->
  ∃ loc, loc ∈ locs ∧ sideBarIsVisible DropArea w loc = true.
Proof.
  induction locs as [|l locs IH]; cbn [anyVisibleAmong].
  - split; [discriminate|]. intros (loc & Hin & _). now apply elem_of_nil in Hin.
  - destruct (sideBarIsVisible DropArea w l) eqn:Hv.
    + split; [|reflexivity]. intros _. exists l. split; [left|exact Hv].
    + rewrite IH. split.
      * intros (loc & Hin & Hvis). exists loc. split; [now right|exact Hvis].
      * intros (loc & Hin & Hvis). apply elem_of_cons in Hin as [->|Hin];
          [congruence|]. eauto.
Qed.

(** Some side bar is visible exactly when one of the four holds a panel.
    The side bar in which [sideBarForDockWidget] finds a panel is visible,
    and after [clearSideBars] none is, and no panel is found. *)
Theorem anySideBarIsVisible_iff (w : MainWindow) :
  (anySideBarIsVisible DropArea w = true <->
   ∃ loc sb d, loc <> SideBarLocation_None ∧ sideBar w loc = Some sb ∧ d ∈ sb) ∧
  (∀ d loc, sideBarForDockWidget w (Some d) = Some loc ->
            sideBarIsVisible DropArea w loc = true ∧
            anySideBarIsVisible DropArea w = true) ∧
  anySideBarIsVisible DropArea (clearSideBars DropArea w) = false ∧
  (∀ d, sideBarForDockWidget (clearSideBars DropArea w) (Some d) = None).
Proof.
  assert (Hvis : ∀ w' loc, sideBarIsVisible DropArea w' loc = true <->
                           ∃ sb d, sideBar w' loc = Some sb ∧ d ∈ sb).
  { intros w' loc. unfold sideBarIsVisible.
    destruct (MainWindowBase.sideBar DropArea w' loc) as [sb|].
    - rewrite negb_true_iff, bool_decide_eq_false. split.
      + intros Hne. destruct sb as [|d sb]; [contradiction|].
        exists (d :: sb), d. split; [reflexivity|left].
      + intros (sb' & d & [= <-] & Hd) ->. now apply elem_of_nil in Hd.
    - split; [discriminate|]. intros (sb & d & Hsb & _). discriminate. }
  assert (Hany : ∀ w', anySideBarIsVisible DropArea w' = true <->
            ∃ loc sb d, loc <> SideBarLocation_None ∧ sideBar w' loc = Some sb ∧ d ∈ sb).
  { intros w'. unfold anySideBarIsVisible. rewrite anyVisibleAmong_iff. split.
    - intros (loc & Hin & Hv). apply Hvis in Hv as (sb & d & Hsb & Hd).
      exists loc, sb, d. split; [now apply not_None_four|auto].
    - intros (loc & sb & d & Hloc & Hsb & Hd). exists loc.
      split; [now apply not_None_four|]. apply Hvis. eauto. }
  assert (Hcleared : ∀ loc sb d, loc <> SideBarLocation_None ->
            sideBar (clearSideBars DropArea w) loc = Some sb -> d ∉ sb).
  { intros loc sb d Hloc Hsb. unfold MainWindowBase.sideBar, clearSideBars in Hsb.
    simpl_window.
    destruct (clearSideBarsAt_lookup
                [SideBarLocation_North; SideBarLocation_South;
                 SideBarLocation_East; SideBarLocation_West]
                (sideBars w) loc) as [Hin _].
    rewrite Hin in Hsb by (now apply not_None_four).
    destruct (sideBars w !! loc); [|discriminate].
    injection Hsb as <-. apply not_elem_of_nil. }
  split; [apply Hany|]. split; [|split].
  - intros d loc Hf. unfold MainWindowBase.sideBarForDockWidget in Hf.
    apply findSideBar_Some in Hf as (Hin & sb & d' & Hsb & [= <-] & Hd).
    split; [apply Hvis; eauto|]. apply Hany. exists loc, sb, d.
    split; [now apply not_None_four|auto].
  - apply not_true_iff_false. intros Ht. apply Hany in Ht
      as (loc & sb & d & Hloc & Hsb & Hd). now apply (Hcleared loc sb d).
  - intros d. apply sideBarForDockWidget_None. exact (fun loc sb => Hcleared loc sb d).
Qed.

End MainWindowSideBars.

(** ** The main window: snapshots *)

Section MainWindowSnapshots.

Import MainWindowBase.

Variable DropArea : Type.
Variable MultiSplitterLayout : Type.
Variable DropArea_serialize : DropArea -> MultiSplitterLayout.
Variable DropArea_deserialize : DropArea -> MultiSplitterLayout -> DropArea * bool.
Variable uniqueName : DockWidget -> string.
Variable dockByName : string -> option DockWidget.

Local Abbreviation MainWindow := (MainWindow DropArea).
Local Abbreviation Snapshot := (Snapshot MultiSplitterLayout).
Local Abbreviation deserialize :=
  (deserialize DropArea MultiSplitterLayout DropArea_deserialize dockByName).
Local Abbreviation serialize :=
  (serialize DropArea MultiSplitterLayout DropArea_serialize uniqueName).

Lemma deserialize_untouched (w : MainWindow) (mw : Snapshot) :
  let w' := (deserialize w mw).1.2 in
  name DropArea w' = name DropArea w ∧
  m_options DropArea w' = m_options DropArea w ∧
  geometry DropArea w' = geometry DropArea w ∧
  m_overlayedDockWidget DropArea w' = m_overlayedDockWidget DropArea w ∧
  frameOf DropArea w' = frameOf DropArea w ∧
  overlayFrames DropArea w' = overlayFrames DropArea w.
Proof.
  unfold MainWindowBase.deserialize. cbv zeta.
  case_decide; [repeat split|].
  case_decide;
    destruct (DropArea_deserialize _ _) as [dropArea success];
    destruct (restoreSideBars _ _ _ _) as [s ev2]; repeat split.
Qed.

(** Restoring the same snapshot a second time changes neither the side bars
    nor the affinities, and the second pass prints no affinity warning.  In
    no case does [deserialize] touch the name, the options, the geometry or
    the overlay: the overlayed panel and its frame stay as they are while
    the side bars are emptied and refilled. *)
Theorem deserialize_twice (w : MainWindow) (mw : Snapshot) :
  let w1 := (deserialize w mw).1.2 in
  let r2 := deserialize w1 mw in
  (name DropArea w1 = name DropArea w ∧
   m_options DropArea w1 = m_options DropArea w ∧
   geometry DropArea w1 = geometry DropArea w ∧
   m_overlayedDockWidget DropArea w1 = m_overlayedDockWidget DropArea w ∧
   frameOf DropArea w1 = frameOf DropArea w ∧
   overlayFrames DropArea w1 = overlayFrames DropArea w) ∧
  (sv_options MultiSplitterLayout mw = m_options DropArea w ->
   sideBars DropArea r2.1.2 = sideBars DropArea w1 ∧
   affinities DropArea r2.1.2 = affinities DropArea w1 ∧
   affinities DropArea w1 = sv_affinities MultiSplitterLayout mw ∧
   Warning "deserialize: Affinty name changed" ∉ r2.2).
Proof.
  intros w1 r2.
  pose proof (deserialize_untouched w mw) as Hu. cbv zeta in Hu. fold w1 in Hu.
  split; [exact Hu|]. intros Hopt.
  destruct Hu as (_ & Hopt1 & _).
  pose proof (deserialize_matching DropArea MultiSplitterLayout
                DropArea_deserialize dockByName w mw Hopt) as H1.
  cbv zeta in H1. fold w1 in H1.
  destruct H1 as (_ & _ & Haff1 & _ & _ & Hlook1 & Hnone1 & _).
  assert (Hopt' : sv_options MultiSplitterLayout mw = m_options DropArea w1)
    by congruence.
  pose proof (deserialize_matching DropArea MultiSplitterLayout
                DropArea_deserialize dockByName w1 mw Hopt') as H2.
  cbv zeta in H2. fold r2 in H2.
  destruct H2 as (_ & _ & Haff2 & _ & _ & Hlook2 & Hnone2 & Hev2).
  repeat split.
  - apply map_eq. intros loc.
    destruct (decide (loc = SideBarLocation_None)) as [->|Hloc]; [exact Hnone2|].
    rewrite (Hlook2 loc Hloc), (Hlook1 loc Hloc).
    now destruct (sideBars DropArea w !! loc).
  - congruence.
  - exact Haff1.
  - rewrite Hev2. rewrite decide_False by (intros Hne; now apply Hne).
    cbn [app]. clear.
    generalize (clearSideBarsAt
                  [SideBarLocation_North; SideBarLocation_South;
                   SideBarLocation_East; SideBarLocation_West]
                  (sideBars DropArea w1)).
    generalize [SideBarLocation_North; SideBarLocation_East;
                SideBarLocation_West; SideBarLocation_South].
    intros locs. induction locs as [|l locs IH]; intros s; cbn.
    + apply not_elem_of_nil.
    + destruct (s !! l) as [sb|]; [|apply IH].
      assert (Hd : ∀ names sb0,
                Warning "deserialize: Affinty name changed"
                ∉ (restoreDockWidgets dockByName names sb0).2).
      { clear. intros names. induction names as [|n names IHn]; intros sb0; cbn.
        - apply not_elem_of_nil.
        - destruct (dockByName n); [apply IHn|].
          specialize (IHn sb0).
          destruct (restoreDockWidgets dockByName names sb0) as [sb1 ev].
          cbn in *. apply not_elem_of_cons. split; [|exact IHn].
          intros [= Heq]. }
      specialize (Hd (default [] (sv_dockWidgetsPerSideBar MultiSplitterLayout mw !! l)) sb).
      destruct (restoreDockWidgets dockByName _ sb) as [sb' ev1].
      specialize (IH (<[l := sb']> s)).
      destruct (restoreSideBars dockByName _ locs _) as [s' ev2'].
      cbn in *. apply not_elem_of_app. split; assumption.
Qed.

(** A snapshot has a side-bar entry only for one of the four locations and
    only for a side bar that exists and holds a panel; the entry lists the
    unique names of its panels in their order.  An empty side bar and a
    missing one leave no entry. *)
Theorem serialize_sideBar_entries (w : MainWindow) (loc : SideBarLocation) :
  let per := sv_dockWidgetsPerSideBar MultiSplitterLayout (serialize w) in
  (∀ names, per !! loc = Some names ->
     loc <> SideBarLocation_None ∧ names <> [] ∧
     ∃ sb, sideBar DropArea w loc = Some sb ∧ names = uniqueName <$> sb) ∧
  (sideBar DropArea w loc = None ∨ sideBar DropArea w loc = Some [] ->
   per !! loc = None).
Proof.
  cbv zeta. unfold MainWindowBase.serialize. cbn [sv_dockWidgetsPerSideBar].
  destruct (serializeSideBars_lookup DropArea uniqueName w
              [SideBarLocation_North; SideBarLocation_East;
               SideBarLocation_West; SideBarLocation_South] ∅ loc) as [Hin Hout].
  destruct (decide (loc = SideBarLocation_None)) as [->|Hloc].
  - rewrite Hout by (intros H; now apply not_None_four' in H).
    rewrite lookup_empty. split; [discriminate|reflexivity].
  - rewrite Hin by (now apply not_None_four'). clear Hin Hout.
    rewrite lookup_empty.
    destruct (sideBar DropArea w loc) as [sb|]; [|split; [discriminate|reflexivity]].
    unfold SideBar.serialize. case_decide as Hne.
    + split.
      * intros names [= Hn]. subst names. repeat split; eauto.
      * intros [H|[= Hsb]]; [discriminate|]. subst sb. now destruct Hne.
    + split; [discriminate|reflexivity].
Qed.

End MainWindowSnapshots.

(** ** Choosing a side bar *)

Section PreferredSideBarFacts.

Import Placement.

Variable DockWidgetBase : Type.
Variable itemForFrameOf : DockWidgetBase -> option Item.
Variable width height : DockWidgetBase -> Z.

Local Abbreviation preferredSideBar :=
  (preferredSideBar DockWidgetBase itemForFrameOf width height).

Ltac decide_location :=
  repeat (case_decide; try discriminate; try congruence);
  repeat match goal with
         | |- context [if ?b then _ else _] => destruct b
         end;
  cbn; split; first [discriminate | reflexivity | assumption].

Lemma preferredSideBar_item (dw : DockWidgetBase) (item : Item) :
  itemForFrameOf dw = Some item ->
  (preferredSideBar dw).1 <> SideBarLocation_None ∧ (preferredSideBar dw).2 = [].
Proof.
  intros Hitem. unfold Placement.preferredSideBar. rewrite Hitem. cbv zeta.
  generalize (aspectRatio_gt_1 (width dw) (height dw)). intros wide.
  generalize (adjacentLayoutBorders item). intros borders.
  cbn [missingBorder]. unfold opposedSideBarLocationForBorder, ret.
  decide_location.
Qed.

(** A panel that has an item in the layout always gets one of the four side
    bars, whatever its [adjacentLayoutBorders] value is, and nothing is
    printed: the unknown-border warning of
    [opposedSideBarLocationForBorder] cannot be reached from
    [preferredSideBar]. *)
Theorem preferredSideBar_always_a_side (dw : DockWidgetBase) (item : Item) :
  itemForFrameOf dw = Some item ->
  (preferredSideBar dw).1 ∈ [SideBarLocation_North; SideBarLocation_East;
                             SideBarLocation_West; SideBarLocation_South] ∧
  (preferredSideBar dw).2 = [].
Proof.
  intros Hitem. destruct (preferredSideBar_item dw item Hitem) as [Hloc Hw].
  split; [|exact Hw].
  destruct (preferredSideBar dw).1; [now destruct Hloc|..];
    repeat (first [left; reflexivity | right]).
Qed.

(** Of the two border helpers, [sideBarLocationForBorder] maps a single
    border to the side bar on that border and
    [opposedSideBarLocationForBorder] to the one facing it; the two never
    agree on a border, and everything that is not a single border gives
    [SideBarLocation_None], with a warning from the opposed helper only. *)
Theorem border_helpers_opposed (loc : Z) :
  (loc ∈ [LayoutBorderLocation_North; LayoutBorderLocation_East;
          LayoutBorderLocation_West; LayoutBorderLocation_South] ->
   sideBarLocationForBorder loc <> SideBarLocation_None ∧
   (opposedSideBarLocationForBorder loc).1 <> SideBarLocation_None ∧
   (opposedSideBarLocationForBorder loc).1 <> sideBarLocationForBorder loc ∧
   (opposedSideBarLocationForBorder loc).2 = []) ∧
  (loc ∉ [LayoutBorderLocation_North; LayoutBorderLocation_East;
          LayoutBorderLocation_West; LayoutBorderLocation_South] ->
   sideBarLocationForBorder loc = SideBarLocation_None ∧
   opposedSideBarLocationForBorder loc
   = (SideBarLocation_None, ["opposedSideBarLocationForBorder: Unknown loc"])).
Proof.
  split.
  - intros Hin. repeat (apply elem_of_cons in Hin as [->|Hin]);
      [| | | |now apply elem_of_nil in Hin]; vm_compute;
      repeat split; discriminate.
  - intros Hout.
    assert (loc <> LayoutBorderLocation_North ∧ loc <> LayoutBorderLocation_East ∧
            loc <> LayoutBorderLocation_West ∧ loc <> LayoutBorderLocation_South)
      as (Hn & He & Hw & Hs).
    { repeat split; intros ->; apply Hout;
        repeat (first [left; reflexivity | right]). }
    unfold sideBarLocationForBorder, opposedSideBarLocationForBorder.
    repeat (case_decide; [contradiction|]). split; reflexivity.
Qed.

End PreferredSideBarFacts.

Section MoveToPreferredSideBar.

Import MainWindowBase.

Variable DropArea : Type.
Variable DropArea_forceClose : DockWidget -> DropArea -> DropArea.
Variable itemForFrameOf : DropArea -> DockWidget -> option Placement.Item.
Variable dw_width dw_height : DockWidget -> Z.

Local Abbreviation MainWindow := (MainWindow DropArea).
Local Abbreviation moveToSideBar := (moveToSideBar DropArea DropArea_forceClose).
Local Abbreviation moveToPreferredSideBar :=
  (moveToPreferredSideBar DropArea DropArea_forceClose itemForFrameOf
     dw_width dw_height).
Local Abbreviation preferred w dw :=
  (Placement.preferredSideBar DockWidget (itemForFrameOf (m_dropArea DropArea w))
     dw_width dw_height dw).

(** [moveToSideBar(dw)] without a location: a panel with an item in the
    layout goes to the end of its preferred side bar, silently, when the
    window has that side bar; a panel without an item leaves the window as
    it is and two warnings are printed, the one of [preferredSideBar] before
    the one of [moveToSideBar], as long as there is no side bar for
    [SideBarLocation_None]. *)
Theorem moveToPreferredSideBar_effect (w : MainWindow) (dw : DockWidget) :
  (∀ item sb,
     itemForFrameOf (m_dropArea DropArea w) dw = Some item ->
     sideBar DropArea w (preferred w dw).1 = Some sb ->
     let r := moveToPreferredSideBar w dw in
     r.2 = [] ∧
     sideBar DropArea r.1 (preferred w dw).1 = Some (sb ++ [dw]) ∧
     (∀ loc, loc <> (preferred w dw).1 ->
             sideBar DropArea r.1 loc = sideBar DropArea w loc) ∧
     m_dropArea DropArea r.1 = DropArea_forceClose dw (m_dropArea DropArea w) ∧
     m_overlayedDockWidget DropArea r.1 = m_overlayedDockWidget DropArea w) ∧
  (itemForFrameOf (m_dropArea DropArea w) dw = None ->
   sideBar DropArea w SideBarLocation_None = None ->
   moveToPreferredSideBar w dw
   = (w, [Warning "preferredSideBar: No item for dock widget";
          Warning "moveToSideBar: Minimization supported, probably disabled in Config::self().flags()"])).
Proof.
  split.
  - intros item sb Hitem Hsb.
    destruct (preferredSideBar_item DockWidget
                (itemForFrameOf (m_dropArea DropArea w)) dw_width dw_height
                dw item Hitem) as [_ Hquiet].
    unfold MainWindowBase.moveToPreferredSideBar.
    destruct (Placement.preferredSideBar _ _ _ _ dw) as [location warnings].
    cbn [fst snd] in *. subst warnings.
    unfold MainWindowBase.moveToSideBar. rewrite Hsb. cbn.
    unfold sideBar. cbn. repeat split.
    + now rewrite lookup_insert_eq.
    + intros loc Hloc. now rewrite lookup_insert_ne.
  - intros Hitem Hnone.
    unfold MainWindowBase.moveToPreferredSideBar, Placement.preferredSideBar.
    rewrite Hitem. cbn.
    unfold MainWindowBase.moveToSideBar. now rewrite Hnone.
Qed.

End MoveToPreferredSideBar.

(** ** The rectangle of the overlay *)

Section RectForOverlayFacts.

Import MainWindowBase.

Variable sideBarWidget : SideBarLocation -> option SideBarGeometry.
Variable centralAreaGeo : QRect.
Variable centerWidgetMargins : QMargins.

Local Abbreviation rectForOverlay :=
  (rectForOverlay sideBarWidget centralAreaGeo centerWidgetMargins).
Local Abbreviation visibleWidth := (visibleWidth sideBarWidget).
Local Abbreviation visibleHeight := (visibleHeight sideBarWidget).

(** The overlay of a North or South side bar is as high as the frame's
    minimum height and never lower than 300; it spans the central area
    between the visible West and East side bars with a margin of one pixel
    on both ends.  Under a North side bar its top is the side bar's height
    and the top margin below the central area's origin; over a South side
    bar its last row is the side bar's height and the bottom margin, and one
    more pixel, above the central area's last row.  The moves keep the
    size set before them. *)
Theorem rectForOverlay_horizontal (frameMinSize : QSize)
    (location : SideBarLocation) (sb : SideBarGeometry) :
  location = SideBarLocation_North ∨ location = SideBarLocation_South ->
  sideBarWidget location = Some sb ->
  let r := rectForOverlay frameMinSize location in
  Rect.height r = qMax 300 (ht frameMinSize) ∧
  300 <= Rect.height r ∧ ht frameMinSize <= Rect.height r ∧
  Rect.width r = Rect.width centralAreaGeo - 2
                 - visibleWidth SideBarLocation_West
                 - visibleWidth SideBarLocation_East ∧
  Rect.left r = 1 + visibleWidth SideBarLocation_West ∧
  (location = SideBarLocation_North ->
   Rect.top r = RectMove.y centralAreaGeo + sb_height sb
                + m_top centerWidgetMargins) ∧
  (location = SideBarLocation_South ->
   Rect.bottom r = Rect.bottom centralAreaGeo - m_bottom centerWidgetMargins
                   - sb_height sb - 1).
Proof.
  intros Hloc Hsb r. subst r. unfold MainWindowBase.rectForOverlay.
  rewrite Hsb. unfold qMax.
  destruct Hloc as [-> | ->]; cbn [decide];
    (case_decide; [try discriminate|try congruence]);
    unfold Rect.height, Rect.width, Rect.left, Rect.top, Rect.bottom,
      RectMove.moveTop, RectMove.moveLeft, RectMove.setWidth,
      RectMove.setHeight, RectMove.null, RectMove.x, RectMove.y;
    cbn [x1 y1 x2 y2]; case_decide;
    repeat split; intros; try discriminate; lia.
Qed.

(** The overlay of a West or East side bar is as wide as the frame's minimum
    width and never narrower than 300; its height is what the central area
    leaves after the visible North and South side bars and the two vertical
    margins, and it starts one pixel above the side bar's own top shifted by
    the North side bar.  Beside a West side bar its left edge follows the
    side bar, the left margin and one pixel; beside an East side bar its
    right edge stops short of the central width by the side bar, the right
    margin and two pixels. *)
Theorem rectForOverlay_vertical (frameMinSize : QSize)
    (location : SideBarLocation) (sb : SideBarGeometry) :
  location = SideBarLocation_West ∨ location = SideBarLocation_East ->
  sideBarWidget location = Some sb ->
  let r := rectForOverlay frameMinSize location in
  Rect.width r = qMax 300 (wd frameMinSize) ∧
  300 <= Rect.width r ∧ wd frameMinSize <= Rect.width r ∧
  Rect.height r = Rect.height centralAreaGeo
                  - visibleHeight SideBarLocation_North
                  - visibleHeight SideBarLocation_South
                  - m_top centerWidgetMargins - m_bottom centerWidgetMargins ∧
  Rect.top r = sb_mapTo_y sb + visibleHeight SideBarLocation_North - 1 ∧
  (location = SideBarLocation_West ->
   Rect.left r = 1 + RectMove.x centralAreaGeo + m_left centerWidgetMargins
                 + sb_width sb) ∧
  (location = SideBarLocation_East ->
   Rect.right r = Rect.width centralAreaGeo - sb_width sb
                  - m_right centerWidgetMargins - 2).
Proof.
  intros Hloc Hsb r. subst r. unfold MainWindowBase.rectForOverlay.
  rewrite Hsb. unfold qMax.
  destruct Hloc as [-> | ->]; cbn [decide];
    (case_decide; [try discriminate|try congruence]);
    unfold Rect.height, Rect.width, Rect.left, Rect.top, Rect.right,
      RectMove.moveTop, RectMove.moveLeft, RectMove.setWidth,
      RectMove.setHeight, RectMove.null, RectMove.x, RectMove.y;
    cbn [x1 y1 x2 y2]; case_decide;
    repeat split; intros; try discriminate; lia.
Qed.

(** Without a side bar at the location, and for [SideBarLocation_None] in
    any case, the overlay rectangle is the null rectangle, of width and
    height 0. *)
Theorem rectForOverlay_null (frameMinSize : QSize) (location : SideBarLocation) :
  sideBarWidget location = None ∨ location = SideBarLocation_None ->
  rectForOverlay frameMinSize location = RectMove.null ∧
  Rect.width (rectForOverlay frameMinSize location) = 0 ∧
  Rect.height (rectForOverlay frameMinSize location) = 0.
Proof.
  intros H.
  assert (Hnull : rectForOverlay frameMinSize location = RectMove.null).
  { unfold MainWindowBase.rectForOverlay.
    destruct H as [-> | ->]; [reflexivity|].
    now destruct (sideBarWidget SideBarLocation_None). }
  rewrite Hnull. repeat split.
Qed.

End RectForOverlayFacts.

(** ** The buttons of a side bar *)

Section SideBarWidgetFacts.

Import SideBarWidget.

Lemma addDockWidget_Impl_before_stretch (dw : nat) (items : list LayoutItem)
    (last : LayoutItem) :
  addDockWidget_Impl dw (items ++ [last]) = items ++ [Button dw; last].
Proof.
  unfold addDockWidget_Impl, insertWidget. cbv zeta.
  rewrite length_app. cbn [length].
  rewrite decide_False by lia.
  replace (Z.to_nat (Z.of_nat (length items + 1) - 1)) with (length items) by lia.
  rewrite take_app_length, drop_app_length. reflexivity.
Qed.

Lemma addDockWidget_Impl_foldl (dws done : list nat) :
  foldl (fun layout dw => addDockWidget_Impl dw layout)
        ((Button <$> done) ++ [Stretch]) dws
  = (Button <$> (done ++ dws)) ++ [Stretch].
Proof.
  revert done. induction dws as [|dw dws IH]; intros done; cbn [foldl].
  - now rewrite app_nil_r.
  - rewrite addDockWidget_Impl_before_stretch.
    change (Button dw :: [Stretch]) with ([Button dw] ++ [Stretch]).
    rewrite app_assoc.
    change [Button dw] with (Button <$> [dw]).
    rewrite <- fmap_app. rewrite IH.
    rewrite <- !app_assoc. reflexivity.
Qed.

(** The layout of a side bar after any sequence of [addDockWidget_Impl]
    calls on the constructed one: the buttons of the panels in the order
    they were added, then the stretch. *)
Theorem addDockWidget_Impl_keeps_stretch_last (dws : list nat) :
  foldl (fun layout dw => addDockWidget_Impl dw layout) constructed dws
  = (Button <$> dws) ++ [Stretch].
Proof.
  exact (addDockWidget_Impl_foldl dws []).
Qed.

(** The size hint of a button of a vertical side bar is the one of the same
    button in a horizontal side bar with width and height exchanged: the two
    extra pixels always go across the side bar. *)
Theorem sizeHint_transposed (hint : QSize) :
  sizeHint true hint = transposed (sizeHint false hint) ∧
  wd (sizeHint true hint) = ht hint + 2 ∧ ht (sizeHint true hint) = wd hint ∧
  wd (sizeHint false hint) = wd hint ∧ ht (sizeHint false hint) = ht hint + 2.
Proof.
  unfold sizeHint, transposed, QSize_plus. cbn.
  repeat split; lia.
Qed.

End SideBarWidgetFacts.

(** ** The cursor shown over the edges *)

Section CursorShapes.

Import WidgetResizeHandler.

Variable mapFromGlobal : Widget -> QPoint -> QPoint.
Variable KDDOCKWIDGETS_QTWIDGETS : bool.

Local Abbreviation cursorPosition := (cursorPosition mapFromGlobal).
Local Abbreviation updateCursor := (updateCursor KDDOCKWIDGETS_QTWIDGETS).

Ltac pick_shape :=
  first [ exists SizeFDiagCursor; split; [vm_compute; reflexivity|discriminate]
        | exists SizeBDiagCursor; split; [vm_compute; reflexivity|discriminate]
        | exists SizeVerCursor; split; [vm_compute; reflexivity|discriminate]
        | exists SizeHorCursor; split; [vm_compute; reflexivity|discriminate] ].

Lemma cursorPosition_values (target : option Widget) (globalPos : QPoint) :
  cursorPosition target globalPos
  ∈ [CursorPosition_Undefined; CursorPosition_Left; CursorPosition_Right;
     CursorPosition_Top; CursorPosition_Bottom; CursorPosition_TopLeft;
     CursorPosition_TopRight; CursorPosition_BottomLeft;
     CursorPosition_BottomRight].
Proof.
  unfold WidgetResizeHandler.cursorPosition.
  destruct target as [mTarget|]; [|left].
  cbv zeta. repeat case_decide; vm_compute;
    repeat (first [left; reflexivity | right]).
Qed.

(** Every position that [cursorPosition] computes is one of the nine that
    the switch of [updateCursor] handles, so the default branch is never
    taken for it: after the optional reset of the child cursors exactly one
    cursor is set, a resize shape on an edge or corner and the restored
    cursor elsewhere. *)
Theorem updateCursor_handles_cursorPosition (h : Handler)
    (target : option Widget) (globalPos : QPoint) :
  let m := cursorPosition target globalPos in
  let reset := if KDDOCKWIDGETS_QTWIDGETS then [ResetChildCursors] else [] in
  (m = CursorPosition_Undefined ->
   updateCursor h m = reset ++ restoreMouseCursor h) ∧
  (m <> CursorPosition_Undefined ->
   ∃ shape, updateCursor h m = reset ++ setMouseCursor h shape ∧
            shape <> ArrowCursor).
Proof.
  intros m reset. subst reset.
  pose proof (cursorPosition_values target globalPos) as Hm. fold m in Hm.
  clearbody m.
  repeat (apply elem_of_cons in Hm as [->|Hm]);
    [..|now apply elem_of_nil in Hm];
    (split; [intros Hu; try discriminate Hu; reflexivity
            |intros Hu; try (now destruct Hu); pick_shape]).
Qed.

End CursorShapes.

(** ** Instances

    The properties above at the sample states. *)

Lemma eventFilter_idle_until_press_witness :
  WidgetResizeHandler.eventFilters (fun _ p => p) true (handler_100 false 0)
    [(the_target, drag_to 50 50); (the_target, release_at 50 50)]
  = handler_100 false 0.
Proof.
  exact (eventFilter_idle_until_press (fun _ p => p) true (handler_100 false 0)
           [(the_target, drag_to 50 50); (the_target, release_at 50 50)]
           eq_refl
           ltac:(repeat constructor; discriminate)).
Defined.

Lemma eventFilter_press_witness :
  let r := WidgetResizeHandler.eventFilter (fun _ p => p) true
             (handler_100 false 0) the_target (press_at 2 2) in
  WidgetResizeHandler.mCursorPos r.1.2 = WidgetResizeHandler.CursorPosition_TopLeft ∧
  WidgetResizeHandler.mNewPosition r.1.2 = mkQPoint 2 2 ∧
  WidgetResizeHandler.mResizeWidget r.1.2 = true.
Proof.
  pose proof (eventFilter_press (fun _ p => p) true (handler_100 false 0)
                the_target (press_at 2 2) eq_refl) as H.
  cbv zeta in H. destruct H as (_ & _ & _ & H).
  destruct (H ltac:(vm_compute; reflexivity)) as (_ & _ & _ & Hc & Hp & Hr).
  cbv zeta. rewrite Hc, Hp, Hr. repeat split; vm_compute; reflexivity.
Defined.

Lemma eventFilter_release_ends_session_witness :
  let r := WidgetResizeHandler.eventFilter (fun _ p => p) true
             (handler_100 true 5) the_target (release_at 2 2) in
  WidgetResizeHandler.mResizeWidget r.1.2 = false ∧
  WidgetResizeHandler.eventFilters (fun _ p => p) true r.1.2
    [(the_target, drag_to 30 30)] = r.1.2.
Proof.
  pose proof (eventFilter_release_ends_session (fun _ p => p) true
                (handler_100 true 5) the_target (release_at 2 2)
                [(the_target, drag_to 30 30)] eq_refl
                ltac:(vm_compute; reflexivity)
                ltac:(repeat constructor; discriminate)) as H.
  cbv zeta in H. destruct H as (Hr & _ & _ & Hes).
  cbv zeta. split; [exact Hr | exact Hes].
Defined.

Lemma eventFilter_move_witness :
  let r := WidgetResizeHandler.eventFilter (fun _ p => p) true
             (handler_100 true 2) the_target (drag_to 149 50) in
  r.1.1 = true ∧
  WidgetResizeHandler.geometry (WidgetResizeHandler.mTarget r.1.2)
  = mkQRect 0 0 149 99.
Proof.
  pose proof (eventFilter_move (fun _ p => p) true (handler_100 true 2)
                the_target (drag_to 149 50)
                ltac:(split; [reflexivity|split; [reflexivity|split;
                         [right; split; reflexivity|reflexivity]]])
                eq_refl) as H.
  cbv zeta in H. destruct H as (_ & _ & _ & H).
  destruct (H ltac:(vm_compute; reflexivity)) as (Hc & _ & Ht).
  cbv zeta. rewrite Ht. split; [exact Hc | vm_compute; reflexivity].
Defined.

Lemma mouseMoveEvent_edge_follows_pointer_witness :
  Rect.right
    (WidgetResizeHandler.geometry
       (WidgetResizeHandler.mTarget
          (WidgetResizeHandler.mouseMoveEvent (fun _ p => p) true
             (handler_100 true 2) (move_to 149 50)).1.2))
  = 149.
Proof.
  pose proof (mouseMoveEvent_edge_follows_pointer (fun _ p => p) true
                (handler_100 true 2) (move_to 149 50) eq_refl) as H.
  cbv zeta in H. destruct H as (_ & H & _).
  apply H.
  - right; left; reflexivity.
  - vm_compute. split; discriminate.
Defined.

Lemma mouseMoveEvent_same_position_idempotent_witness :
  let h1 := (WidgetResizeHandler.mouseMoveEvent (fun _ p => p) true
               (handler_100 true 2) (move_to 149 50)).1.2 in
  WidgetResizeHandler.mouseMoveEvent (fun _ p => p) true h1 (move_to 149 50)
  = (true, h1, []).
Proof.
  exact (mouseMoveEvent_same_position_idempotent (fun _ p => p) true
           (handler_100 true 2) (move_to 149 50) eq_refl).
Defined.

Lemma ncHitTest_sound_witness :
  WidgetResizeHandler.ncHitTest native_window target_100 104 250
  = WidgetResizeHandler.HTLEFT ∧ 100 <= 104 <= 108.
Proof.
  pose proof (ncHitTest_sound native_window target_100 104 250) as H.
  cbv zeta in H. destruct H as (H & _).
  split; [vm_compute; reflexivity|].
  exact (H (or_introl eq_refl)).
Defined.

Lemma ncHitTest_fixed_size_witness :
  WidgetResizeHandler.ncHitTest native_window fixed_width_widget 104 250
  <> WidgetResizeHandler.HTLEFT ∧
  WidgetResizeHandler.ncHitTest native_window fixed_width_widget 104 104
  = WidgetResizeHandler.ncHitTest native_window target_100 104 104.
Proof.
  split.
  - pose proof (ncHitTest_fixed_size native_window fixed_width_widget 104 250) as H.
    cbv zeta in H. destruct H as (H & _). exact (proj1 (H eq_refl)).
  - pose proof (ncHitTest_fixed_size native_window target_100 104 104) as H.
    cbv zeta in H. destruct H as (_ & _ & H).
    exact (H fixed_width_widget (or_introl eq_refl)).
Defined.

Lemma setAffinities_once_witness :
  MainWindowBase.affinities unit
    (MainWindowBase.setAffinitiesAll unit window_0 [["editor"]; []; ["tools"]])
  = ["ide"].
Proof.
  destruct (setAffinities_once unit window_0 []) as (H & _).
  exact (H ltac:(discriminate) [["editor"]; []; ["tools"]]).
Defined.

Lemma setUniqueName_once_witness :
  MainWindowBase.name unit
    (MainWindowBase.setUniqueNames unit window_0 ["other"; "third"])
  = "main".
Proof.
  destruct (setUniqueName_once unit window_0 "other") as (H & _).
  exact (H ltac:(discriminate) ["other"; "third"]).
Defined.

Lemma NotDockable_never_docked_witness :
  (MainWindowBase.addDockWidget unit unit unit (fun _ _ _ _ d => d)
     (fun _ => 1) 1 window_0 3%nat tt None tt).1 = window_0 ∧
  (MainWindowBase.addDockWidgetAsTab unit (fun _ d => d) (fun _ _ => true)
     (fun _ => []) (fun _ => 1) 1 1 window_0 3%nat).1 = window_0.
Proof.
  pose proof (NotDockable_never_docked unit unit unit (fun _ _ _ _ d => d)
                (fun _ d => d) (fun _ _ => true) (fun _ => []) (fun _ => 1)
                1 1 window_0 3%nat tt None tt) as H.
  cbv zeta in H. destruct H as (H & _).
  destruct (H eq_refl) as (Ha & Hb & _).
  split; [exact Ha | exact Hb].
Defined.

Lemma overlayOnSideBar_idempotent_witness :
  let w1 := (MainWindowBase.overlayOnSideBar unit window_0 (Some 1%nat)).1 in
  MainWindowBase.m_overlayedDockWidget unit w1 = Some 1%nat ∧
  MainWindowBase.overlayOnSideBar unit w1 (Some 1%nat) = (w1, []).
Proof.
  pose proof (overlayOnSideBar_idempotent unit window_0 1%nat
                ltac:(vm_compute; discriminate)) as H.
  cbv zeta in H. destruct H as (Hs & _ & _ & Hi).
  cbv zeta. split; [exact Hs | exact Hi].
Defined.

Lemma toggleOverlayOnSideBar_flips_witness :
  MainWindowBase.m_overlayedDockWidget unit
    (MainWindowBase.toggleOverlayOnSideBar unit window_0 (Some 1%nat)).1
  = Some 1%nat.
Proof.
  pose proof (toggleOverlayOnSideBar_flips unit window_0 1%nat) as H.
  cbv zeta in H. destruct H as (_ & _ & _ & H).
  exact (H ltac:(vm_compute; discriminate) ltac:(vm_compute; discriminate)).
Defined.

Lemma restoreFromSideBar_effect_witness :
  let w1 := (MainWindowBase.restoreFromSideBar unit (fun _ d => d) window_0
               1%nat).1 in
  MainWindowBase.sideBars unit w1
  = alter (filter (fun x => x <> 1%nat)) SideBarLocation_North
      (MainWindowBase.sideBars unit window_0) ∧
  (∀ sb, MainWindowBase.sideBars unit w1 !! SideBarLocation_North = Some sb ->
         1%nat ∉ sb).
Proof.
  pose proof (restoreFromSideBar_effect unit (fun _ d => d) window_0 1%nat) as H.
  cbv zeta in H. destruct H as (_ & _ & H).
  destruct (H SideBarLocation_North ltac:(vm_compute; reflexivity))
    as (Hs & Hn & _).
  cbv zeta. split; [exact Hs | exact Hn].
Defined.

Lemma window_0_overlayed_in_sideBar :
  MainWindowBase.overlayed_in_sideBar unit window_0.
Proof. intros dw Hdw. discriminate Hdw. Qed.

Lemma overlayed_panel_stays_in_sideBar_witness :
  let r := MainWindowBase.performAll unit (fun _ d => d) (fun _ d => d) window_0
             [MainWindowBase.DoOverlayOnSideBar (Some 1%nat);
              MainWindowBase.DoResize;
              MainWindowBase.DoRestoreFromSideBar 1%nat;
              MainWindowBase.DoResize] in
  MainWindowBase.overlayed_in_sideBar unit r.1 ∧
  MainWindowBase.Warning "updateOverlayGeometry: Expected a sidebar" ∉ r.2.
Proof.
  exact (overlayed_panel_stays_in_sideBar unit (fun _ d => d) (fun _ d => d)
           window_0
           [MainWindowBase.DoOverlayOnSideBar (Some 1%nat);
            MainWindowBase.DoResize;
            MainWindowBase.DoRestoreFromSideBar 1%nat;
            MainWindowBase.DoResize]
           window_0_overlayed_in_sideBar).
Defined.

Lemma moveToSideBar_appends_witness :
  let w1 := (MainWindowBase.moveToSideBar unit (fun _ d => d) window_0 3%nat
               SideBarLocation_North).1 in
  MainWindowBase.sideBars unit w1
  = <[SideBarLocation_North := [1%nat; 2%nat; 3%nat]]>
      (MainWindowBase.sideBars unit window_0) ∧
  MainWindowBase.m_overlayedDockWidget unit
    (MainWindowBase.overlayOnSideBar unit w1 (Some 3%nat)).1 = Some 3%nat.
Proof.
  pose proof (moveToSideBar_appends unit (fun _ d => d) window_0 3%nat
                SideBarLocation_North) as H.
  cbv zeta in H. destruct H as (_ & H).
  destruct (H [1%nat; 2%nat] ltac:(vm_compute; reflexivity))
    as (Hs & _ & _ & _ & Ho).
  destruct (Ho ltac:(discriminate)) as (_ & Hslot).
  cbv zeta. split; [exact Hs | exact Hslot].
Defined.

Lemma moveToSideBar_restoreFromSideBar_witness :
  let w1 := (MainWindowBase.moveToSideBar unit (fun _ d => d) window_0 3%nat
               SideBarLocation_North).1 in
  MainWindowBase.sideBarForDockWidget unit w1 (Some 3%nat)
  = Some SideBarLocation_North ∧
  MainWindowBase.sideBars unit
    (MainWindowBase.restoreFromSideBar unit (fun _ d => d) w1 3%nat).1
  = MainWindowBase.sideBars unit window_0.
Proof.
  exact (moveToSideBar_restoreFromSideBar unit (fun _ d => d) (fun _ d => d)
           window_0 3%nat SideBarLocation_North [1%nat; 2%nat]
           ltac:(discriminate) ltac:(vm_compute; reflexivity)
           window_0_without_3).
Defined.

Lemma anySideBarIsVisible_iff_witness :
  MainWindowBase.sideBarIsVisible unit window_0 SideBarLocation_North = true ∧
  MainWindowBase.anySideBarIsVisible unit window_0 = true.
Proof.
  destruct (anySideBarIsVisible_iff unit window_0) as (_ & H & _).
  exact (H 2%nat SideBarLocation_North ltac:(vm_compute; reflexivity)).
Defined.

Lemma deserialize_twice_witness :
  let mw := MainWindowBase.serialize unit unit (fun x => x) panel_names
              window_0 in
  let w1 := (MainWindowBase.deserialize unit unit (fun _ l => (l, true))
               registry window_0 mw).1.2 in
  let r2 := MainWindowBase.deserialize unit unit (fun _ l => (l, true))
              registry w1 mw in
  MainWindowBase.sideBars unit r2.1.2 = MainWindowBase.sideBars unit w1 ∧
  MainWindowBase.affinities unit r2.1.2 = ["ide"].
Proof.
  pose proof (deserialize_twice unit unit (fun _ l => (l, true)) registry
                window_0
                (MainWindowBase.serialize unit unit (fun x => x) panel_names
                   window_0)) as H.
  cbv zeta in H. destruct H as (_ & H).
  destruct (H eq_refl) as (Hs & Ha & Hb & _).
  cbv zeta. split; [exact Hs | exact (eq_trans Ha Hb)].
Defined.

Lemma serialize_sideBar_entries_witness :
  let per := MainWindowBase.sv_dockWidgetsPerSideBar unit
               (MainWindowBase.serialize unit unit (fun x => x) panel_names
                  window_0) in
  per !! SideBarLocation_South = None ∧
  (∀ names, per !! SideBarLocation_North = Some names -> names <> []).
Proof.
  cbv zeta. split.
  - pose proof (serialize_sideBar_entries unit unit (fun x => x) panel_names
                  window_0 SideBarLocation_South) as H.
    cbv zeta in H. destruct H as (_ & H).
    assert (Hs : MainWindowBase.sideBar unit window_0 SideBarLocation_South
                 = Some []) by (vm_compute; reflexivity).
    exact (H (or_intror Hs)).
  - pose proof (serialize_sideBar_entries unit unit (fun x => x) panel_names
                  window_0 SideBarLocation_North) as H.
    cbv zeta in H. destruct H as (H & _).
    intros names Hn. exact (proj1 (proj2 (H names Hn))).
Defined.

Lemma preferredSideBar_always_a_side_witness :
  (Placement.preferredSideBar nat (fun _ => Some (Placement.mkItem 16))
     (fun _ => 200) (fun _ => 100) 1%nat).2 = [] ∧
  (Placement.preferredSideBar nat (fun _ => Some (Placement.mkItem 16))
     (fun _ => 200) (fun _ => 100) 1%nat).1
  ∈ [SideBarLocation_North; SideBarLocation_East; SideBarLocation_West;
     SideBarLocation_South].
Proof.
  destruct (preferredSideBar_always_a_side nat
              (fun _ => Some (Placement.mkItem 16)) (fun _ => 200)
              (fun _ => 100) 1%nat (Placement.mkItem 16) eq_refl) as (Hl & Hw).
  split; [exact Hw | exact Hl].
Defined.

Lemma border_helpers_opposed_witness :
  Placement.sideBarLocationForBorder 3 = SideBarLocation_None ∧
  Placement.opposedSideBarLocationForBorder 3
  = (SideBarLocation_None, ["opposedSideBarLocationForBorder: Unknown loc"]) ∧
  (Placement.opposedSideBarLocationForBorder LayoutBorderLocation_East).1
  <> Placement.sideBarLocationForBorder LayoutBorderLocation_East.
Proof.
  destruct (border_helpers_opposed 3) as (_ & H).
  destruct (H ltac:(intros Hin;
                    repeat (apply elem_of_cons in Hin as [Hin|Hin];
                            [cbv in Hin; discriminate Hin|]);
                    now apply elem_of_nil in Hin))
    as (Ha & Hb).
  destruct (border_helpers_opposed LayoutBorderLocation_East) as (H' & _).
  destruct (H' ltac:(right; left)) as (_ & _ & Hc & _).
  split; [exact Ha|]. split; [exact Hb | exact Hc].
Defined.

Lemma moveToPreferredSideBar_effect_witness :
  MainWindowBase.moveToPreferredSideBar unit (fun _ d => d) (fun _ _ => None)
    (fun _ => 200) (fun _ => 100) window_0 3%nat
  = (window_0,
     [MainWindowBase.Warning "preferredSideBar: No item for dock widget";
      MainWindowBase.Warning "moveToSideBar: Minimization supported, probably disabled in Config::self().flags()"]) ∧
  MainWindowBase.sideBar unit
    (MainWindowBase.moveToPreferredSideBar unit (fun _ d => d)
       (fun _ _ => Some (Placement.mkItem 1)) (fun _ => 200) (fun _ => 100)
       window_0 3%nat).1 SideBarLocation_North
  = Some [1%nat; 2%nat; 3%nat].
Proof.
  split.
  - destruct (moveToPreferredSideBar_effect unit (fun _ d => d)
                (fun _ _ => None) (fun _ => 200) (fun _ => 100) window_0 3%nat)
      as (_ & H).
    exact (H eq_refl ltac:(vm_compute; reflexivity)).
  - destruct (moveToPreferredSideBar_effect unit (fun _ d => d)
                (fun _ _ => Some (Placement.mkItem 1)) (fun _ => 200)
                (fun _ => 100) window_0 3%nat) as (H & _).
    pose proof (H (Placement.mkItem 1) [1%nat; 2%nat] eq_refl
                  ltac:(vm_compute; reflexivity)) as H1.
    cbv zeta in H1. destruct H1 as (_ & Hs & _). exact Hs.
Defined.

Lemma rectForOverlay_horizontal_witness :
  let r := MainWindowBase.rectForOverlay side_bar_widgets (mkQRect 0 0 799 599)
             no_margins (mkQSize 80 90) SideBarLocation_North in
  Rect.height r = 300 ∧ Rect.width r = 768 ∧ Rect.left r = 31 ∧ Rect.top r = 30.
Proof.
  pose proof (rectForOverlay_horizontal side_bar_widgets (mkQRect 0 0 799 599)
                no_margins (mkQSize 80 90) SideBarLocation_North
                (MainWindowBase.mkSideBarGeometry 800 30 true 0)
                (or_introl eq_refl) eq_refl) as H.
  cbv zeta in H. destruct H as (Hh & _ & _ & Hw & Hl & Ht & _).
  cbv zeta. split; [exact Hh|]. split; [exact Hw|]. split; [exact Hl|].
  exact (Ht eq_refl).
Defined.

Lemma rectForOverlay_vertical_witness :
  let r := MainWindowBase.rectForOverlay side_bar_widgets (mkQRect 0 0 799 599)
             no_margins (mkQSize 400 90) SideBarLocation_West in
  Rect.width r = 400 ∧ Rect.height r = 570 ∧ Rect.top r = 59 ∧ Rect.left r = 31.
Proof.
  pose proof (rectForOverlay_vertical side_bar_widgets (mkQRect 0 0 799 599)
                no_margins (mkQSize 400 90) SideBarLocation_West
                (MainWindowBase.mkSideBarGeometry 30 570 true 30)
                (or_introl eq_refl) eq_refl) as H.
  cbv zeta in H. destruct H as (Hw & _ & _ & Hh & Ht & Hl & _).
  cbv zeta. split; [exact Hw|]. split; [exact Hh|]. split; [exact Ht|].
  exact (Hl eq_refl).
Defined.

Lemma rectForOverlay_null_witness :
  MainWindowBase.rectForOverlay side_bar_widgets (mkQRect 0 0 799 599)
    no_margins (mkQSize 400 90) SideBarLocation_East = RectMove.null.
Proof.
  destruct (rectForOverlay_null side_bar_widgets (mkQRect 0 0 799 599)
              no_margins (mkQSize 400 90) SideBarLocation_East
              (or_introl eq_refl)) as (H & _).
  exact H.
Defined.

Lemma updateCursor_handles_cursorPosition_witness :
  ∃ shape,
    WidgetResizeHandler.updateCursor true (handler_100 false 0)
      (WidgetResizeHandler.cursorPosition (fun _ p => p) (Some target_100)
         (mkQPoint 2 2))
    = [WidgetResizeHandler.ResetChildCursors]
      ++ WidgetResizeHandler.setMouseCursor (handler_100 false 0) shape ∧
    shape <> WidgetResizeHandler.ArrowCursor.
Proof.
  pose proof (updateCursor_handles_cursorPosition (fun _ p => p) true
                (handler_100 false 0) (Some target_100) (mkQPoint 2 2)) as H.
  cbv zeta in H. destruct H as (_ & H).
  exact (H ltac:(vm_compute; discriminate)).
Defined.

Lemma isOverlayedChanged_balanced_witness :
  let log := (MainWindowBase.performAll unit (fun _ d => d) (fun _ d => d)
                window_0
                [MainWindowBase.DoOverlayOnSideBar (Some 1%nat);
                 MainWindowBase.DoOverlayOnSideBar (Some 2%nat);
                 MainWindowBase.DoToggleOverlayOnSideBar (Some 2%nat)]).2 in
  MainWindowBase.overlayedChangesOf 1%nat true log
  = MainWindowBase.overlayedChangesOf 1%nat false log ∧
  MainWindowBase.overlayedChangesOf 1%nat false log = 1%nat.
Proof.
  destruct (isOverlayedChanged_balanced unit (fun _ d => d) (fun _ d => d)
              window_0
              [MainWindowBase.DoOverlayOnSideBar (Some 1%nat);
               MainWindowBase.DoOverlayOnSideBar (Some 2%nat);
               MainWindowBase.DoToggleOverlayOnSideBar (Some 2%nat)])
    as (_ & H & _).
  cbv zeta. split; [|vm_compute; reflexivity].
  apply H; vm_compute; discriminate.
Defined.
